(** * Scaffold host driver: register bus, registers, signal matrices, timeout

    A shallow embedding of the core of [api/scaffold/__init__.py]:
    [ScaffoldBus] (datagram framing, chunking, immediate and lazy
    acknowledgment), [Register] (capabilities, bounds, cache), the signal
    matrices of [Scaffold.sig_connect] and the timeout stack of
    [Scaffold.push_timeout] / [Scaffold.pop_timeout].

    Python integers are [Z]; bytes and bytearrays are [list Z] with the
    range check of [bytearray.append] written out; an object's mutable
    fields are a record threaded through a state-and-exception monad in which
    the state survives a raised exception, as it does in Python. *)

From Stdlib Require Import String Ascii.
From Stdlib Require Import ZArith List Bool Lia.
From Stdlib Require Import DecimalString.
From Stdlib Require Import SpecFloat.
Import ListNotations.
Local Open Scope string_scope.
Local Open Scope list_scope.
Local Open Scope Z_scope.

(** ** Exceptions and outcomes *)

(** [TimeoutError.__init__(data, size)]: when [data] is given the object
    stores [len(data)] as its size, otherwise the [size] argument. *)
Record TimeoutError_obj := mkTimeoutError {
  te_data : option (list Z);
  te_size : option Z
}.

Definition TimeoutError_init (data : option (list Z)) (size : option Z)
  : TimeoutError_obj :=
  match data with
  | Some d => mkTimeoutError (Some d) (Some (Z.of_nat (length d)))
  | None => mkTimeoutError None size
  end.

(** The Python exception classes the modelled code can raise. *)
Inductive exn : Type :=
| ValueError (msg : string)
| RuntimeError (msg : string)
| TimeoutError (e : TimeoutError_obj)
| AssertionError
| AttributeError (msg : string)
| IndexError
| OverflowError
| TypeError.

Definition is_ValueError (e : exn) : bool :=
  match e with ValueError _ => true | _ => false end.

Definition is_RuntimeError (e : exn) : bool :=
  match e with RuntimeError _ => true | _ => false end.

Definition is_TimeoutError (e : exn) : bool :=
  match e with TimeoutError _ => true | _ => false end.

(** What a call does: it returns, it raises, it never comes back from a
    blocking [ser.read], or (for the fuelled loops only) the fuel ran out. *)
Inductive outcome (A : Type) : Type :=
| Return (a : A)
| Raise (e : exn)
| Blocked
| OutOfFuel.
Arguments Return {A} a.
Arguments Raise {A} e.
Arguments Blocked {A}.
Arguments OutOfFuel {A}.

Definition M (S A : Type) : Type := S -> outcome A * S.

Definition ret {S A} (a : A) : M S A := fun s => (Return a, s).
Definition raise {S A} (e : exn) : M S A := fun s => (Raise e, s).
Definition bind {S A B} (c : M S A) (k : A -> M S B) : M S B :=
  fun s =>
    match c s with
    | (Return a, s') => k a s'
    | (Raise e, s') => (Raise e, s')
    | (Blocked, s') => (Blocked, s')
    | (OutOfFuel, s') => (OutOfFuel, s')
    end.
(** Sequencing of computations that touch no state. *)
Definition obind {A B} (o : outcome A) (k : A -> outcome B) : outcome B :=
  match o with
  | Return a => k a
  | Raise e => Raise e
  | Blocked => Blocked
  | OutOfFuel => OutOfFuel
  end.

Definition get_state {S} : M S S := fun s => (Return s, s).
Definition put_state {S} (s : S) : M S unit := fun _ => (Return tt, s).
Definition lift_pure {S A} (o : outcome A) : M S A := fun s => (o, s).

Declare Scope py_scope.
Delimit Scope py_scope with py.
Notation "x <- c ;; k" := (bind c (fun x => k))
  (at level 61, c at next level, right associativity) : py_scope.
Notation "c ;;; k" := (bind c (fun _ => k))
  (at level 61, right associativity) : py_scope.
Local Open Scope py_scope.

(** ** Python helpers *)

(** [x in range(lo, hi)] *)
Definition in_range (lo hi x : Z) : bool := (lo <=? x) && (x <? hi).

(** [bytearray.append(x)]: refuses what is not a byte. *)
Definition bytearray_append (b : list Z) (x : Z) : outcome (list Z) :=
  if in_range 0 256 x then Return (b ++ [x])
  else Raise (ValueError "byte must be in range(0, 256)").

(** [l[a:b]] for [0 <= a]. *)
Definition slice (l : list Z) (a b : Z) : list Z :=
  firstn (Z.to_nat (b - a)) (skipn (Z.to_nat a) l).

(** [l[:k]]: a negative [k] counts from the end. *)
Definition slice_to (l : list Z) (k : Z) : list Z :=
  if 0 <=? k then firstn (Z.to_nat k) l
  else firstn (Z.to_nat (Z.of_nat (length l) + k)) l.

(** [n.to_bytes(1, 'big')] digits, most significant first. *)
Fixpoint be_bytes (len : nat) (n : Z) : list Z :=
  match len with
  | O => []
  | S k => be_bytes k (Z.shiftr n 8) ++ [Z.land n 255]
  end.

(** [value.to_bytes(length, 'big', signed=False)] *)
Definition to_bytes (value : Z) (len : Z) : outcome (list Z) :=
  if value <? 0 then Raise OverflowError
  else if len <? 0 then Raise (ValueError "length argument must be non-negative")
  else if 2 ^ (8 * len) <=? value then Raise OverflowError
  else Return (be_bytes (Z.to_nat len) value).

(** ** The serial port *)

(** [tx]: the datagrams handed to [ser.write], oldest first.
    [rx]: the bytes the board delivers, next byte first. *)
Record Serial := mkSerial {
  tx : list (list Z);
  rx : list Z
}.

(** ** Register: the fields set by [Register.__init__] *)

Record Register := mkRegister {
  reg_address : Z;
  reg_w : bool;
  reg_r : bool;
  reg_volatile : bool;
  reg_wideness : Z;
  reg_min_value : Z;
  reg_max_value : Z;
  reg_cache : option Z
}.

Definition set_cache (r : Register) (c : option Z) : Register :=
  mkRegister (reg_address r) (reg_w r) (reg_r r) (reg_volatile r)
             (reg_wideness r) (reg_min_value r) (reg_max_value r) c.

(** ['c' in mode] *)
Fixpoint char_in (c : ascii) (mode : string) : bool :=
  match mode with
  | EmptyString => false
  | String a rest => Ascii.eqb a c || char_in c rest
  end.

Definition Register_init (mode : string) (address : Z) (wideness : Z)
    (min_value max_value : option Z) : outcome Register :=
  if negb (in_range 0 65536 address) then
    Raise (ValueError "Invalid register address")
  else
    let w := char_in "w"%char mode in
    let r := char_in "r"%char mode in
    let v := char_in "v"%char mode in
    if wideness <? 1 then Raise (ValueError "Invalid wideness")
    else if (1 <? wideness) && r then
      Raise (ValueError "Wideness must be 1 if register can be read.")
    else
      obind (match min_value with
             | None => Return 0
             | Some m =>
                 if negb (in_range 0 (2 ^ (wideness * 8)) m)
                 then Raise (ValueError "Invalid register minimum value")
                 else Return m
             end) (fun mn =>
      obind (match max_value with
             | None => Return (2 ^ (wideness * 8) - 1)
             | Some m =>
                 if negb (in_range 0 (2 ^ (wideness * 8)) m)
                 then Raise (ValueError "Invalid register maximum value")
                 else Return m
             end) (fun mx =>
      if mx <? mn then
        Raise (ValueError
          "Register minimum value must be lower or equal to maximum value")
      else Return (mkRegister address w r v wideness mn mx None))).

(** ** ScaffoldBus *)

Record ScaffoldBus := mkBus {
  ser : option Serial;
  lazy_writes : list Z;
  lazy_stack : Z
}.

Definition MAX_CHUNK : Z := 255.

Definition ScaffoldBus_init : ScaffoldBus := mkBus None [] 0.

(** [connect(dev)]: a fresh port whose incoming bytes are [incoming]. *)
Definition ScaffoldBus_connect (incoming : list Z) : M ScaffoldBus unit :=
  fun b => (Return tt, mkBus (Some (mkSerial [] incoming))
                              (lazy_writes b) (lazy_stack b)).

(** [self.ser.write(datagram)] *)
Definition ser_write (datagram : list Z) : M ScaffoldBus unit :=
  fun b =>
    match ser b with
    | None =>
        (Raise (AttributeError "'NoneType' object has no attribute 'write'"), b)
    | Some s =>
        (Return tt,
         mkBus (Some (mkSerial (tx s ++ [datagram]) (rx s)))
               (lazy_writes b) (lazy_stack b))
    end.

(** [self.ser.read(n)]: blocks until [n] bytes have arrived. *)
Definition ser_read (n : Z) : M ScaffoldBus (list Z) :=
  fun b =>
    match ser b with
    | None =>
        (Raise (AttributeError "'NoneType' object has no attribute 'read'"), b)
    | Some s =>
        if Z.of_nat (length (rx s)) <? n then (Blocked, b)
        else (Return (firstn (Z.to_nat n) (rx s)),
              mkBus (Some (mkSerial (tx s) (skipn (Z.to_nat n) (rx s))))
                    (lazy_writes b) (lazy_stack b))
    end.

(** The [poll] argument: [None], a [Register] instance, or an address. *)
Inductive poll_arg : Type :=
| PollNone
| PollReg (r : Register)
| PollAddr (a : Z).

(** [if isinstance(poll, Register): poll = poll.address] *)
Definition poll_address (p : poll_arg) : option Z :=
  match p with
  | PollNone => None
  | PollReg r => Some (reg_address r)
  | PollAddr a => Some a
  end.

Definition prepare_datagram (rw addr size : Z) (poll : poll_arg)
    (poll_mask poll_value : Z) : outcome (list Z) :=
  if negb (in_range 0 2 rw) then Raise (ValueError "Invalid rw argument")
  else if negb (in_range 1 (MAX_CHUNK + 1) size) then
    Raise (ValueError "Invalid size")
  else if negb (in_range 0 65536 addr) then Raise (ValueError "Invalid address")
  else
    let poll := poll_address poll in
    if match poll with
       | Some p => negb (in_range 0 65536 p)
       | None => false
       end
    then Raise (ValueError "Invalid polling address")
    else
      let command := rw in
      let command := if 1 <? size then Z.lor command 2 else command in
      let command :=
        match poll with Some _ => Z.lor command 4 | None => command end in
      obind (bytearray_append [] command) (fun d =>
      obind (bytearray_append d (Z.shiftr addr 8)) (fun d =>
      obind (bytearray_append d (Z.land addr 255)) (fun d =>
      obind (match poll with
             | Some p =>
                 obind (bytearray_append d (Z.shiftr p 8)) (fun d =>
                 obind (bytearray_append d (Z.land p 255)) (fun d =>
                 obind (bytearray_append d poll_mask) (fun d =>
                 bytearray_append d poll_value)))
             | None => Return d
             end) (fun d =>
      if 1 <? size then bytearray_append d size else Return d)))).

(** The [data] argument of [write]: an int or a bytes-like object. *)
Inductive data_arg : Type :=
| DataInt (n : Z)
| DataBytes (l : list Z).

(** [if type(data) is int: data = bytes([data])] *)
Definition data_bytes (d : data_arg) : outcome (list Z) :=
  match d with
  | DataInt n =>
      if in_range 0 256 n then Return [n]
      else Raise (ValueError "bytes must be in range(0, 256)")
  | DataBytes l => Return l
  end.

Definition lazy_append (chunk_size : Z) : M ScaffoldBus unit :=
  fun b => (Return tt,
            mkBus (ser b) (lazy_writes b ++ [chunk_size]) (lazy_stack b)).

(** [ser.read(1)[0]] *)
Definition read_ack : M ScaffoldBus Z :=
  res <- ser_read 1 ;;
  match res with
  | a :: _ => ret a
  | [] => raise IndexError
  end.

(** The [while remaining:] loop of [write]. *)
Fixpoint write_loop (fuel : nat) (addr : Z) (data : list Z) (poll : poll_arg)
    (poll_mask poll_value : Z) (offset remaining : Z) : M ScaffoldBus unit :=
  if remaining =? 0 then ret tt
  else
    match fuel with
    | O => lift_pure OutOfFuel
    | S fuel' =>
        let chunk_size := Z.min MAX_CHUNK remaining in
        datagram <-
          lift_pure (prepare_datagram 1 addr chunk_size poll poll_mask poll_value) ;;
        let datagram := datagram ++ slice data offset (offset + chunk_size) in
        ser_write datagram ;;;
        b <- get_state ;;
        (if lazy_stack b =? 0 then
           ack <- read_ack ;;
           if negb (ack =? chunk_size) then
             match poll with
             | PollNone => raise AssertionError
             | _ => raise (TimeoutError
                             (TimeoutError_init None (Some (offset + ack))))
             end
           else ret tt
         else lazy_append chunk_size) ;;;
        write_loop fuel' addr data poll poll_mask poll_value
                   (offset + chunk_size) (remaining - chunk_size)
    end.

Definition ScaffoldBus_write (addr : Z) (data : data_arg) (poll : poll_arg)
    (poll_mask poll_value : Z) : M ScaffoldBus unit :=
  b <- get_state ;;
  match ser b with
  | None => raise (RuntimeError "Not connected to board")
  | Some _ =>
      data <- lift_pure (data_bytes data) ;;
      write_loop (length data) addr data poll poll_mask poll_value
                 0 (Z.of_nat (length data))
  end.

(** [res[-1]] *)
Definition last_byte (res : list Z) : outcome Z :=
  match rev res with
  | a :: _ => Return a
  | [] => Raise IndexError
  end.

(** The [while remaining:] loop of [read]. *)
Fixpoint read_loop (fuel : nat) (addr : Z) (poll : poll_arg)
    (poll_mask poll_value : Z) (result : list Z) (remaining : Z)
  : M ScaffoldBus (list Z) :=
  if remaining =? 0 then ret result
  else
    match fuel with
    | O => lift_pure OutOfFuel
    | S fuel' =>
        let chunk_size := Z.min MAX_CHUNK remaining in
        datagram <-
          lift_pure (prepare_datagram 0 addr chunk_size poll poll_mask poll_value) ;;
        ser_write datagram ;;;
        res <- ser_read (chunk_size + 1) ;;
        ack <- lift_pure (last_byte res) ;;
        if negb (ack =? chunk_size) then
          match poll with
          | PollNone => raise AssertionError
          | _ => raise (TimeoutError
                          (TimeoutError_init (Some (result ++ slice_to res ack))
                                             None))
          end
        else
          read_loop fuel' addr poll poll_mask poll_value
                    (result ++ slice_to res (-1)) (remaining - chunk_size)
    end.

Definition ScaffoldBus_read (addr : Z) (size : Z) (poll : poll_arg)
    (poll_mask poll_value : Z) : M ScaffoldBus (list Z) :=
  b <- get_state ;;
  match ser b with
  | None => raise (RuntimeError "Not connected to board")
  | Some _ =>
      if 0 <? lazy_stack b then
        raise (RuntimeError
          "Read operations not allowed during lazy-update section.")
      else
        read_loop (S (Z.to_nat size)) addr poll poll_mask poll_value [] size
  end.

Definition ScaffoldBus_set_timeout (value : Z) : M ScaffoldBus unit :=
  if (value <? 0) || (4294967295 <? value) then
    raise (ValueError "Timeout value out of range")
  else
    d <- lift_pure (bytearray_append [] 8) ;;
    v <- lift_pure (to_bytes value 4) ;;
    ser_write (d ++ v).

Definition lazy_start : M ScaffoldBus unit :=
  fun b => (Return tt, mkBus (ser b) (lazy_writes b) (lazy_stack b + 1)).

(** The [for expected_size in self.__lazy_writes:] loop of [lazy_end];
    [last_error] is threaded through. *)
Fixpoint lazy_end_loop (queue : list Z) (last_error : option exn)
  : M ScaffoldBus (option exn) :=
  match queue with
  | [] => ret last_error
  | expected_size :: queue' =>
      ack <- read_ack ;;
      lazy_end_loop queue'
        (if negb (ack =? expected_size)
         then Some (TimeoutError (TimeoutError_init None (Some ack)))
         else last_error)
  end.

Definition lazy_writes_clear : M ScaffoldBus unit :=
  fun b => (Return tt, mkBus (ser b) [] (lazy_stack b)).

Definition lazy_end : M ScaffoldBus unit :=
  b <- get_state ;;
  if lazy_stack b =? 0 then raise (RuntimeError "No lazy section started")
  else
    put_state (mkBus (ser b) (lazy_writes b) (lazy_stack b - 1)) ;;;
    b <- get_state ;;
    last_error <-
      (if lazy_stack b =? 0 then lazy_end_loop (lazy_writes b) None
       else ret None) ;;
    lazy_writes_clear ;;;
    match last_error with
    | Some e => raise e
    | None => ret tt
    end.

(** Attribute lookup on a [ScaffoldBus] instance: the names bound by
    [__init__] in the instance dictionary, then the names bound in the class
    body. The class defines no [__getattr__]. *)
Inductive attr_value : Type :=
| AttrNone
| AttrObject.

Definition ScaffoldBus_instance_attrs : list string :=
  ["ser"; "_ScaffoldBus__lazy_writes"; "_ScaffoldBus__lazy_stack"].

Definition ScaffoldBus_class_attrs : list string :=
  ["MAX_CHUNK"; "__init__"; "connect"; "prepare_datagram"; "write"; "read";
   "set_timeout"; "is_connected"; "lazy_start"; "lazy_end"; "lazy_section"].

Definition ScaffoldBus_getattr (name : string) : M ScaffoldBus attr_value :=
  fun b =>
    if existsb (String.eqb name) ScaffoldBus_instance_attrs then
      (Return (if String.eqb name "ser"
               then match ser b with None => AttrNone | Some _ => AttrObject end
               else AttrObject), b)
    else if existsb (String.eqb name) ScaffoldBus_class_attrs then
      (Return AttrObject, b)
    else
      (Raise (AttributeError
                ("'ScaffoldBus' object has no attribute '" ++ name ++ "'")), b).

(** [return self.set is not None] *)
Definition is_connected : M ScaffoldBus bool :=
  v <- ScaffoldBus_getattr "set" ;;
  ret (match v with AttrNone => false | AttrObject => true end).

(** ** Register methods

    A register and the bus of its parent board are the state. *)

Definition RegState : Type := (Register * ScaffoldBus)%type.

(** [self.__parent.bus.<method>(...)] *)
Definition on_bus {A} (c : M ScaffoldBus A) : M RegState A :=
  fun st =>
    let '(o, b') := c (snd st) in (o, (fst st, b')).

Definition cache_store (v : Z) : M RegState unit :=
  fun st => (Return tt, (set_cache (fst st) (Some v), snd st)).

Definition Register_set (value : Z) (poll : poll_arg)
    (poll_mask poll_value : Z) : M RegState unit :=
  st <- get_state ;;
  let self := fst st in
  if value <? reg_min_value self then raise (ValueError "Value too low")
  else if reg_max_value self <? value then raise (ValueError "Value too high")
  else if negb (reg_w self) then raise (RuntimeError "Register cannot be written")
  else
    value_bytes <- lift_pure (to_bytes value (reg_wideness self)) ;;
    on_bus (ScaffoldBus_write (reg_address self) (DataBytes value_bytes)
                              poll poll_mask poll_value) ;;;
    cache_store value.

(** [self.__parent.bus.read(self.__address)[0]] *)
Definition bus_read_byte (addr : Z) : M RegState Z :=
  res <- on_bus (ScaffoldBus_read addr 1 PollNone 255 0) ;;
  match res with
  | v :: _ => ret v
  | [] => raise IndexError
  end.

Definition Register_get : M RegState Z :=
  st <- get_state ;;
  let self := fst st in
  if reg_volatile self then
    if negb (reg_r self) then raise (RuntimeError "Register cannot be read")
    else bus_read_byte (reg_address self)
  else
    match reg_cache self with
    | None =>
        if reg_r self then
          value <- bus_read_byte (reg_address self) ;;
          cache_store value ;;;
          ret value
        else raise (RuntimeError "Register cannot be read")
    | Some c => ret c
    end.

(** [a << n] and [a >> n]: a negative count is an error. *)
Definition py_shl {S} (a n : Z) : M S Z :=
  if n <? 0 then raise (ValueError "negative shift count")
  else ret (Z.shiftl a n).
Definition py_shr {S} (a n : Z) : M S Z :=
  if n <? 0 then raise (ValueError "negative shift count")
  else ret (Z.shiftr a n).

Definition Register_or_set (value : Z) : M RegState unit :=
  cur <- Register_get ;;
  Register_set (Z.lor cur value) PollNone 255 0.

Definition Register_set_bit (index : Z) (value : bool) (poll : poll_arg)
    (poll_mask poll_value : Z) : M RegState unit :=
  cur <- Register_get ;;
  one <- py_shl 1 index ;;
  bit <- py_shl (if value then 1 else 0) index ;;
  Register_set (Z.lor (Z.land cur (Z.lnot one)) bit) poll poll_mask poll_value.

Definition Register_get_bit (index : Z) : M RegState Z :=
  cur <- Register_get ;;
  sh <- py_shr cur index ;;
  ret (Z.land sh 1).

Definition Register_set_mask (value mask : Z) (poll : poll_arg)
    (poll_mask poll_value : Z) : M RegState unit :=
  current <- Register_get ;;
  Register_set (Z.lor (Z.land current (Z.lnot mask)) (Z.land value mask))
               poll poll_mask poll_value.

Definition Register_write (data : data_arg) (poll : poll_arg)
    (poll_mask poll_value : Z) : M RegState unit :=
  st <- get_state ;;
  if negb (reg_w (fst st)) then raise (RuntimeError "Register cannot be written")
  else on_bus (ScaffoldBus_write (reg_address (fst st)) data
                                 poll poll_mask poll_value).

Definition Register_read (size : Z) (poll : poll_arg)
    (poll_mask poll_value : Z) : M RegState (list Z) :=
  st <- get_state ;;
  if negb (reg_r (fst st)) then raise (RuntimeError "Register cannot be read")
  else on_bus (ScaffoldBus_read (reg_address (fst st)) size
                                poll poll_mask poll_value).

(** ** Python floats

    A Python [float] is an IEEE 754 binary64 number; its operations are the
    correctly rounded ones of [SpecFloat] at precision 53. *)

Definition prec : Z := 53.
Definition emax : Z := 1024.

Definition float_of_int (n : Z) : spec_float := binary_normalize prec emax n 0 false.
Definition float_div : spec_float -> spec_float -> spec_float := SFdiv prec emax.
Definition float_mul : spec_float -> spec_float -> spec_float := SFmul prec emax.

(** [int(x)]: truncation toward zero. *)
Definition int_of_float (x : spec_float) : outcome Z :=
  match x with
  | S754_zero _ => Return 0
  | S754_infinity _ => Raise OverflowError
  | S754_nan => Raise (ValueError "cannot convert float NaN to integer")
  | S754_finite s m e =>
      let v := if 0 <=? e then Z.pos m * 2 ^ e else Z.pos m / 2 ^ (- e) in
      Return (if s then - v else v)
  end.

(** ** Scaffold *)

(** [SYS_FREQ = 100e6] and [__TIMEOUT_UNIT = (3.0/SYS_FREQ)] *)
Definition SYS_FREQ : spec_float := float_of_int 100000000.
Definition TIMEOUT_UNIT : spec_float := float_div (float_of_int 3) SYS_FREQ.

Definition IO_D_COUNT : nat := 16.
Definition UART_COUNT : nat := 2.
Definition PULSE_GENERATOR_COUNT : nat := 4.
Definition I2C_COUNT : nat := 1.
Definition ADDR_MTXR_BASE : Z := 0xf100.
Definition ADDR_MTXL_BASE : Z := 0xf000.

(** [str(i)] for [i] in a [range]. *)
Definition str_of_nat (i : nat) : string :=
  NilEmpty.string_of_uint (Nat.to_uint i).

(** [list(f(i) for i in range(n))] *)
Definition for_range {A} (n : nat) (f : nat -> A) : list A := map f (seq 0 n).

Definition mtxl_in_init : list string :=
  ["0"; "1"; "/io/a0"; "/io/a1"; "/io/b0"; "/io/b1"; "/io/c0"; "/io/c1"]
  ++ for_range IO_D_COUNT (fun i => "/io/d" ++ str_of_nat i)%string.

Definition mtxl_out_init : list string :=
  for_range UART_COUNT (fun i => "/uart" ++ str_of_nat i ++ "/rx")%string
  ++ ["/iso7816/io_in"]
  ++ for_range PULSE_GENERATOR_COUNT
       (fun i => "/pgen" ++ str_of_nat i ++ "/start")%string
  ++ concat (for_range I2C_COUNT (fun i =>
       ["/i2c" ++ str_of_nat i ++ "/sda_in";
        "/i2c" ++ str_of_nat i ++ "/scl_in"]%string)).

Definition mtxr_in_init : list string :=
  ["z"; "0"; "1"; "/power/dut_trigger"; "/power/platform_trigger"]
  ++ concat (for_range UART_COUNT (fun i =>
       ["/uart" ++ str_of_nat i ++ "/tx";
        "/uart" ++ str_of_nat i ++ "/trigger"]%string))
  ++ ["/iso7816/io_out"; "/iso7816/clk"; "/iso7816/trigger"]
  ++ for_range PULSE_GENERATOR_COUNT
       (fun i => "/pgen" ++ str_of_nat i ++ "/out")%string
  ++ concat (for_range I2C_COUNT (fun i =>
       ["/i2c" ++ str_of_nat i ++ "/sda_out";
        "/i2c" ++ str_of_nat i ++ "/scl_out";
        "/i2c" ++ str_of_nat i ++ "/trigger"]%string)).

Definition mtxr_out_init : list string :=
  ["/io/a0"; "/io/a1"; "/io/b0"; "/io/b1"; "/io/c0"; "/io/c1"]
  ++ for_range IO_D_COUNT (fun i => "/io/d" ++ str_of_nat i)%string.

(** What the [timeout] getter can hand back and the setter can be given. *)
Inductive pyvalue : Type :=
| PyInt (n : Z)
| PyFloat (x : spec_float)
| PyExcObject (e : exn).

Record Scaffold := mkScaffold {
  bus : ScaffoldBus;
  cache_timeout : option Z;
  timeout_stack : list pyvalue;
  mtxl_in : list string;
  mtxl_out : list string;
  mtxr_in : list string;
  mtxr_out : list string
}.

(** The attributes [Scaffold.__init__] sets, for a board not yet connected. *)
Definition Scaffold_init : Scaffold :=
  mkScaffold ScaffoldBus_init None []
             mtxl_in_init mtxl_out_init mtxr_in_init mtxr_out_init.

(** [self.bus.<method>(...)] *)
Definition with_bus {A} (c : M ScaffoldBus A) : M Scaffold A :=
  fun s =>
    let '(o, b') := c (bus s) in
    (o, mkScaffold b' (cache_timeout s) (timeout_stack s)
                   (mtxl_in s) (mtxl_out s) (mtxr_in s) (mtxr_out s)).

(** The arguments [sig_connect] is called with. [own] tells whether a
    [Signal]'s parent is this board. *)
Inductive signal_arg : Type :=
| SigSignal (own : bool) (path : string)
| SigInt (n : Z)
| SigNone
| SigOther.

Definition signal_to_path (signal : signal_arg) : outcome string :=
  match signal with
  | SigSignal own path =>
      if negb own then
        Raise (ValueError "Signal belongs to another Scaffold instance")
      else Return path
  | SigInt n =>
      if negb ((n =? 0) || (n =? 1)) then
        Raise (ValueError "Invalid signal value")
      else Return (if n =? 0 then "0" else "1")
  | SigNone => Return "z"
  | SigOther => Raise (ValueError "Invalid signal type")
  end.

(** [x in l] *)
Definition str_in (x : string) (l : list string) : bool :=
  existsb (String.eqb x) l.

(** [l.index(x)]; the message is [repr(x) + ' is not in list'], [repr] being
    written here for a name without quotes or escapes, as the signal paths
    are. *)
Fixpoint list_index (x : string) (l : list string) : outcome Z :=
  match l with
  | [] => Raise (ValueError ("'" ++ x ++ "' is not in list")%string)
  | y :: l' =>
      if String.eqb y x then Return 0
      else obind (list_index x l') (fun i => Return (i + 1))
  end.

Definition sig_connect (a b : signal_arg) : M Scaffold unit :=
  dest_path <- lift_pure (signal_to_path a) ;;
  src_path <- lift_pure (signal_to_path b) ;;
  self <- get_state ;;
  if str_in dest_path (mtxr_out self) then
    src_index <- lift_pure (list_index src_path (mtxr_in self)) ;;
    dst_index <- lift_pure (list_index dest_path (mtxr_out self)) ;;
    with_bus (ScaffoldBus_write (ADDR_MTXR_BASE + dst_index) (DataInt src_index)
                                PollNone 255 0)
  else if str_in dest_path (mtxl_out self) then
    src_index <- lift_pure (list_index src_path (mtxl_in self)) ;;
    dst_index <- lift_pure (list_index dest_path (mtxl_out self)) ;;
    with_bus (ScaffoldBus_write (ADDR_MTXL_BASE + dst_index) (DataInt src_index)
                                PollNone 255 0)
  else
    raise (RuntimeError ("Invalid destination path '" ++ dest_path ++ "'")).

(** The [timeout] property getter: with no cached value it RETURNS the
    [RuntimeError] object. *)
Definition timeout_get (self : Scaffold) : pyvalue :=
  match cache_timeout self with
  | None => PyExcObject (RuntimeError "Timeout not set yet")
  | Some n => PyFloat (float_mul (float_of_int n) TIMEOUT_UNIT)
  end.

(** [value / self.__TIMEOUT_UNIT] *)
Definition div_by_unit (value : pyvalue) : outcome spec_float :=
  match value with
  | PyInt n =>
      match float_of_int n with
      | S754_infinity _ => Raise OverflowError
      | x => Return (float_div x TIMEOUT_UNIT)
      end
  | PyFloat x => Return (float_div x TIMEOUT_UNIT)
  | PyExcObject _ => Raise TypeError
  end.

Definition set_cache_timeout (n : Z) : M Scaffold unit :=
  fun s => (Return tt,
            mkScaffold (bus s) (Some n) (timeout_stack s)
                       (mtxl_in s) (mtxl_out s) (mtxr_in s) (mtxr_out s)).

(** The [timeout] property setter. *)
Definition timeout_set (value : pyvalue) : M Scaffold unit :=
  q <- lift_pure (div_by_unit value) ;;
  n <- lift_pure (int_of_float q) ;;
  with_bus (ScaffoldBus_set_timeout n) ;;;
  set_cache_timeout n.

Definition set_timeout_stack (l : list pyvalue) : M Scaffold unit :=
  fun s => (Return tt,
            mkScaffold (bus s) (cache_timeout s) l
                       (mtxl_in s) (mtxl_out s) (mtxr_in s) (mtxr_out s)).

Definition push_timeout (value : pyvalue) : M Scaffold unit :=
  self <- get_state ;;
  set_timeout_stack (timeout_stack self ++ [timeout_get self]) ;;;
  timeout_set value.

(** [self.__timeout_stack.pop()]: removes and returns the last item. *)
Definition timeout_stack_pop : M Scaffold pyvalue :=
  self <- get_state ;;
  match rev (timeout_stack self) with
  | [] => raise IndexError
  | top :: below => set_timeout_stack (rev below) ;;; ret top
  end.

Definition pop_timeout : M Scaffold unit :=
  self <- get_state ;;
  if Z.of_nat (length (timeout_stack self)) =? 0 then
    raise (RuntimeError "Timeout setting stack is empty")
  else
    top <- timeout_stack_pop ;;
    timeout_set top.

(** ** Observations and reference functions used by the properties *)

(** The datagrams handed to the transport so far. *)
Definition sent (b : ScaffoldBus) : list (list Z) :=
  match ser b with
  | Some s => tx s
  | None => []
  end.

(** The bytes of the board not yet consumed. *)
Definition pending (b : ScaffoldBus) : list Z :=
  match ser b with
  | Some s => rx s
  | None => []
  end.

(** The error left by draining [queue] against the acknowledgments
    [acks]: the last mismatching pair wins. *)
Fixpoint last_mismatch (queue acks : list Z) (err : option exn) : option exn :=
  match queue, acks with
  | expected :: queue', ack :: acks' =>
      last_mismatch queue' acks'
        (if negb (ack =? expected)
         then Some (TimeoutError (TimeoutError_init None (Some ack)))
         else err)
  | _, _ => err
  end.

(** A board that answers a single byte, [2], to whatever it is sent. *)
Definition nested_bus0 : ScaffoldBus := mkBus (Some (mkSerial [] [2])) [] 0.

(** [lazy_start(); lazy_start(); write(0x0210, b'\x01\x02\x03')] *)
Definition nested_prefix : M ScaffoldBus unit :=
  lazy_start ;;; lazy_start ;;;
  ScaffoldBus_write 0x0210 (DataBytes [1; 2; 3]) PollNone 255 0.

(** The chunking the specification describes: consecutive pieces of at most
    255 bytes. *)
Fixpoint chunks_fuel (fuel : nat) (l : list Z) : list (list Z) :=
  match l with
  | [] => []
  | _ :: _ =>
      match fuel with
      | O => []
      | S f => firstn 255 l :: chunks_fuel f (skipn 255 l)
      end
  end.

Definition chunks (l : list Z) : list (list Z) := chunks_fuel (length l) l.

Definition len (c : list Z) : Z := Z.of_nat (length c).

(** The request datagram as the specification lays it out: command byte
    rw (bit 0) | multi-chunk (bit 1) | poll flag (bit 2); address, big-endian;
    poll address (big-endian), mask and expected value when polling; the size
    byte when the size exceeds 1. *)
Definition spec_command (rw size : Z) (poll : option Z) : Z :=
  rw + (if 1 <? size then 2 else 0)
     + (match poll with Some _ => 4 | None => 0 end).

Definition spec_header (rw addr size : Z) (poll : option Z)
    (poll_mask poll_value : Z) : list Z :=
  [spec_command rw size poll; addr / 256; addr mod 256]
  ++ (match poll with
      | Some p => [p / 256; p mod 256; poll_mask; poll_value]
      | None => []
      end)
  ++ (if 1 <? size then [size] else []).

Definition spec_write_datagram (addr : Z) (poll : poll_arg)
    (poll_mask poll_value : Z) (chunk : list Z) : list Z :=
  spec_header 1 addr (len chunk) (poll_address poll) poll_mask poll_value
  ++ chunk.

Definition spec_read_datagram (addr : Z) (poll : poll_arg)
    (poll_mask poll_value : Z) (size : Z) : list Z :=
  spec_header 0 addr size (poll_address poll) poll_mask poll_value.

(** The poll parameters [prepare_datagram] accepts. *)
Definition valid_poll (poll : poll_arg) (poll_mask poll_value : Z) : bool :=
  match poll_address poll with
  | None => true
  | Some p =>
      in_range 0 65536 p && in_range 0 256 poll_mask
      && in_range 0 256 poll_value
  end.

Definition connected_bus (t : list (list Z)) (r : list Z) (q : list Z) (d : Z)
  : ScaffoldBus :=
  mkBus (Some (mkSerial t r)) q d.

(** The number of chunks in a list of chunks, as an integer. *)
Definition len_chunks (cs : list (list Z)) : Z := Z.of_nat (length cs).

(** What [Register.__init__] guarantees about the fields it sets. *)
Definition Register_ok (r : Register) : bool :=
  in_range 0 65536 (reg_address r)
  && (1 <=? reg_wideness r)
  && (0 <=? reg_min_value r)
  && (reg_min_value r <=? reg_max_value r)
  && (reg_max_value r <? 2 ^ (8 * reg_wideness r))
  && (negb (reg_r r) || (reg_wideness r =? 1)).

(** The integer a big-endian byte string stands for. *)
Definition be_value (l : list Z) : Z :=
  fold_left (fun acc x => acc * 256 + x) l 0.

(** [res[0]] on what a bus read gave. *)
Definition first_byte (o : outcome (list Z)) : outcome Z :=
  obind o (fun res =>
    match res with
    | v :: _ => Return v
    | [] => Raise IndexError
    end).

(** The register stays or takes the cache [v] according to how the bus
    call ended. *)
Definition cache_if_returned {A} (o : outcome A) (r : Register) (v : Z)
  : Register :=
  match o with
  | Return _ => set_cache r (Some v)
  | _ => r
  end.

(** A board with the tables of [Scaffold.__init__], connected, outside lazy
    sections, whose device will deliver the bytes [incoming]. *)
Definition connected_board (incoming : list Z) (cache : option Z)
    (stack : list pyvalue) : Scaffold :=
  mkScaffold (connected_bus [] incoming [] 0) cache stack
             mtxl_in_init mtxl_out_init mtxr_in_init mtxr_out_init.

(** The Python literals [1.534e-5], [0.5] and [1.0]. *)
Definition float_1534e_8 : spec_float :=
  float_div (float_of_int 1534) (float_of_int 100000000).
Definition float_half : spec_float := float_div (float_of_int 1) (float_of_int 2).
Definition float_one : spec_float := float_of_int 1.

(** [push_timeout(1.534e-5); push_timeout(1.0); pop_timeout()] *)
Definition push_push_pop : M Scaffold unit :=
  push_timeout (PyFloat float_1534e_8) ;;;
  push_timeout (PyFloat float_one) ;;;
  pop_timeout.

(** ** ScaffoldBusLazySection

    [with bus.lazy_section(): body]. [__enter__] calls [lazy_start];
    [__exit__] calls [lazy_end] whether the body returned or raised, and
    returns nothing, so an exception of the body propagates unless [lazy_end]
    raises one of its own, which then takes its place. A body that never
    comes back never reaches [__exit__]. *)
Definition with_lazy_section {A} (body : M ScaffoldBus A) : M ScaffoldBus A :=
  fun b =>
    match (lazy_start ;;; body) b with
    | (Return a, b1) =>
        match lazy_end b1 with
        | (Return _, b2) => (Return a, b2)
        | (Raise e', b2) => (Raise e', b2)
        | (Blocked, b2) => (Blocked, b2)
        | (OutOfFuel, b2) => (OutOfFuel, b2)
        end
    | (Raise e, b1) =>
        match lazy_end b1 with
        | (Return _, b2) => (Raise e, b2)
        | (Raise e', b2) => (Raise e', b2)
        | (Blocked, b2) => (Blocked, b2)
        | (OutOfFuel, b2) => (OutOfFuel, b2)
        end
    | (Blocked, b1) => (Blocked, b1)
    | (OutOfFuel, b1) => (OutOfFuel, b1)
    end.

(** ** Version *)

(** [self.add_register('data', 'r', 0x0100)] *)
Definition Version_reg_data : outcome Register :=
  Register_init "r" 0x0100 1 None None.

(** [buf[offset]] for [0 <= offset]. *)
Definition buf_at (buf : list Z) (offset : Z) : outcome Z :=
  match nth_error buf (Z.to_nat offset) with
  | Some x => Return x
  | None => Raise IndexError
  end.

(** [chr(x)] for a byte. *)
Definition chr (x : Z) : ascii := ascii_of_nat (Z.to_nat x).

(** [while buf[offset] != 0: offset += 1] *)
Fixpoint skip_to_zero (fuel : nat) (buf : list Z) (offset : Z) : outcome Z :=
  match fuel with
  | O => OutOfFuel
  | S fuel' =>
      obind (buf_at buf offset) (fun x =>
        if negb (x =? 0) then skip_to_zero fuel' buf (offset + 1)
        else Return offset)
  end.

(** [while buf[offset] != 0: result += chr(buf[offset]); offset += 1] *)
Fixpoint collect_to_zero (fuel : nat) (buf : list Z) (offset : Z)
    (result : string) : outcome string :=
  match fuel with
  | O => OutOfFuel
  | S fuel' =>
      obind (buf_at buf offset) (fun x =>
        if negb (x =? 0) then
          collect_to_zero fuel' buf (offset + 1)
                          (result ++ String (chr x) EmptyString)%string
        else Return result)
  end.

(** [Version.get_string], on the data register and the bus. *)
Definition Version_get_string : M RegState string :=
  buf <- Register_read (32 + 1 + 32 + 1) PollNone 255 0 ;;
  offset <- lift_pure (skip_to_zero (S (length buf)) buf 0) ;;
  lift_pure (collect_to_zero (S (length buf)) buf (offset + 1) EmptyString).

(** The characters of a byte string. *)
Fixpoint bytes_to_string (l : list Z) : string :=
  match l with
  | [] => EmptyString
  | x :: l' => String (chr x) (bytes_to_string l')
  end.

(** ** PulseGenerator: the pulse count *)

(** [self.add_register('count', 'w', base + 6, wideness=2)] with
    [base = 0x0300 + 0x0010 * index] *)
Definition PulseGenerator_reg_count (index : Z) : outcome Register :=
  Register_init "w" (0x0300 + 0x0010 * index + 6) 2 None None.

(** The [count] setter and getter, on the count register and the bus. *)
Definition PulseGenerator_count_set (value : Z) : M RegState unit :=
  if negb (in_range 1 (2 ^ 16 + 1) value) then
    raise (ValueError "Invalid pulse count")
  else Register_set (value - 1) PollNone 255 0.

Definition PulseGenerator_count_get : M RegState Z :=
  c <- Register_get ;; ret (c + 1).

(** ** ISO7816: the ETU parameter *)

(** [self.add_register('etu', 'w', base + 4, wideness=2)] with
    [base = 0x0500] *)
Definition ISO7816_reg_etu : outcome Register :=
  Register_init "w" (0x0500 + 4) 2 None None.

Definition ISO7816_etu_set (value : Z) : M RegState unit :=
  if negb (in_range 1 (2 ^ 11) value) then
    raise (ValueError "Invalid ETU parameter")
  else Register_set (value - 1) PollNone 255 0.

Definition ISO7816_etu_get : M RegState Z :=
  c <- Register_get ;; ret (c + 1).

(** ** I2C: the transaction header *)

(** [I2C.__make_header(address, rw)]; [self_address] is [self.address]. *)
Definition I2C_make_header (self_address address : option Z) (rw : Z)
  : outcome (list Z) :=
  if negb ((rw =? 0) || (rw =? 1)) then Raise AssertionError
  else
    let address :=
      match address with None => self_address | Some a => Some a end in
    match address with
    | None => Raise (ValueError "I2C transaction address is not defined")
    | Some address =>
        if address <? 0 then Raise (ValueError "I2C address cannot be negative")
        else if 2 ^ 11 <=? address then
          Raise (ValueError "I2C address is too big")
        else if 2 ^ 8 <? address then
          if negb (Z.land address 0x10 =? 0) then
            Raise (ValueError "I2C address bit 8 (R/W) must be 0")
          else
            obind (bytearray_append [] (0xf0 + Z.shiftr address 8 + rw))
                  (fun d => bytearray_append d (Z.land address 0x0f))
        else if negb (Z.land address 1 =? 0) then
          Raise (ValueError "I2C address LSB (R/W) must be 0")
        else bytearray_append [] (address + rw)
    end.

(** ** IO *)

(** [IO.__init__]: the group, the index in the group and the two registers
    of an I/O. *)
Record IO := mkIO {
  io_index : Z;
  io_group : Z;
  io_group_index : Z;
  io_reg_value : Register;
  io_reg_event : Register
}.

Definition IO_init (index : Z) : outcome IO :=
  let group := index / 8 in
  let group_index := index mod 8 in
  let base := 0xe000 + 0x10 * group in
  obind (Register_init "rv" (base + 0x00) 1 None None) (fun reg_value =>
  obind (Register_init "rwv" (base + 0x01) 1 None None) (fun reg_event =>
  Return (mkIO index group group_index reg_value reg_event))).

(** [IO.value], on the value register of the I/O and the bus. *)
Definition IO_value (group_index : Z) : M RegState Z :=
  v <- Register_get ;;
  sh <- py_shr v group_index ;;
  ret (Z.land sh 1).

(** [IO.clear_event], on the event register of the I/O and the bus. *)
Definition IO_clear_event (group_index : Z) : M RegState unit :=
  one <- py_shl 1 group_index ;;
  Register_set (Z.lxor 0xff one) PollNone 255 0.

(** ** Power *)

(** [self.add_register('control', 'rwv', self.__ADDR_CONTROL)] *)
Definition Power_reg_control : outcome Register :=
  Register_init "rwv" 0x0600 1 None None.

(** The [all], [platform] and [dut] setters, on the control register and
    the bus. *)
Definition Power_all_set (value : Z) : M RegState unit :=
  if negb (Z.land value (Z.lnot 3) =? 0) then raise AssertionError
  else Register_set value PollNone 255 0.

Definition Power_platform_set (value : bool) : M RegState unit :=
  Register_set_bit 1 value PollNone 255 0.

Definition Power_dut_set (value : bool) : M RegState unit :=
  Register_set_bit 0 value PollNone 255 0.

(** ** The tables of the crossbars *)

(** No string occurs twice. *)
Fixpoint distinctb (l : list string) : bool :=
  match l with
  | [] => true
  | x :: l' => negb (str_in x l') && distinctb l'
  end.

(** ** Module attributes *)

(** What the instance dictionary of a module holds. *)
Inductive attr : Type :=
| AttrRegister (r : Register)
| AttrLED (index : Z)
| AttrOther.

(** [d.get(key)] and [d[key] = value] on a dictionary kept in insertion
    order: a key already present keeps its place. *)
Fixpoint dict_get {A} (key : string) (d : list (string * A)) : option A :=
  match d with
  | [] => None
  | (k, v) :: d' => if String.eqb k key then Some v else dict_get key d'
  end.

Fixpoint dict_set {A} (key : string) (value : A) (d : list (string * A))
  : list (string * A) :=
  match d with
  | [] => [(key, value)]
  | (k, v) :: d' =>
      if String.eqb k key then (k, value) :: d'
      else (k, v) :: dict_set key value d'
  end.

(** [Module.__init__]: the two private attributes. *)
Definition Module_init (d : list (string * attr)) : list (string * attr) :=
  dict_set "_Module__path" AttrOther (dict_set "_Module__parent" AttrOther d).

(** [Module.add_register(name, mode, address, wideness=...)] *)
Definition Module_add_register (name mode : string) (address wideness : Z)
    (d : list (string * attr)) : outcome (list (string * attr)) :=
  obind (Register_init mode address wideness None None) (fun r =>
  Return (dict_set ("reg_" ++ name) (AttrRegister r) d)).

(** [Module.__setattr__(key, value)] for a [value] that is an object and not
    a number: on a key that holds a [Register] the call is [item.set(value)],
    whose first comparison with the register's minimum fails; on any other
    key the attribute is (re)bound. *)
Definition Module_setattr (key : string) (value : attr)
    (d : list (string * attr)) : outcome (list (string * attr)) :=
  match dict_get key d with
  | Some (AttrRegister _) => Raise TypeError
  | _ => Return (dict_set key value d)
  end.

(** ** LEDs *)

Definition LEDs_leds : list string :=
  ["a0"; "b1"; "b0"; "b1"; "c0"; "c1"; "d0"; "d1"; "d2"; "d3"; "d4"; "d5"].

(** [for i, name in enumerate(leds): self.__setattr__(name, LED(self, i+6))] *)
Fixpoint LEDs_init_loop (i : Z) (names : list string)
    (d : list (string * attr)) : outcome (list (string * attr)) :=
  match names with
  | [] => Return d
  | name :: rest =>
      obind (Module_setattr name (AttrLED (i + 6)) d)
            (LEDs_init_loop (i + 1) rest)
  end.

(** [LEDs.__init__]: the instance dictionary it leaves. *)
Definition LEDs_init : outcome (list (string * attr)) :=
  obind (Module_add_register "control" "w" 0x0200 1 (Module_init []))
        (fun d =>
  obind (Module_add_register "brightness" "w" 0x0201 1 d) (fun d =>
  obind (Module_add_register "leds_0" "w" 0x0202 1 d) (fun d =>
  obind (Module_add_register "leds_1" "w" 0x0203 1 d) (fun d =>
  obind (Module_add_register "leds_2" "w" 0x0204 1 d) (fun d =>
  obind (Module_add_register "mode" "w" 0x0205 3 d) (fun d =>
  LEDs_init_loop 0 LEDs_leds d)))))).

(** [str(n)] for an int. *)
Definition str_of_Z (n : Z) : string :=
  if n <? 0 then ("-" ++ str_of_nat (Z.to_nat (- n)))%string
  else str_of_nat (Z.to_nat n).

(** [LEDMode(value).value] for an int [value]: [EVENT = 0], [VALUE = 1]. *)
Definition LEDMode_value (value : Z) : outcome Z :=
  if (value =? 0) || (value =? 1) then Return value
  else Raise (ValueError (str_of_Z value ++ " is not a valid LEDMode")).

(** [self.add_register('mode', 'w', 0x0205, wideness=3)] *)
Definition LEDs_reg_mode : outcome Register :=
  Register_init "w" 0x0205 3 None None.

(** The [mode] setter and getter of the LED of bit index [index], on the
    mode register of the LEDs module and the bus. *)
Definition LED_mode_set (index value : Z) : M RegState unit :=
  m <- lift_pure (LEDMode_value value) ;;
  v <- py_shl m index ;;
  mask <- py_shl 1 index ;;
  Register_set_mask v mask PollNone 255 0.

Definition LED_mode_get (index : Z) : M RegState Z :=
  cur <- Register_get ;;
  sh <- py_shr cur index ;;
  lift_pure (LEDMode_value (Z.land sh 1)).

(** ** ISO7816: the data path *)

Definition ISO7816_REG_STATUS_BIT_READY : Z := 0.
Definition ISO7816_REG_STATUS_BIT_EMPTY : Z := 2.
Definition ISO7816_REG_CONTROL_BIT_FLUSH : Z := 0.

(** The status ('rv'), control ('w') and data ('rwv') registers. *)
Definition ISO7816_reg_status : outcome Register :=
  Register_init "rv" 0x0500 1 None None.
Definition ISO7816_reg_control : outcome Register :=
  Register_init "w" (0x0500 + 1) 1 None None.
Definition ISO7816_reg_data : outcome Register :=
  Register_init "rwv" (0x0500 + 5) 1 None None.

(** [flush], on the control register and the bus. *)
Definition ISO7816_flush : M RegState unit :=
  Register_write (DataInt (Z.shiftl 1 ISO7816_REG_CONTROL_BIT_FLUSH))
                 PollNone 255 0.

(** [receive] and [transmit], on the data register and the bus;
    [reg_status] is the status register of the module. *)
Definition ISO7816_receive (reg_status : Register) (n : Z)
  : M RegState (list Z) :=
  Register_read n (PollReg reg_status)
                (Z.shiftl 1 ISO7816_REG_STATUS_BIT_EMPTY) 0.

Definition ISO7816_transmit (reg_status : Register) (data : list Z)
  : M RegState unit :=
  Register_write (DataBytes data) (PollReg reg_status)
                 (Z.shiftl 1 ISO7816_REG_STATUS_BIT_READY)
                 (Z.shiftl 1 ISO7816_REG_STATUS_BIT_READY).

(** ** UART *)

Definition UART_REG_CONTROL_BIT_FLUSH : Z := 0.
Definition UART_REG_CONFIG_BIT_TRIGGER : Z := 3.

(** The registers of a UART module. *)
Record UART := mkUART {
  uart_reg_status : Register;
  uart_reg_control : Register;
  uart_reg_config : Register;
  uart_reg_divisor : Register;
  uart_reg_data : Register
}.

(** The registers [UART.__init__] declares. *)
Definition UART_init (index : Z) : outcome UART :=
  let base := 0x0400 + 0x0010 * index in
  obind (Register_init "rv" base 1 None None) (fun status =>
  obind (Register_init "w" (base + 1) 1 None None) (fun control =>
  obind (Register_init "w" (base + 2) 1 None None) (fun config =>
  obind (Register_init "w" (base + 3) 2 (Some 1) None) (fun divisor =>
  obind (Register_init "rwv" (base + 4) 1 None None) (fun data =>
  Return (mkUART status control config divisor data)))))).

Definition UARTState : Type := UART * ScaffoldBus.

(** [self.reg_config.<method>(...)] and [self.reg_data.<method>(...)] *)
Definition on_reg_config {A} (c : M RegState A) : M UARTState A :=
  fun st =>
    let u := fst st in
    let '(o, (r', b')) := c (uart_reg_config u, snd st) in
    (o, (mkUART (uart_reg_status u) (uart_reg_control u) r'
                (uart_reg_divisor u) (uart_reg_data u), b')).

Definition on_reg_data {A} (c : M RegState A) : M UARTState A :=
  fun st =>
    let u := fst st in
    let '(o, (r', b')) := c (uart_reg_data u, snd st) in
    (o, (mkUART (uart_reg_status u) (uart_reg_control u) (uart_reg_config u)
                (uart_reg_divisor u) r', b')).

(** [UART.transmit(data, trigger)] *)
Definition UART_transmit (data : list Z) (trigger : bool)
  : M UARTState unit :=
  let buf := if trigger then slice_to data (-1) else data in
  st <- get_state ;;
  let status := uart_reg_status (fst st) in
  on_reg_data (Register_write (DataBytes buf) (PollReg status) 0x01 0x01) ;;;
  if trigger then
    config <- on_reg_config Register_get ;;
    on_reg_config
      (Register_write
         (DataInt (Z.lor config (Z.shiftl 1 UART_REG_CONFIG_BIT_TRIGGER)))
         (PollReg status) 0x01 0x01) ;;;
    last <- lift_pure (last_byte data) ;;
    on_reg_data (Register_write (DataInt last) PollNone 255 0) ;;;
    on_reg_config (Register_write (DataInt config) (PollReg status) 0x01 0x01)
  else ret tt.

(** [UART.receive(n)], on the data register and the bus. *)
Definition UART_receive (reg_status : Register) (n : Z)
  : M RegState (list Z) :=
  Register_read n (PollReg reg_status) 0x04 0x00.

(** [UART.flush()], on the control register and the bus. *)
Definition UART_flush : M RegState unit :=
  Register_set_bit UART_REG_CONTROL_BIT_FLUSH true PollNone 255 0.

(** * Properties *)

(** The specification's error taxonomy is read on the exception classes of
    the code: InvalidArgument is [ValueError]; CapabilityError, UsageError and
    NotConnected are [RuntimeError], told apart by their message;
    ProtocolTimeout is [TimeoutError]. *)

(** ** Lazy sections *)

Section LazyEnd.

Lemma lazy_end_depth0 (b : ScaffoldBus) :
  lazy_stack b = 0 ->
  lazy_end b = (Raise (RuntimeError "No lazy section started"), b).
Proof.
  intros H. unfold lazy_end, bind, get_state, raise.
  rewrite H. reflexivity.
Qed.

(** Closing an inner section reads nothing, but empties the queue. *)
Lemma lazy_end_inner (b : ScaffoldBus) :
  1 < lazy_stack b ->
  lazy_end b = (Return tt, mkBus (ser b) [] (lazy_stack b - 1)).
Proof.
  intros H. unfold lazy_end, bind, get_state, put_state, raise, ret,
    lazy_writes_clear.
  destruct (Z.eqb_spec (lazy_stack b) 0) as [E | _]; [lia |].
  cbn [lazy_stack].
  destruct (Z.eqb_spec (lazy_stack b - 1) 0) as [E | _]; [lia |].
  reflexivity.
Qed.

Lemma lazy_end_loop_drain (queue : list Z) :
  forall (acks rest : list Z) (err : option exn) (t : list (list Z))
         (q : list Z) (d : Z),
    length acks = length queue ->
    lazy_end_loop queue err (mkBus (Some (mkSerial t (acks ++ rest))) q d)
    = (Return (last_mismatch queue acks err),
       mkBus (Some (mkSerial t rest)) q d).
Proof.
  induction queue as [| expected queue IH]; intros acks rest err t q d Hlen.
  - destruct acks; [reflexivity | discriminate].
  - destruct acks as [| ack acks]; [discriminate |].
    injection Hlen as Hlen.
    cbn [lazy_end_loop]. unfold bind at 1.
    unfold read_ack, bind, ser_read, ret. cbn [ser rx tx lazy_writes lazy_stack].
    destruct (Z.ltb_spec (Z.of_nat (length ((ack :: acks) ++ rest))) 1) as [Hlt | _].
    { cbn [length app] in Hlt. lia. }
    cbn [Z.to_nat Pos.to_nat Pos.iter_op firstn skipn app Nat.add].
    apply IH. exact Hlen.
  Qed.

(** Closing the outermost section: one acknowledgment per queued size, in
    queue order, whatever the mismatches; the queue is emptied, and the
    last mismatch, if any, is raised. *)
Lemma lazy_end_outermost (t : list (list Z)) (queue acks rest : list Z) :
  length acks = length queue ->
  lazy_end (mkBus (Some (mkSerial t (acks ++ rest))) queue 1)
  = (match last_mismatch queue acks None with
     | Some e => Raise e
     | None => Return tt
     end,
     mkBus (Some (mkSerial t rest)) [] 0).
Proof.
  intros Hlen. unfold lazy_end.
  unfold bind at 1. unfold get_state at 1. cbn [lazy_stack Z.eqb].
  unfold bind at 1. unfold put_state at 1. cbn [ser lazy_writes Z.sub Z.add Z.opp Z.pos_sub].
  unfold bind at 1. unfold get_state at 1. cbn [lazy_stack Z.eqb lazy_writes].
  unfold bind at 1. rewrite (lazy_end_loop_drain queue acks rest None t queue 0 Hlen).
  unfold bind, lazy_writes_clear. cbn [ser lazy_stack].
  destruct (last_mismatch queue acks None); reflexivity.
Qed.

(** The batch of the specification: expected [10; 10; 5], answered
    [10; 10; 3]. *)
Example lazy_end_batch_10_10_3 (t : list (list Z)) (rest : list Z) :
  lazy_end (connected_bus t ([10; 10; 3] ++ rest) [10; 10; 5] 1)
  = (Raise (TimeoutError (mkTimeoutError None (Some 3))),
     connected_bus t rest [] 0).
Proof.
  exact (lazy_end_outermost t [10; 10; 5] [10; 10; 3] rest eq_refl).
Qed.

End LazyEnd.

(** C1 (the code departs from it): after [lazy_start(); lazy_start()] and a
    3-byte write the queue holds the expected size 3; the inner [lazy_end()]
    returns without reading an acknowledgment but leaves the queue EMPTY, not
    intact, so the outermost [lazy_end()] reads no acknowledgment at all: the
    board's answer 2 (a mismatch with 3) stays unread and no Timeout is
    raised. *)
Theorem C1_inner_lazy_end_empties_queue :
  nested_prefix nested_bus0
  = (Return tt, mkBus (Some (mkSerial [[3; 2; 16; 3; 1; 2; 3]] [2])) [3] 2)
  /\ (nested_prefix ;;; lazy_end) nested_bus0
     = (Return tt, mkBus (Some (mkSerial [[3; 2; 16; 3; 1; 2; 3]] [2])) [] 1)
  /\ (nested_prefix ;;; lazy_end ;;; lazy_end) nested_bus0
     = (Return tt, mkBus (Some (mkSerial [[3; 2; 16; 3; 1; 2; 3]] [2])) [] 0).
Proof.
  repeat split; vm_compute; reflexivity.
Qed.

(** ** Reading inside a lazy section *)

(** C8 fails as stated: [read] tests the connection before the batching
    depth, and [lazy_start] does not require a connection. On a bus that was
    never connected, after one [lazy_start], [read] fails with the
    [RuntimeError] "Not connected to board" (NotConnected), not with the one
    about lazy-update sections (UsageError). *)
Lemma C8_unconnected_read_counterexample :
  lazy_start ScaffoldBus_init = (Return tt, mkBus None [] 1)
  /\ lazy_stack (mkBus None [] 1) = 1
  /\ ScaffoldBus_read 0x0400 1 PollNone 255 0 (mkBus None [] 1)
     = (Raise (RuntimeError "Not connected to board"), mkBus None [] 1).
Proof.
  repeat split; vm_compute; reflexivity.
Qed.

(** C8 (amended): while the batching depth is positive, [read] on a
    connected bus fails with the [RuntimeError] "Read operations not allowed
    during lazy-update section." (UsageError); on a bus that is not
    connected the connection check comes first and [read] fails with the
    [RuntimeError] "Not connected to board" (NotConnected). In both cases the
    bus, transport included, is left exactly as it was: nothing sent,
    nothing received, nothing queued. *)
Theorem C8_read_in_lazy_section_fails
    (addr size : Z) (poll : poll_arg) (poll_mask poll_value : Z)
    (b : ScaffoldBus) :
  0 < lazy_stack b ->
  (forall s : Serial, ser b = Some s ->
     ScaffoldBus_read addr size poll poll_mask poll_value b
     = (Raise (RuntimeError
          "Read operations not allowed during lazy-update section."), b))
  /\ (ser b = None ->
      ScaffoldBus_read addr size poll poll_mask poll_value b
      = (Raise (RuntimeError "Not connected to board"), b))
  /\ sent (snd (ScaffoldBus_read addr size poll poll_mask poll_value b))
     = sent b
  /\ pending (snd (ScaffoldBus_read addr size poll poll_mask poll_value b))
     = pending b
  /\ lazy_writes (snd (ScaffoldBus_read addr size poll poll_mask poll_value b))
     = lazy_writes b.
Proof.
  intros Hdepth. unfold ScaffoldBus_read, bind, get_state, raise.
  destruct (ser b) as [s |] eqn:Hser.
  - destruct (Z.ltb_spec 0 (lazy_stack b)) as [_ | Hle]; [| lia].
    repeat split. intros H. discriminate H.
  - repeat split. intros s Hs. discriminate Hs.
Qed.

Lemma C8_read_in_lazy_section_witness :
  ScaffoldBus_read 0x0400 1 PollNone 255 0
    (mkBus (Some (mkSerial [] [7; 1])) [] 1)
  = (Raise (RuntimeError
       "Read operations not allowed during lazy-update section."),
     mkBus (Some (mkSerial [] [7; 1])) [] 1).
Proof.
  destruct (C8_read_in_lazy_section_fails 0x0400 1 PollNone 255 0
              (mkBus (Some (mkSerial [] [7; 1])) [] 1))
    as (Hconnected & _).
  - simpl. lia.
  - apply (Hconnected (mkSerial [] [7; 1])). reflexivity.
Defined.

(** ** The [is_connected] property *)

(** C10: on every bus, connected or not, reading [is_connected] raises
    [AttributeError] for the attribute [set], and the bus is unchanged; no
    boolean is ever returned. *)
Theorem C10_is_connected_raises_AttributeError (b : ScaffoldBus) :
  is_connected b
  = (Raise (AttributeError "'ScaffoldBus' object has no attribute 'set'"), b).
Proof.
  reflexivity.
Qed.

(** ** Datagram framing *)

Lemma in_range_true (lo hi x : Z) :
  in_range lo hi x = true <-> lo <= x < hi.
Proof.
  unfold in_range. rewrite andb_true_iff, Z.leb_le, Z.ltb_lt. tauto.
Qed.

Lemma shiftr8_div (a : Z) : Z.shiftr a 8 = a / 256.
Proof. rewrite Z.shiftr_div_pow2 by lia. reflexivity. Qed.

Lemma land255_mod (a : Z) : Z.land a 255 = a mod 256.
Proof. change 255 with (Z.ones 8). rewrite Z.land_ones by lia. reflexivity. Qed.

Lemma byte_hi (a : Z) : 0 <= a < 65536 -> in_range 0 256 (a / 256) = true.
Proof.
  intros H. apply in_range_true. split.
  - apply Z.div_pos; lia.
  - apply Z.div_lt_upper_bound; lia.
Qed.

Lemma byte_lo (a : Z) : in_range 0 256 (a mod 256) = true.
Proof. apply in_range_true. apply Z.mod_pos_bound. lia. Qed.

(** On the arguments it accepts, [prepare_datagram] builds the header of
    the specification. *)
Lemma prepare_datagram_ok (rw addr size : Z) (poll : poll_arg)
    (poll_mask poll_value : Z) :
  in_range 0 2 rw = true ->
  in_range 1 256 size = true ->
  in_range 0 65536 addr = true ->
  valid_poll poll poll_mask poll_value = true ->
  prepare_datagram rw addr size poll poll_mask poll_value
  = Return (spec_header rw addr size (poll_address poll) poll_mask poll_value).
Proof.
  intros Hrw Hsize Haddr Hpoll.
  unfold prepare_datagram, MAX_CHUNK.
  change (255 + 1) with 256.
  rewrite Hrw, Hsize, Haddr. cbn [negb].
  unfold valid_poll in Hpoll. unfold spec_header, spec_command.
  apply in_range_true in Haddr.
  assert (Hc : forall c, in_range 0 8 c = true -> in_range 0 256 c = true).
  { intros c Hc. apply in_range_true in Hc. apply in_range_true. lia. }
  assert (Hrw' : rw = 0 \/ rw = 1) by (apply in_range_true in Hrw; lia).
  assert (Hsz : in_range 0 256 size = true).
  { apply in_range_true in Hsize. apply in_range_true. lia. }
  rewrite shiftr8_div, land255_mod.
  destruct (poll_address poll) as [p |].
  - apply andb_true_iff in Hpoll as [Hpoll Hpv].
    apply andb_true_iff in Hpoll as [Hp Hpm].
    rewrite Hp. cbn [negb]. apply in_range_true in Hp.
    rewrite shiftr8_div, land255_mod.
    unfold bytearray_append.
    rewrite (byte_hi addr Haddr), (byte_lo addr), (byte_hi p Hp), (byte_lo p),
      Hpm, Hpv.
    destruct (1 <? size); destruct Hrw' as [-> | ->]; cbn; rewrite ?Hsz;
      reflexivity.
  - unfold bytearray_append.
    rewrite (byte_hi addr Haddr), (byte_lo addr).
    destruct (1 <? size); destruct Hrw' as [-> | ->]; cbn; rewrite ?Hsz;
      reflexivity.
Qed.

(** Whatever its arguments, [prepare_datagram] either raises or builds the
    header of the specification. *)
Lemma prepare_datagram_cases (rw addr size : Z) (poll : poll_arg)
    (poll_mask poll_value : Z) :
  (exists e, prepare_datagram rw addr size poll poll_mask poll_value = Raise e)
  \/ (prepare_datagram rw addr size poll poll_mask poll_value
      = Return (spec_header rw addr size (poll_address poll)
                            poll_mask poll_value)
      /\ in_range 1 256 size = true).
Proof.
  destruct (in_range 0 2 rw) eqn:Hrw;
    [| left; unfold prepare_datagram; rewrite Hrw; eexists; reflexivity].
  destruct (in_range 1 256 size) eqn:Hsize;
    [| left; unfold prepare_datagram, MAX_CHUNK; change (255 + 1) with 256;
       rewrite Hrw, Hsize; eexists; reflexivity].
  destruct (in_range 0 65536 addr) eqn:Haddr;
    [| left; unfold prepare_datagram, MAX_CHUNK; change (255 + 1) with 256;
       rewrite Hrw, Hsize, Haddr; eexists; reflexivity].
  destruct (valid_poll poll poll_mask poll_value) eqn:Hpoll.
  - right. split; [| reflexivity]. apply prepare_datagram_ok; assumption.
  - left. unfold prepare_datagram, MAX_CHUNK. change (255 + 1) with 256.
    rewrite Hrw, Hsize, Haddr. cbn [negb].
    unfold valid_poll in Hpoll.
    destruct (poll_address poll) as [p |]; [| discriminate].
    destruct (in_range 0 65536 p) eqn:Hp; cbn [negb]; [| eexists; reflexivity].
    apply in_range_true in Haddr. apply in_range_true in Hp.
    rewrite !shiftr8_div, !land255_mod.
    assert (Hrw' : rw = 0 \/ rw = 1) by (apply in_range_true in Hrw; lia).
    unfold bytearray_append.
    rewrite (byte_hi addr Haddr), (byte_lo addr), (byte_hi p Hp), (byte_lo p).
    cbn [andb] in Hpoll.
    destruct (in_range 0 256 poll_mask) eqn:Hpm.
    + cbn [andb] in Hpoll. rewrite Hpoll.
      destruct (1 <? size); destruct Hrw' as [-> | ->]; cbn; rewrite ?Hpm;
        cbn; eexists; reflexivity.
    + destruct (1 <? size); destruct Hrw' as [-> | ->]; cbn; rewrite ?Hpm;
        cbn; eexists; reflexivity.
Qed.

(** ** Chunking *)

Lemma chunks_fuel_irrelevant (f1 : nat) :
  forall (f2 : nat) (l : list Z),
    (length l <= f1)%nat -> (length l <= f2)%nat ->
    chunks_fuel f1 l = chunks_fuel f2 l.
Proof.
  induction f1 as [| f1 IH]; intros f2 l H1 H2.
  - destruct l; [destruct f2; reflexivity | cbn in H1; lia].
  - destruct l as [| x l]; [destruct f2; reflexivity |].
    destruct f2 as [| f2]; [cbn in H2; lia |].
    cbn [chunks_fuel]. f_equal.
    assert (Hs : (length (skipn 255 (x :: l)) <= length l)%nat).
    { rewrite length_skipn. cbn [length]. lia. }
    cbn [length] in H1, H2. apply IH; lia.
Qed.

Lemma chunks_nil : chunks [] = [].
Proof. reflexivity. Qed.

Lemma chunks_cons (l : list Z) :
  l <> [] -> chunks l = firstn 255 l :: chunks (skipn 255 l).
Proof.
  intros Hne. unfold chunks.
  destruct l as [| x l]; [contradiction |].
  cbn [length chunks_fuel]. f_equal.
  apply chunks_fuel_irrelevant.
  - rewrite length_skipn. cbn [length]. lia.
  - lia.
Qed.

Lemma chunks_ind_len (P : list Z -> Prop) :
  P [] ->
  (forall l, l <> [] -> P (skipn 255 l) -> P l) ->
  forall l, P l.
Proof.
  intros Hnil Hstep l.
  remember (length l) as n eqn:Hn.
  revert l Hn. induction n as [n IH] using lt_wf_ind. intros l Hn.
  destruct l as [| x l]; [exact Hnil |].
  apply Hstep; [discriminate |].
  apply (IH (length (skipn 255 (x :: l)))); [| reflexivity].
  rewrite length_skipn. subst n. cbn [length]. lia.
Qed.

Lemma chunks_concat (l : list Z) : concat (chunks l) = l.
Proof.
  induction l as [| l Hne IH] using chunks_ind_len; [reflexivity |].
  rewrite (chunks_cons l Hne). cbn [concat]. rewrite IH.
  apply firstn_skipn.
Qed.

Lemma chunks_bounds (l : list Z) :
  Forall (fun c => 1 <= len c <= 255) (chunks l).
Proof.
  induction l as [| l Hne IH] using chunks_ind_len; [constructor |].
  rewrite (chunks_cons l Hne). constructor; [| exact IH].
  unfold len. rewrite length_firstn.
  destruct l; [contradiction | cbn [length]; lia].
Qed.

Lemma chunks_600 (l : list Z) :
  length l = 600%nat -> map len (chunks l) = [255; 255; 90].
Proof.
  intros H600.
  assert (H1 : l <> []) by (intros ->; discriminate).
  rewrite (chunks_cons l H1).
  assert (L1 : length (skipn 255 l) = 345%nat) by (rewrite length_skipn; lia).
  assert (H2 : skipn 255 l <> []) by (intros E; rewrite E in L1; discriminate).
  rewrite (chunks_cons _ H2).
  assert (L2 : length (skipn 255 (skipn 255 l)) = 90%nat)
    by (rewrite length_skipn; lia).
  assert (H3 : skipn 255 (skipn 255 l) <> [])
    by (intros E; rewrite E in L2; discriminate).
  rewrite (chunks_cons _ H3).
  assert (L3 : length (skipn 255 (skipn 255 (skipn 255 l))) = 0%nat)
    by (rewrite length_skipn; lia).
  apply length_zero_iff_nil in L3. rewrite L3, chunks_nil.
  cbn [map]. unfold len. rewrite !length_firstn, L1, L2, H600.
  reflexivity.
Qed.

(** The slice [data[offset:offset + chunk_size]] taken by the loop is the
    next chunk of what is left of the payload. *)
Lemma slice_next_chunk (data : list Z) (offset : Z) :
  0 <= offset ->
  slice data offset
        (offset + Z.min MAX_CHUNK (len (skipn (Z.to_nat offset) data)))
  = firstn 255 (skipn (Z.to_nat offset) data).
Proof.
  intros Hoff. unfold slice, MAX_CHUNK, len.
  set (rest := skipn (Z.to_nat offset) data).
  replace (offset + Z.min 255 (Z.of_nat (length rest)) - offset)
    with (Z.min 255 (Z.of_nat (length rest))) by lia.
  destruct (Z.le_ge_cases 255 (Z.of_nat (length rest))) as [Hle | Hge].
  - rewrite Z.min_l by exact Hle. reflexivity.
  - rewrite Z.min_r by exact Hge. rewrite Nat2Z.id.
    rewrite firstn_all. symmetry. apply firstn_all2. lia.
Qed.

Lemma len_app (a b : list Z) : len (a ++ b) = len a + len b.
Proof. unfold len. rewrite length_app. lia. Qed.

Lemma min_chunk_len (rest : list Z) :
  Z.min MAX_CHUNK (len rest) = len (firstn 255 rest).
Proof.
  unfold MAX_CHUNK, len. rewrite length_firstn. lia.
Qed.

Lemma len_skip_chunk (rest : list Z) :
  len rest - len (firstn 255 rest) = len (skipn 255 rest).
Proof.
  unfold len. rewrite length_firstn, length_skipn. lia.
Qed.

Lemma skipn_next_chunk (data : list Z) (offset : Z) :
  0 <= offset ->
  skipn (Z.to_nat (offset + len (firstn 255 (skipn (Z.to_nat offset) data))))
        data
  = skipn 255 (skipn (Z.to_nat offset) data).
Proof.
  intros Hoff. rewrite skipn_skipn. unfold len. rewrite length_firstn.
  pose proof (length_skipn (Z.to_nat offset) data) as Hlen.
  destruct (Nat.le_gt_cases 255 (length (skipn (Z.to_nat offset) data)))
    as [Hle | Hgt].
  - f_equal. lia.
  - rewrite !skipn_all2; [reflexivity | lia | lia].
Qed.

(** ** Running the monad *)

Lemma bind_Return {S A B} (c : M S A) (k : A -> M S B) (s s' : S) (a : A) :
  c s = (Return a, s') -> bind c k s = k a s'.
Proof. intros H. unfold bind. rewrite H. reflexivity. Qed.

Lemma bind_Raise {S A B} (c : M S A) (k : A -> M S B) (s s' : S) (e : exn) :
  c s = (Raise e, s') -> bind c k s = (Raise e, s').
Proof. intros H. unfold bind. rewrite H. reflexivity. Qed.

Lemma lift_pure_run {S A} (o : outcome A) (s : S) : lift_pure o s = (o, s).
Proof. reflexivity. Qed.

Lemma get_state_run {S} (s : S) : get_state s = (Return s, s).
Proof. reflexivity. Qed.

Lemma ser_write_connected (dg : list Z) (t : list (list Z)) (r q : list Z) (d : Z) :
  ser_write dg (connected_bus t r q d)
  = (Return tt, connected_bus (t ++ [dg]) r q d).
Proof. reflexivity. Qed.

Lemma read_ack_connected (a : Z) (t : list (list Z)) (r q : list Z) (d : Z) :
  read_ack (connected_bus t (a :: r) q d) = (Return a, connected_bus t r q d).
Proof.
  unfold read_ack, bind, ser_read, connected_bus. cbn [ser rx tx].
  destruct (Z.ltb_spec (Z.of_nat (length (a :: r))) 1) as [Hlt | _].
  - cbn [length] in Hlt. lia.
  - reflexivity.
Qed.

Lemma lazy_append_connected (c : Z) (t : list (list Z)) (r q : list Z) (d : Z) :
  lazy_append c (connected_bus t r q d)
  = (Return tt, connected_bus t r (q ++ [c]) d).
Proof. reflexivity. Qed.

Lemma lazy_stack_connected (t : list (list Z)) (r q : list Z) (d : Z) :
  lazy_stack (connected_bus t r q d) = d.
Proof. reflexivity. Qed.

(** ** The write loop *)

Section WriteLoop.

Variables (addr : Z) (data : list Z) (poll : poll_arg) (poll_mask poll_value : Z).
Hypothesis addr_ok : in_range 0 65536 addr = true.
Hypothesis poll_ok : valid_poll poll poll_mask poll_value = true.

Lemma write_loop_done (fuel : nat) (offset : Z) (b : ScaffoldBus) :
  write_loop fuel addr data poll poll_mask poll_value offset 0 b
  = (Return tt, b).
Proof. destruct fuel; reflexivity. Qed.

Lemma chunk_size_ok (rest : list Z) :
  rest <> [] -> in_range 1 256 (len (firstn 255 rest)) = true.
Proof.
  intros Hne. apply in_range_true. unfold len. rewrite length_firstn.
  destruct rest; [contradiction | cbn [length]; lia].
Qed.

Lemma len_nonzero (rest : list Z) : rest <> [] -> (len rest =? 0) = false.
Proof.
  intros Hne. apply Z.eqb_neq. unfold len.
  destruct rest; [contradiction | cbn [length]; lia].
Qed.

(** The loop body up to and including [self.ser.write(datagram)]. *)
Ltac enter_turn Hoff Hne :=
  cbn [write_loop]; rewrite (len_nonzero _ Hne);
  rewrite (slice_next_chunk data _ Hoff), min_chunk_len;
  rewrite (prepare_datagram_ok 1 addr _ poll poll_mask poll_value
             eq_refl (chunk_size_ok _ Hne) addr_ok poll_ok);
  rewrite ?len_skip_chunk;
  rewrite (bind_Return _ _ _ _ _ (lift_pure_run _ _));
  rewrite (bind_Return _ _ _ _ _ (ser_write_connected _ _ _ _ _));
  rewrite (bind_Return _ _ _ _ _ (get_state_run _));
  rewrite lazy_stack_connected.

(** One turn of the loop inside a lazy section: the chunk is sent and its
    size queued; no byte is read. *)
Lemma write_loop_step_lazy (fuel : nat) (offset : Z)
    (t : list (list Z)) (r q : list Z) (d : Z) :
  0 <= offset -> d <> 0 ->
  skipn (Z.to_nat offset) data <> [] ->
  write_loop (S fuel) addr data poll poll_mask poll_value offset
             (len (skipn (Z.to_nat offset) data)) (connected_bus t r q d)
  = write_loop fuel addr data poll poll_mask poll_value
      (offset + len (firstn 255 (skipn (Z.to_nat offset) data)))
      (len (skipn 255 (skipn (Z.to_nat offset) data)))
      (connected_bus
         (t ++ [spec_write_datagram addr poll poll_mask poll_value
                  (firstn 255 (skipn (Z.to_nat offset) data))])
         r (q ++ [len (firstn 255 (skipn (Z.to_nat offset) data))]) d).
Proof.
  intros Hoff Hd Hne. enter_turn Hoff Hne.
  apply Z.eqb_neq in Hd. rewrite Hd.
  rewrite (bind_Return _ _ _ _ _ (lazy_append_connected _ _ _ _ _)).
  reflexivity.
Qed.

(** One turn of the loop outside lazy sections when the board acknowledges
    the whole chunk: the chunk is sent and its acknowledgment consumed. *)
Lemma write_loop_step_acked (fuel : nat) (offset : Z)
    (t : list (list Z)) (r q : list Z) :
  0 <= offset ->
  skipn (Z.to_nat offset) data <> [] ->
  write_loop (S fuel) addr data poll poll_mask poll_value offset
             (len (skipn (Z.to_nat offset) data))
             (connected_bus t
                (len (firstn 255 (skipn (Z.to_nat offset) data)) :: r) q 0)
  = write_loop fuel addr data poll poll_mask poll_value
      (offset + len (firstn 255 (skipn (Z.to_nat offset) data)))
      (len (skipn 255 (skipn (Z.to_nat offset) data)))
      (connected_bus
         (t ++ [spec_write_datagram addr poll poll_mask poll_value
                  (firstn 255 (skipn (Z.to_nat offset) data))])
         r q 0).
Proof.
  intros Hoff Hne. enter_turn Hoff Hne.
  change (0 =? 0) with true. cbv iota.
  erewrite bind_Return; [reflexivity |].
  rewrite (bind_Return _ _ _ _ _ (read_ack_connected _ _ _ _ _)).
  rewrite Z.eqb_refl. reflexivity.
Qed.

(** The turn on which the board acknowledges something else than the chunk
    size, while polling: the chunk was sent, its acknowledgment is consumed,
    and the loop ends with the [TimeoutError] for [offset + ack]. *)
Lemma write_loop_step_timeout (fuel : nat) (offset ack : Z)
    (t : list (list Z)) (r q : list Z) :
  0 <= offset ->
  skipn (Z.to_nat offset) data <> [] ->
  poll <> PollNone ->
  ack <> len (firstn 255 (skipn (Z.to_nat offset) data)) ->
  write_loop (S fuel) addr data poll poll_mask poll_value offset
             (len (skipn (Z.to_nat offset) data))
             (connected_bus t (ack :: r) q 0)
  = (Raise (TimeoutError (mkTimeoutError None (Some (offset + ack)))),
     connected_bus
       (t ++ [spec_write_datagram addr poll poll_mask poll_value
                (firstn 255 (skipn (Z.to_nat offset) data))])
       r q 0).
Proof.
  intros Hoff Hne Hpoll Hack. enter_turn Hoff Hne.
  change (0 =? 0) with true. cbv iota.
  apply Z.eqb_neq in Hack.
  apply bind_Raise.
  rewrite (bind_Return _ _ _ _ _ (read_ack_connected _ _ _ _ _)).
  rewrite Hack. cbn [negb].
  destruct poll; [contradiction | reflexivity | reflexivity].
Qed.

Lemma rest_fuel (offset : Z) (fuel : nat) :
  0 <= offset ->
  skipn (Z.to_nat offset) data <> [] ->
  (length (skipn (Z.to_nat offset) data) <= S fuel)%nat ->
  0 <= offset + len (firstn 255 (skipn (Z.to_nat offset) data))
  /\ (length (skipn (Z.to_nat
                 (offset + len (firstn 255 (skipn (Z.to_nat offset) data))))
               data) <= fuel)%nat.
Proof.
  intros Hoff Hne Hfuel. split; [unfold len; lia |].
  rewrite (skipn_next_chunk data offset Hoff), length_skipn.
  destruct (skipn (Z.to_nat offset) data); [contradiction |].
  cbn [length] in *. lia.
Qed.

(** Inside a lazy section the loop returns, having sent every chunk in
    order and queued every chunk size; it reads nothing. *)
Lemma write_loop_lazy (fuel : nat) :
  forall (offset : Z) (t : list (list Z)) (r q : list Z) (d : Z),
    0 <= offset -> d <> 0 ->
    (length (skipn (Z.to_nat offset) data) <= fuel)%nat ->
    write_loop fuel addr data poll poll_mask poll_value offset
               (len (skipn (Z.to_nat offset) data)) (connected_bus t r q d)
    = (Return tt,
       connected_bus
         (t ++ map (spec_write_datagram addr poll poll_mask poll_value)
                   (chunks (skipn (Z.to_nat offset) data)))
         r (q ++ map len (chunks (skipn (Z.to_nat offset) data))) d).
Proof.
  induction fuel as [| fuel IH]; intros offset t r q d Hoff Hd Hfuel.
  - assert (E : skipn (Z.to_nat offset) data = [])
      by (apply length_zero_iff_nil; lia).
    rewrite E. cbn [map]. rewrite !app_nil_r. reflexivity.
  - destruct (list_eq_dec Z.eq_dec (skipn (Z.to_nat offset) data) [])
      as [E | Hne].
    + rewrite E. change (len []) with 0. rewrite write_loop_done.
      cbn [map]. rewrite !app_nil_r. reflexivity.
    + rewrite (write_loop_step_lazy fuel offset t r q d Hoff Hd Hne).
      destruct (rest_fuel offset fuel Hoff Hne Hfuel) as [Hoff' Hfuel'].
      rewrite <- (skipn_next_chunk data offset Hoff).
      rewrite (IH _ _ r _ d Hoff' Hd Hfuel').
      rewrite (skipn_next_chunk data offset Hoff).
      rewrite (chunks_cons _ Hne). cbn [map].
      rewrite <- !app_assoc. reflexivity.
Qed.

(** Outside lazy sections, when the board acknowledges every chunk in full,
    the loop returns, having sent every chunk and consumed one
    acknowledgment per chunk. *)
Lemma write_loop_acked (fuel : nat) :
  forall (offset : Z) (t : list (list Z)) (r q : list Z),
    0 <= offset ->
    (length (skipn (Z.to_nat offset) data) <= fuel)%nat ->
    write_loop fuel addr data poll poll_mask poll_value offset
               (len (skipn (Z.to_nat offset) data))
               (connected_bus t
                  (map len (chunks (skipn (Z.to_nat offset) data)) ++ r) q 0)
    = (Return tt,
       connected_bus
         (t ++ map (spec_write_datagram addr poll poll_mask poll_value)
                   (chunks (skipn (Z.to_nat offset) data)))
         r q 0).
Proof.
  induction fuel as [| fuel IH]; intros offset t r q Hoff Hfuel.
  - assert (E : skipn (Z.to_nat offset) data = [])
      by (apply length_zero_iff_nil; lia).
    rewrite E. cbn [map app]. rewrite !app_nil_r. reflexivity.
  - destruct (list_eq_dec Z.eq_dec (skipn (Z.to_nat offset) data) [])
      as [E | Hne].
    + rewrite E. change (len []) with 0. rewrite write_loop_done.
      cbn [map app]. rewrite !app_nil_r. reflexivity.
    + rewrite (chunks_cons _ Hne). cbn [map app].
      rewrite (write_loop_step_acked fuel offset t _ q Hoff Hne).
      destruct (rest_fuel offset fuel Hoff Hne Hfuel) as [Hoff' Hfuel'].
      rewrite <- (skipn_next_chunk data offset Hoff).
      rewrite (IH _ _ r q Hoff' Hfuel').
      rewrite <- !app_assoc. reflexivity.
Qed.

(** Outside lazy sections, while polling: after [k] chunks acknowledged in
    full, an acknowledgment [ack] that differs from the size of the next
    chunk ends the loop with the [TimeoutError] whose size is the bytes of
    the [k] acknowledged chunks plus [ack]; no later chunk is sent. *)
Lemma write_loop_timeout (k : nat) :
  forall (fuel : nat) (offset ack : Z) (t : list (list Z)) (r q : list Z),
    0 <= offset ->
    poll <> PollNone ->
    (length (skipn (Z.to_nat offset) data) <= fuel)%nat ->
    (k < length (chunks (skipn (Z.to_nat offset) data)))%nat ->
    ack <> len (nth k (chunks (skipn (Z.to_nat offset) data)) []) ->
    write_loop fuel addr data poll poll_mask poll_value offset
               (len (skipn (Z.to_nat offset) data))
               (connected_bus t
                  (map len (firstn k (chunks (skipn (Z.to_nat offset) data)))
                   ++ ack :: r) q 0)
    = (Raise (TimeoutError (mkTimeoutError None
         (Some (offset
                + len (concat (firstn k (chunks (skipn (Z.to_nat offset) data))))
                + ack)))),
       connected_bus
         (t ++ map (spec_write_datagram addr poll poll_mask poll_value)
                   (firstn (S k) (chunks (skipn (Z.to_nat offset) data))))
         r q 0).
Proof.
  induction k as [| k IH]; intros fuel offset ack t r q Hoff Hpoll Hfuel Hk Hack.
  - assert (Hne : skipn (Z.to_nat offset) data <> [])
      by (intros E; rewrite E in Hk; cbn in Hk; lia).
    destruct fuel as [| fuel];
      [destruct (skipn (Z.to_nat offset) data); [contradiction | cbn in Hfuel; lia] |].
    rewrite (chunks_cons _ Hne) in Hack |- *.
    rewrite firstn_cons, !firstn_O.
    cbn [map app nth concat] in Hack |- *.
    rewrite (write_loop_step_timeout fuel offset ack t r q Hoff Hne Hpoll Hack).
    change (len []) with 0. rewrite Z.add_0_r. reflexivity.
  - assert (Hne : skipn (Z.to_nat offset) data <> [])
      by (intros E; rewrite E in Hk; cbn in Hk; lia).
    destruct fuel as [| fuel];
      [destruct (skipn (Z.to_nat offset) data); [contradiction | cbn in Hfuel; lia] |].
    destruct (rest_fuel offset fuel Hoff Hne Hfuel) as [Hoff' Hfuel'].
    rewrite (chunks_cons _ Hne) in Hack, Hk |- *.
    rewrite !firstn_cons.
    cbn [map app nth concat length] in Hack, Hk |- *.
    rewrite (write_loop_step_acked fuel offset t _ q Hoff Hne).
    rewrite <- (skipn_next_chunk data offset Hoff) in Hack, Hk |- *.
    apply Nat.succ_lt_mono in Hk.
    rewrite (IH fuel _ ack _ r q Hoff' Hpoll Hfuel' Hk Hack).
    rewrite <- !app_assoc. cbn [app].
    rewrite len_app, Z.add_assoc. reflexivity.
Qed.

(** The turn on which the acknowledgment differs from the chunk size while
    no poll spec was given: [assert poll is not None] fails. *)
Lemma write_loop_step_assert (fuel : nat) (offset ack : Z)
    (t : list (list Z)) (r q : list Z) :
  0 <= offset ->
  skipn (Z.to_nat offset) data <> [] ->
  poll = PollNone ->
  ack <> len (firstn 255 (skipn (Z.to_nat offset) data)) ->
  write_loop (S fuel) addr data poll poll_mask poll_value offset
             (len (skipn (Z.to_nat offset) data))
             (connected_bus t (ack :: r) q 0)
  = (Raise AssertionError,
     connected_bus
       (t ++ [spec_write_datagram addr poll poll_mask poll_value
                (firstn 255 (skipn (Z.to_nat offset) data))])
       r q 0).
Proof.
  intros Hoff Hne Hpoll Hack. enter_turn Hoff Hne.
  change (0 =? 0) with true. cbv iota.
  apply Z.eqb_neq in Hack.
  apply bind_Raise.
  rewrite (bind_Return _ _ _ _ _ (read_ack_connected _ _ _ _ _)).
  rewrite Hack. cbn [negb].
  destruct poll; [reflexivity | discriminate | discriminate].
Qed.

Lemma write_loop_assert (k : nat) :
  forall (fuel : nat) (offset ack : Z) (t : list (list Z)) (r q : list Z),
    0 <= offset ->
    poll = PollNone ->
    (length (skipn (Z.to_nat offset) data) <= fuel)%nat ->
    (k < length (chunks (skipn (Z.to_nat offset) data)))%nat ->
    ack <> len (nth k (chunks (skipn (Z.to_nat offset) data)) []) ->
    write_loop fuel addr data poll poll_mask poll_value offset
               (len (skipn (Z.to_nat offset) data))
               (connected_bus t
                  (map len (firstn k (chunks (skipn (Z.to_nat offset) data)))
                   ++ ack :: r) q 0)
    = (Raise AssertionError,
       connected_bus
         (t ++ map (spec_write_datagram addr poll poll_mask poll_value)
                   (firstn (S k) (chunks (skipn (Z.to_nat offset) data))))
         r q 0).
Proof.
  induction k as [| k IH]; intros fuel offset ack t r q Hoff Hpoll Hfuel Hk Hack.
  - assert (Hne : skipn (Z.to_nat offset) data <> [])
      by (intros E; rewrite E in Hk; cbn in Hk; lia).
    destruct fuel as [| fuel];
      [destruct (skipn (Z.to_nat offset) data); [contradiction | cbn in Hfuel; lia] |].
    rewrite (chunks_cons _ Hne) in Hack |- *.
    rewrite firstn_cons, !firstn_O.
    cbn [map app nth concat] in Hack |- *.
    rewrite (write_loop_step_assert fuel offset ack t r q Hoff Hne Hpoll Hack).
    reflexivity.
  - assert (Hne : skipn (Z.to_nat offset) data <> [])
      by (intros E; rewrite E in Hk; cbn in Hk; lia).
    destruct fuel as [| fuel];
      [destruct (skipn (Z.to_nat offset) data); [contradiction | cbn in Hfuel; lia] |].
    destruct (rest_fuel offset fuel Hoff Hne Hfuel) as [Hoff' Hfuel'].
    rewrite (chunks_cons _ Hne) in Hack, Hk |- *.
    rewrite !firstn_cons.
    cbn [map app nth concat length] in Hack, Hk |- *.
    rewrite (write_loop_step_acked fuel offset t _ q Hoff Hne).
    rewrite <- (skipn_next_chunk data offset Hoff) in Hack, Hk |- *.
    apply Nat.succ_lt_mono in Hk.
    rewrite (IH fuel _ ack _ r q Hoff' Hpoll Hfuel' Hk Hack).
    rewrite <- !app_assoc. reflexivity.
Qed.

End WriteLoop.

(** Whatever the bus, the arguments and the answers of the board: what a
    run of the loop hands to the transport is a prefix of the encoded chunks,
    all of them when the loop returns; the fuel never runs out. *)
Section WritePrefix.

Variables (addr : Z) (data : list Z) (poll : poll_arg) (poll_mask poll_value : Z).

Lemma read_ack_sent (b b' : ScaffoldBus) (o : outcome Z) :
  read_ack b = (o, b') -> sent b' = sent b /\ o <> OutOfFuel.
Proof.
  unfold read_ack, bind, ser_read, sent, ret, raise.
  destruct (ser b) as [s |] eqn:Hs.
  - destruct (Z.of_nat (length (rx s)) <? 1).
    + intros H. injection H as <- <-. rewrite Hs. split; [reflexivity | discriminate].
    + destruct (firstn (Z.to_nat 1) (rx s)); intros H; injection H as <- <-;
        cbn [ser tx]; (split; [reflexivity | discriminate]).
  - intros H. injection H as <- <-. rewrite Hs. split; [reflexivity | discriminate].
Qed.

Lemma check_ack_sent (offset chunk_size : Z) (b b' : ScaffoldBus)
    (o : outcome unit) :
  (if lazy_stack b =? 0 then
     ack <- read_ack ;;
     if negb (ack =? chunk_size) then
       match poll with
       | PollNone => raise AssertionError
       | _ => raise (TimeoutError (TimeoutError_init None (Some (offset + ack))))
       end
     else ret tt
   else lazy_append chunk_size) b = (o, b') ->
  sent b' = sent b /\ o <> OutOfFuel.
Proof.
  destruct (lazy_stack b =? 0).
  - unfold bind. destruct (read_ack b) as [oa ba] eqn:Ea.
    apply read_ack_sent in Ea as [Hs Hf].
    destruct oa as [ack | e | |].
    + destruct (negb (ack =? chunk_size)).
      * destruct poll; intros H; injection H as <- <-;
          (split; [exact Hs | discriminate]).
      * intros H; injection H as <- <-. split; [exact Hs | discriminate].
    + intros H; injection H as <- <-. split; [exact Hs | discriminate].
    + intros H; injection H as <- <-. split; [exact Hs | discriminate].
    + contradiction.
  - unfold lazy_append. intros H; injection H as <- <-.
    split; [reflexivity | discriminate].
Qed.

Lemma write_loop_prefix (fuel : nat) :
  forall (offset : Z) (b b' : ScaffoldBus) (o : outcome unit),
    0 <= offset ->
    (length (skipn (Z.to_nat offset) data) <= fuel)%nat ->
    write_loop fuel addr data poll poll_mask poll_value offset
               (len (skipn (Z.to_nat offset) data)) b = (o, b') ->
    exists k : nat,
      sent b' = sent b
                ++ map (spec_write_datagram addr poll poll_mask poll_value)
                       (firstn k (chunks (skipn (Z.to_nat offset) data)))
      /\ (o = Return tt ->
          k = length (chunks (skipn (Z.to_nat offset) data)))
      /\ o <> OutOfFuel.
Proof.
  induction fuel as [| fuel IH]; intros offset b b' o Hoff Hfuel Hrun.
  - assert (E : skipn (Z.to_nat offset) data = [])
      by (apply length_zero_iff_nil; lia).
    rewrite E in Hrun |- *. injection Hrun as <- <-.
    exists 0%nat. rewrite app_nil_r. repeat split; discriminate.
  - destruct (list_eq_dec Z.eq_dec (skipn (Z.to_nat offset) data) [])
      as [E | Hne].
    { rewrite E in Hrun |- *. injection Hrun as <- <-.
      exists 0%nat. rewrite app_nil_r. repeat split; discriminate. }
    cbn [write_loop] in Hrun. rewrite (len_nonzero _ Hne) in Hrun.
    rewrite (slice_next_chunk data _ Hoff), min_chunk_len in Hrun.
    rewrite len_skip_chunk in Hrun.
    rewrite (chunks_cons _ Hne).
    destruct (prepare_datagram_cases 1 addr
                (len (firstn 255 (skipn (Z.to_nat offset) data)))
                poll poll_mask poll_value) as [[e He] | [He _]];
      rewrite He in Hrun.
    { injection Hrun as <- <-. exists 0%nat. rewrite app_nil_r.
      repeat split; discriminate. }
    rewrite (bind_Return _ _ _ _ _ (lift_pure_run _ _)) in Hrun.
    fold (spec_write_datagram addr poll poll_mask poll_value
            (firstn 255 (skipn (Z.to_nat offset) data))) in Hrun.
    unfold bind at 1 in Hrun. unfold ser_write at 1 in Hrun.
    destruct (ser b) as [s |] eqn:Hs.
    2:{ injection Hrun as <- <-. exists 0%nat. rewrite app_nil_r.
        repeat split; discriminate. }
    rewrite (bind_Return _ _ _ _ _ (get_state_run _)) in Hrun.
    unfold bind at 1 in Hrun.
    match type of Hrun with
    | (let (_, _) := ?c ?st in _) = _ =>
        destruct (c st) as [o2 b2] eqn:E2
    end.
    apply check_ack_sent in E2 as [Hs2 Hf2].
    assert (Hs1 : sent b2 = sent b
              ++ [spec_write_datagram addr poll poll_mask poll_value
                    (firstn 255 (skipn (Z.to_nat offset) data))]).
    { rewrite Hs2. unfold sent. cbn [ser tx]. rewrite Hs. reflexivity. }
    destruct o2 as [[] | e | |].
    + destruct (rest_fuel data offset fuel Hoff Hne Hfuel) as [Hoff' Hfuel'].
      rewrite <- (skipn_next_chunk data offset Hoff) in Hrun |- *.
      destruct (IH _ _ _ _ Hoff' Hfuel' Hrun) as (k & Hk1 & Hk2 & Hk3).
      exists (S k). rewrite firstn_cons. cbn [map length].
      rewrite Hk1, Hs1, <- app_assoc. cbn [app].
      repeat split; [| exact Hk3].
      intros Ho. f_equal. exact (Hk2 Ho).
    + injection Hrun as <- <-. exists 1%nat.
      rewrite firstn_cons, firstn_O. cbn [map]. rewrite Hs1.
      repeat split; discriminate.
    + injection Hrun as <- <-. exists 1%nat.
      rewrite firstn_cons, firstn_O. cbn [map]. rewrite Hs1.
      repeat split; discriminate.
    + contradiction.
Qed.

End WritePrefix.

(** ** [ScaffoldBus.write] *)

Lemma ScaffoldBus_write_bytes (addr : Z) (l : list Z) (poll : poll_arg)
    (poll_mask poll_value : Z) (b : ScaffoldBus) (s : Serial) :
  ser b = Some s ->
  ScaffoldBus_write addr (DataBytes l) poll poll_mask poll_value b
  = write_loop (length l) addr l poll poll_mask poll_value 0 (len l) b.
Proof.
  intros Hs. unfold ScaffoldBus_write.
  rewrite (bind_Return _ _ _ _ _ (get_state_run _)). rewrite Hs.
  cbn [data_bytes].
  rewrite (bind_Return _ _ _ _ _ (lift_pure_run _ _)). reflexivity.
Qed.

Lemma ScaffoldBus_write_not_connected (addr : Z) (data : data_arg)
    (poll : poll_arg) (poll_mask poll_value : Z) (b : ScaffoldBus) :
  ser b = None ->
  ScaffoldBus_write addr data poll poll_mask poll_value b
  = (Raise (RuntimeError "Not connected to board"), b).
Proof.
  intros Hs. unfold ScaffoldBus_write.
  rewrite (bind_Return _ _ _ _ _ (get_state_run _)). rewrite Hs. reflexivity.
Qed.

(** The three flag bits of the command byte of a write. *)
Lemma spec_command_bits (size : Z) (poll : option Z) :
  Z.testbit (spec_command 1 size poll) 0 = true
  /\ Z.testbit (spec_command 1 size poll) 1 = (1 <? size)
  /\ Z.testbit (spec_command 1 size poll) 2
     = match poll with Some _ => true | None => false end
  /\ 0 <= spec_command 1 size poll < 8.
Proof.
  unfold spec_command. destruct (1 <? size); destruct poll; cbn; repeat split;
    try reflexivity; lia.
Qed.

(** C2: [write] cuts the payload into consecutive chunks of 1 to 255 bytes,
    each as long as the 255-byte limit allows (sizes 255, 255, 90 for 600
    bytes), that concatenate back to the payload; each chunk travels as one
    datagram, written out here byte by byte: the command byte (1 for a
    write, plus 2 exactly when the chunk has more than one byte, plus 4
    exactly when a poll spec is present), the address big-endian, the same
    in every datagram; then, exactly when polling, the poll address
    big-endian (the address itself, or that of the register given), the
    mask and the expected value; the size byte exactly when the chunk has
    more than one byte; then the chunk. Every run hands the transport a
    prefix of these datagrams, in order, and all of them when it returns;
    with a 16-bit address and a valid poll spec it does return, inside a
    lazy section and also outside when every chunk is acknowledged in
    full. *)
Theorem C2_write_chunks_and_frames (addr : Z) (l : list Z) (poll : poll_arg)
    (poll_mask poll_value : Z) :
  concat (chunks l) = l
  /\ Forall (fun c => 1 <= len c <= 255) (chunks l)
  /\ (l <> [] -> chunks l = firstn 255 l :: chunks (skipn 255 l))
  /\ (length l = 600%nat -> map len (chunks l) = [255; 255; 90])
  /\ (forall c : list Z,
        spec_write_datagram addr PollNone poll_mask poll_value c
        = [if 1 <? len c then 3 else 1; addr / 256; addr mod 256]
          ++ (if 1 <? len c then [len c] else [])
          ++ c)
  /\ (forall (p : Z) (c : list Z),
        spec_write_datagram addr (PollAddr p) poll_mask poll_value c
        = [if 1 <? len c then 7 else 5; addr / 256; addr mod 256;
           p / 256; p mod 256; poll_mask; poll_value]
          ++ (if 1 <? len c then [len c] else [])
          ++ c)
  /\ (forall (reg : Register) (c : list Z),
        spec_write_datagram addr (PollReg reg) poll_mask poll_value c
        = [if 1 <? len c then 7 else 5; addr / 256; addr mod 256;
           reg_address reg / 256; reg_address reg mod 256;
           poll_mask; poll_value]
          ++ (if 1 <? len c then [len c] else [])
          ++ c)
  /\ (forall c : list Z,
        Z.testbit (hd 0 (spec_write_datagram addr poll poll_mask poll_value c))
                  0 = true
        /\ Z.testbit (hd 0 (spec_write_datagram addr poll poll_mask
                                                poll_value c)) 1
           = (1 <? len c)
        /\ Z.testbit (hd 0 (spec_write_datagram addr poll poll_mask
                                                poll_value c)) 2
           = match poll with PollNone => false | _ => true end)
  /\ (forall (b b' : ScaffoldBus) (o : outcome unit),
        ScaffoldBus_write addr (DataBytes l) poll poll_mask poll_value b
        = (o, b') ->
        exists k : nat,
          sent b' = sent b
                    ++ map (spec_write_datagram addr poll poll_mask poll_value)
                           (firstn k (chunks l))
          /\ (o = Return tt -> k = length (chunks l))
          /\ o <> OutOfFuel)
  /\ (in_range 0 65536 addr = true ->
      valid_poll poll poll_mask poll_value = true ->
      forall (t : list (list Z)) (r q : list Z) (d : Z),
        (d <> 0 ->
         ScaffoldBus_write addr (DataBytes l) poll poll_mask poll_value
                           (connected_bus t r q d)
         = (Return tt,
            connected_bus
              (t ++ map (spec_write_datagram addr poll poll_mask poll_value)
                        (chunks l))
              r (q ++ map len (chunks l)) d))
        /\ ScaffoldBus_write addr (DataBytes l) poll poll_mask poll_value
                             (connected_bus t (map len (chunks l) ++ r) q 0)
           = (Return tt,
              connected_bus
                (t ++ map (spec_write_datagram addr poll poll_mask poll_value)
                          (chunks l))
                r q 0)).
Proof.
  split; [apply chunks_concat |].
  split; [apply chunks_bounds |].
  split; [apply chunks_cons |].
  split; [apply chunks_600 |].
  split.
  { intros c. unfold spec_write_datagram, spec_header, spec_command.
    cbn [poll_address app]. destruct (1 <? len c); reflexivity. }
  split.
  { intros p c. unfold spec_write_datagram, spec_header, spec_command.
    cbn [poll_address app]. destruct (1 <? len c); reflexivity. }
  split.
  { intros reg c. unfold spec_write_datagram, spec_header, spec_command.
    cbn [poll_address app]. destruct (1 <? len c); reflexivity. }
  split.
  { intros c. unfold spec_write_datagram, spec_header. cbn [app hd].
    destruct (spec_command_bits (len c) (poll_address poll))
      as (H0 & H1 & H2 & _).
    split; [exact H0 |]. split; [exact H1 |].
    rewrite H2. destruct poll; reflexivity. }
  split.
  { intros b b' o Hrun.
    destruct (ser b) as [s |] eqn:Hs.
    - rewrite (ScaffoldBus_write_bytes _ _ _ _ _ _ s Hs) in Hrun.
      apply (write_loop_prefix addr l poll poll_mask poll_value (length l) 0);
        [lia | cbn [Z.to_nat skipn]; lia | exact Hrun].
    - rewrite (ScaffoldBus_write_not_connected _ _ _ _ _ _ Hs) in Hrun.
      injection Hrun as <- <-. exists 0%nat. rewrite app_nil_r.
      repeat split; discriminate. }
  intros Haddr Hpoll t r q d. split.
  - intros Hd.
    rewrite (ScaffoldBus_write_bytes _ _ _ _ _ (connected_bus t r q d)
               (mkSerial t r) eq_refl).
    apply (write_loop_lazy addr l poll poll_mask poll_value Haddr Hpoll
             (length l) 0 t r q d); [lia | exact Hd | cbn [Z.to_nat skipn]; lia].
  - rewrite (ScaffoldBus_write_bytes _ _ _ _ _
               (connected_bus t (map len (chunks l) ++ r) q 0)
               (mkSerial t (map len (chunks l) ++ r)) eq_refl).
    apply (write_loop_acked addr l poll poll_mask poll_value Haddr Hpoll
             (length l) 0 t r q); [lia | cbn [Z.to_nat skipn]; lia].
Qed.

Lemma C2_write_600_bytes_witness :
  map len (chunks (repeat 7 600)) = [255; 255; 90]
  /\ ScaffoldBus_write 0x0210 (DataBytes (repeat 7 600)) (PollAddr 0x0400) 1 1
                       (connected_bus [] [] [] 1)
     = (Return tt,
        connected_bus
          [[7; 2; 0x10; 4; 0; 1; 1; 255] ++ repeat 7 255;
           [7; 2; 0x10; 4; 0; 1; 1; 255] ++ repeat 7 255;
           [7; 2; 0x10; 4; 0; 1; 1; 90] ++ repeat 7 90]
          [] [255; 255; 90] 1)
  /\ ScaffoldBus_write 0x0210 (DataBytes [0xa; 0xb; 0xc]) PollNone 255 0
                       (connected_bus [] [3] [] 0)
     = (Return tt, connected_bus [[3; 2; 0x10; 3; 0xa; 0xb; 0xc]] [] [] 0)
  /\ ScaffoldBus_write 0x0210 (DataBytes [0xa])
                       (PollReg (mkRegister 0x0400 false true true 1 0 255 None))
                       1 1 (connected_bus [] [1] [] 0)
     = (Return tt, connected_bus [[5; 2; 0x10; 4; 0; 1; 1; 0xa]] [] [] 0).
Proof.
  destruct (C2_write_chunks_and_frames 0x0210 (repeat 7 600) (PollAddr 0x0400) 1 1)
    as (_ & _ & _ & H600 & _ & _ & _ & _ & _ & Hrun).
  destruct (C2_write_chunks_and_frames 0x0210 [0xa; 0xb; 0xc] PollNone 255 0)
    as (_ & _ & _ & _ & _ & _ & _ & _ & _ & Hnone).
  destruct (C2_write_chunks_and_frames 0x0210 [0xa]
              (PollReg (mkRegister 0x0400 false true true 1 0 255 None)) 1 1)
    as (_ & _ & _ & _ & _ & _ & _ & _ & _ & Hreg).
  split; [apply H600; apply repeat_length |].
  split; [| split].
  - assert (Hd : 1 <> 0) by discriminate.
    exact (proj1 (Hrun eq_refl eq_refl [] [] [] 1) Hd).
  - exact (proj2 (Hnone eq_refl eq_refl [] [] [] 0)).
  - exact (proj2 (Hreg eq_refl eq_refl [] [] [] 0)).
Defined.

(** ** The read loop *)

Lemma ser_read_connected (n : Z) (a : list Z) (t : list (list Z))
    (r q : list Z) (d : Z) :
  len a = n ->
  ser_read n (connected_bus t (a ++ r) q d) = (Return a, connected_bus t r q d).
Proof.
  intros Hn. unfold ser_read, connected_bus. cbn [ser rx tx lazy_writes lazy_stack].
  unfold len in Hn.
  destruct (Z.ltb_spec (Z.of_nat (length (a ++ r))) n) as [Hlt | _].
  - rewrite length_app in Hlt. lia.
  - assert (E : Z.to_nat n = length a) by lia. rewrite E.
    rewrite firstn_app, Nat.sub_diag, firstn_all, firstn_O, app_nil_r.
    rewrite skipn_app, Nat.sub_diag, skipn_all, skipn_O. reflexivity.
Qed.

Lemma ser_read_snoc (payload : list Z) (a : Z) (t : list (list Z))
    (r q : list Z) (d : Z) :
  ser_read (len payload + 1) (connected_bus t (payload ++ a :: r) q d)
  = (Return (payload ++ [a]), connected_bus t r q d).
Proof.
  change (payload ++ a :: r) with (payload ++ [a] ++ r).
  rewrite app_assoc. apply ser_read_connected.
  rewrite len_app. reflexivity.
Qed.

Lemma last_byte_snoc (l : list Z) (a : Z) : last_byte (l ++ [a]) = Return a.
Proof. unfold last_byte. rewrite rev_unit. reflexivity. Qed.

Lemma slice_to_minus1 (l : list Z) (a : Z) : slice_to (l ++ [a]) (-1) = l.
Proof.
  unfold slice_to. change (0 <=? -1) with false. cbv iota.
  rewrite length_app. cbn [length].
  replace (Z.to_nat (Z.of_nat (length l + 1) + -1)) with (length l) by lia.
  rewrite firstn_app, Nat.sub_diag, firstn_all, firstn_O, app_nil_r.
  reflexivity.
Qed.

Lemma slice_to_prefix (l : list Z) (a k : Z) :
  0 <= k <= len l -> slice_to (l ++ [a]) k = firstn (Z.to_nat k) l.
Proof.
  intros Hk. unfold slice_to, len in *.
  destruct (Z.leb_spec 0 k) as [_ | Hneg]; [| lia].
  rewrite firstn_app.
  replace (Z.to_nat k - length l)%nat with 0%nat by lia.
  rewrite firstn_O, app_nil_r. reflexivity.
Qed.

Section ReadLoop.

Variables (addr : Z) (poll : poll_arg) (poll_mask poll_value : Z).
Hypothesis addr_ok : in_range 0 65536 addr = true.
Hypothesis poll_ok : valid_poll poll poll_mask poll_value = true.

Lemma read_chunk_size_ok (remaining : Z) :
  0 < remaining -> in_range 1 256 (Z.min MAX_CHUNK remaining) = true.
Proof. intros H. apply in_range_true. unfold MAX_CHUNK. lia. Qed.

(** The loop body up to and including [res = self.ser.read(chunk_size+1)]
    and [ack = res[-1]]. *)
Ltac enter_read_turn remaining Hrem Hlen :=
  cbn [read_loop];
  rewrite (proj2 (Z.eqb_neq remaining 0)) by lia;
  rewrite (prepare_datagram_ok 0 addr _ poll poll_mask poll_value
             eq_refl (read_chunk_size_ok _ Hrem) addr_ok poll_ok);
  rewrite (bind_Return _ _ _ _ _ (lift_pure_run _ _));
  rewrite (bind_Return _ _ _ _ _ (ser_write_connected _ _ _ _ _));
  rewrite <- Hlen;
  rewrite (bind_Return _ _ _ _ _ (ser_read_snoc _ _ _ _ _ _));
  rewrite last_byte_snoc;
  rewrite (bind_Return _ _ _ _ _ (lift_pure_run _ _)).

(** A turn on which the board returns the whole chunk. *)
Lemma read_loop_step_full (fuel : nat) (result : list Z) (remaining : Z)
    (payload : list Z) (t : list (list Z)) (r q : list Z) (d : Z) :
  0 < remaining ->
  len payload = Z.min MAX_CHUNK remaining ->
  read_loop (S fuel) addr poll poll_mask poll_value result remaining
            (connected_bus t (payload ++ Z.min MAX_CHUNK remaining :: r) q d)
  = read_loop fuel addr poll poll_mask poll_value (result ++ payload)
              (remaining - Z.min MAX_CHUNK remaining)
              (connected_bus
                 (t ++ [spec_read_datagram addr poll poll_mask poll_value
                          (Z.min MAX_CHUNK remaining)])
                 r q d).
Proof.
  intros Hrem Hlen. enter_read_turn remaining Hrem Hlen.
  rewrite Z.eqb_refl. cbn [negb]. rewrite slice_to_minus1. reflexivity.
Qed.

(** The turn on which the board returns fewer bytes than asked, while
    polling: only the acknowledged prefix joins the result, and the loop ends
    with the [TimeoutError] that carries everything collected. *)
Lemma read_loop_step_timeout (fuel : nat) (result : list Z) (remaining ack : Z)
    (payload : list Z) (t : list (list Z)) (r q : list Z) (d : Z) :
  0 < remaining ->
  len payload = Z.min MAX_CHUNK remaining ->
  poll <> PollNone ->
  0 <= ack < Z.min MAX_CHUNK remaining ->
  read_loop (S fuel) addr poll poll_mask poll_value result remaining
            (connected_bus t (payload ++ ack :: r) q d)
  = (Raise (TimeoutError
              (TimeoutError_init
                 (Some (result ++ firstn (Z.to_nat ack) payload)) None)),
     connected_bus
       (t ++ [spec_read_datagram addr poll poll_mask poll_value
                (Z.min MAX_CHUNK remaining)])
       r q d).
Proof.
  intros Hrem Hlen Hpoll Hack. enter_read_turn remaining Hrem Hlen.
  rewrite (proj2 (Z.eqb_neq ack (len payload))) by lia.
  cbn [negb]. rewrite (slice_to_prefix payload ack ack) by lia.
  destruct poll; [contradiction | reflexivity | reflexivity].
Qed.

(** [k] chunks of 255 bytes returned in full, then a short one. *)
Lemma read_loop_timeout (full : list (list Z)) :
  forall (fuel : nat) (result : list Z) (remaining ack : Z)
         (payload : list Z) (t : list (list Z)) (r q : list Z) (d : Z),
    Forall (fun p => len p = 255) full ->
    255 * len_chunks full < remaining ->
    (length full < fuel)%nat ->
    len payload = Z.min MAX_CHUNK (remaining - 255 * len_chunks full) ->
    poll <> PollNone ->
    0 <= ack < Z.min MAX_CHUNK (remaining - 255 * len_chunks full) ->
    read_loop fuel addr poll poll_mask poll_value result remaining
              (connected_bus t
                 (concat (map (fun p => p ++ [255]) full) ++ payload ++ ack :: r)
                 q d)
    = (Raise (TimeoutError
                (TimeoutError_init
                   (Some (result ++ concat full
                                 ++ firstn (Z.to_nat ack) payload)) None)),
       connected_bus
         (t ++ map (fun _ => spec_read_datagram addr poll poll_mask poll_value 255)
                   full
            ++ [spec_read_datagram addr poll poll_mask poll_value
                  (Z.min MAX_CHUNK (remaining - 255 * len_chunks full))])
         r q d).
Proof.
  induction full as [| p full IH];
    intros fuel result remaining ack payload t r q d Hfull Hrem Hfuel Hlen Hpoll Hack.
  - unfold len_chunks in *. cbn [length map concat app] in *.
    change (255 * Z.of_nat 0) with 0 in *. rewrite Z.sub_0_r in *.
    destruct fuel as [| fuel]; [lia |].
    rewrite (read_loop_step_timeout fuel result remaining ack payload t r q d
               ltac:(lia) Hlen Hpoll Hack).
    reflexivity.
  - inversion Hfull as [| p' full' Hp Hfull']; subst p' full'.
    unfold len_chunks in *. cbn [length map concat] in *.
    destruct fuel as [| fuel]; [lia |].
    assert (Hmin : Z.min MAX_CHUNK remaining = 255) by (unfold MAX_CHUNK; lia).
    rewrite <- !app_assoc. cbn [app].
    rewrite <- Hmin at 1.
    rewrite (read_loop_step_full fuel result remaining p t _ q d
               ltac:(lia) ltac:(lia)).
    rewrite Hmin.
    replace (remaining - 255 * Z.of_nat (S (length full)))
      with (remaining - 255 - 255 * Z.of_nat (length full)) in * by lia.
    rewrite (IH fuel (result ++ p) (remaining - 255) ack payload _ r q d
               Hfull' ltac:(lia) ltac:(lia) Hlen Hpoll Hack).
    rewrite <- !app_assoc. reflexivity.
Qed.

(** The turn on which the acknowledgment differs from the chunk size while
    no poll spec was given: [assert poll is not None] fails. *)
Lemma read_loop_step_assert (fuel : nat) (result : list Z) (remaining ack : Z)
    (payload : list Z) (t : list (list Z)) (r q : list Z) (d : Z) :
  0 < remaining ->
  len payload = Z.min MAX_CHUNK remaining ->
  poll = PollNone ->
  ack <> Z.min MAX_CHUNK remaining ->
  read_loop (S fuel) addr poll poll_mask poll_value result remaining
            (connected_bus t (payload ++ ack :: r) q d)
  = (Raise AssertionError,
     connected_bus
       (t ++ [spec_read_datagram addr poll poll_mask poll_value
                (Z.min MAX_CHUNK remaining)])
       r q d).
Proof.
  intros Hrem Hlen Hpoll Hack. enter_read_turn remaining Hrem Hlen.
  rewrite (proj2 (Z.eqb_neq ack (len payload))) by lia.
  cbn [negb].
  destruct poll; [reflexivity | discriminate | discriminate].
Qed.

Lemma read_loop_assert (full : list (list Z)) :
  forall (fuel : nat) (result : list Z) (remaining ack : Z)
         (payload : list Z) (t : list (list Z)) (r q : list Z) (d : Z),
    Forall (fun p => len p = 255) full ->
    255 * len_chunks full < remaining ->
    (length full < fuel)%nat ->
    len payload = Z.min MAX_CHUNK (remaining - 255 * len_chunks full) ->
    poll = PollNone ->
    ack <> Z.min MAX_CHUNK (remaining - 255 * len_chunks full) ->
    read_loop fuel addr poll poll_mask poll_value result remaining
              (connected_bus t
                 (concat (map (fun p => p ++ [255]) full) ++ payload ++ ack :: r)
                 q d)
    = (Raise AssertionError,
       connected_bus
         (t ++ map (fun _ => spec_read_datagram addr poll poll_mask poll_value 255)
                   full
            ++ [spec_read_datagram addr poll poll_mask poll_value
                  (Z.min MAX_CHUNK (remaining - 255 * len_chunks full))])
         r q d).
Proof.
  induction full as [| p full IH];
    intros fuel result remaining ack payload t r q d Hfull Hrem Hfuel Hlen Hpoll Hack.
  - unfold len_chunks in *. cbn [length map concat app] in *.
    change (255 * Z.of_nat 0) with 0 in *. rewrite Z.sub_0_r in *.
    destruct fuel as [| fuel]; [lia |].
    rewrite (read_loop_step_assert fuel result remaining ack payload t r q d
               ltac:(lia) Hlen Hpoll Hack).
    reflexivity.
  - inversion Hfull as [| p' full' Hp Hfull']; subst p' full'.
    unfold len_chunks in *. cbn [length map concat] in *.
    destruct fuel as [| fuel]; [lia |].
    assert (Hmin : Z.min MAX_CHUNK remaining = 255) by (unfold MAX_CHUNK; lia).
    rewrite <- !app_assoc. cbn [app].
    rewrite <- Hmin at 1.
    rewrite (read_loop_step_full fuel result remaining p t _ q d
               ltac:(lia) ltac:(lia)).
    rewrite Hmin.
    replace (remaining - 255 * Z.of_nat (S (length full)))
      with (remaining - 255 - 255 * Z.of_nat (length full)) in * by lia.
    rewrite (IH fuel (result ++ p) (remaining - 255) ack payload _ r q d
               Hfull' ltac:(lia) ltac:(lia) Hlen Hpoll Hack).
    rewrite <- !app_assoc. reflexivity.
Qed.

End ReadLoop.

(** ** Timeout attribution *)

(** Every chunk before the last is full. *)
Lemma full_chunks_before (k : nat) :
  forall l : list Z,
    (k < length (chunks l))%nat ->
    len (concat (firstn k (chunks l))) = 255 * Z.of_nat k.
Proof.
  induction k as [| k IH]; intros l Hk; [reflexivity |].
  assert (Hne : l <> []) by (intros ->; cbn in Hk; lia).
  rewrite (chunks_cons l Hne) in Hk |- *.
  cbn [length] in Hk. apply Nat.succ_lt_mono in Hk.
  rewrite firstn_cons. cbn [concat]. rewrite len_app, (IH _ Hk).
  assert (Hne' : skipn 255 l <> []) by (intros E; rewrite E in Hk; cbn in Hk; lia).
  assert (Hlen : (255 < length l)%nat).
  { destruct (Nat.le_gt_cases (length l) 255) as [Hle | Hgt]; [| exact Hgt].
    exfalso. apply Hne'. apply skipn_all2. exact Hle. }
  unfold len. rewrite length_firstn. lia.
Qed.

Lemma ScaffoldBus_read_connected (addr size : Z) (poll : poll_arg)
    (poll_mask poll_value : Z) (t : list (list Z)) (r q : list Z) :
  ScaffoldBus_read addr size poll poll_mask poll_value (connected_bus t r q 0)
  = read_loop (S (Z.to_nat size)) addr poll poll_mask poll_value [] size
              (connected_bus t r q 0).
Proof. reflexivity. Qed.

(** C3 fails as stated: with no poll spec a short acknowledgment trips the
    [assert poll is not None] of [write] and of [read]; the failure is an
    [AssertionError], and neither a size nor the partial data is carried. *)
Lemma C3_short_ack_without_poll_counterexample :
  lazy_stack (connected_bus [] [2] [] 0) = 0
  /\ fst (ScaffoldBus_write 0x0210 (DataBytes [1; 2; 3]) PollNone 255 0
            (connected_bus [] [2] [] 0))
     = Raise AssertionError
  /\ fst (ScaffoldBus_read 0x0210 3 PollNone 255 0
            (connected_bus [] [9; 8; 7; 2] [] 0))
     = Raise AssertionError.
Proof.
  repeat split; vm_compute; reflexivity.
Qed.

(** C3 (amended): with a 16-bit address and the bus outside lazy sections.
    With a poll spec. [write]: when the first [k] chunks are acknowledged in
    full and the acknowledgment of the next differs from its size, [write]
    fails with the [TimeoutError] of size [offset + ack], where
    [offset = 255 * k] is the number of bytes of the acknowledged chunks, and
    nothing after that chunk is sent. [read]: when the first chunks come back
    in full and the next comes back with an acknowledgment below its size,
    [read] fails with the [TimeoutError] whose data is every payload received
    so far followed by the acknowledged prefix only, and no further datagram
    is sent. Without a poll spec: whatever the payload or the size asked, at
    the first chunk whose acknowledgment differs from its size [write] and
    [read] both fail with [AssertionError], carrying neither a size nor any
    data, having sent the same datagrams and consumed the same bytes. *)
Theorem C3_timeout_attribution (addr : Z) (poll : poll_arg)
    (poll_mask poll_value : Z) :
  in_range 0 65536 addr = true ->
  valid_poll poll poll_mask poll_value = true ->
  (poll <> PollNone ->
   (forall (l : list Z) (k : nat) (ack : Z) (t : list (list Z)) (r q : list Z),
       (k < length (chunks l))%nat ->
       ack <> len (nth k (chunks l) []) ->
       ScaffoldBus_write addr (DataBytes l) poll poll_mask poll_value
         (connected_bus t (map len (firstn k (chunks l)) ++ ack :: r) q 0)
       = (Raise (TimeoutError
                   (mkTimeoutError None (Some (255 * Z.of_nat k + ack)))),
          connected_bus
            (t ++ map (spec_write_datagram addr poll poll_mask poll_value)
                      (firstn (S k) (chunks l)))
            r q 0)
       /\ len (concat (firstn k (chunks l))) = 255 * Z.of_nat k)
   /\ (forall (size : Z) (full : list (list Z)) (payload : list Z) (ack : Z)
              (t : list (list Z)) (r q : list Z),
       Forall (fun p => len p = 255) full ->
       255 * len_chunks full < size ->
       len payload = Z.min 255 (size - 255 * len_chunks full) ->
       0 <= ack < len payload ->
       ScaffoldBus_read addr size poll poll_mask poll_value
         (connected_bus t
            (concat (map (fun p => p ++ [255]) full) ++ payload ++ ack :: r)
            q 0)
       = (Raise (TimeoutError
                   (mkTimeoutError
                      (Some (concat full ++ firstn (Z.to_nat ack) payload))
                      (Some (len (concat full
                                    ++ firstn (Z.to_nat ack) payload))))),
          connected_bus
            (t ++ map (fun _ => spec_read_datagram addr poll poll_mask
                                  poll_value 255)
                      full
               ++ [spec_read_datagram addr poll poll_mask poll_value
                     (len payload)])
            r q 0)))
  /\ (poll = PollNone ->
      (forall (l : list Z) (k : nat) (ack : Z) (t : list (list Z))
              (r q : list Z),
          (k < length (chunks l))%nat ->
          ack <> len (nth k (chunks l) []) ->
          ScaffoldBus_write addr (DataBytes l) poll poll_mask poll_value
            (connected_bus t (map len (firstn k (chunks l)) ++ ack :: r) q 0)
          = (Raise AssertionError,
             connected_bus
               (t ++ map (spec_write_datagram addr poll poll_mask poll_value)
                         (firstn (S k) (chunks l)))
               r q 0))
      /\ (forall (size : Z) (full : list (list Z)) (payload : list Z)
                 (ack : Z) (t : list (list Z)) (r q : list Z),
          Forall (fun p => len p = 255) full ->
          255 * len_chunks full < size ->
          len payload = Z.min 255 (size - 255 * len_chunks full) ->
          ack <> len payload ->
          ScaffoldBus_read addr size poll poll_mask poll_value
            (connected_bus t
               (concat (map (fun p => p ++ [255]) full) ++ payload ++ ack :: r)
               q 0)
          = (Raise AssertionError,
             connected_bus
               (t ++ map (fun _ => spec_read_datagram addr poll poll_mask
                                     poll_value 255)
                         full
                  ++ [spec_read_datagram addr poll poll_mask poll_value
                        (len payload)])
               r q 0))).
Proof.
  intros Haddr Hpoll. split.
  - intros Hsome. split.
    + intros l k ack t r q Hk Hack.
      split; [| apply full_chunks_before; exact Hk].
      rewrite (ScaffoldBus_write_bytes _ _ _ _ _
                 (connected_bus t (map len (firstn k (chunks l)) ++ ack :: r) q 0)
                 (mkSerial t (map len (firstn k (chunks l)) ++ ack :: r))
                 eq_refl).
      pose proof (write_loop_timeout addr l poll poll_mask poll_value
                    Haddr Hpoll k (length l) 0 ack t r q (Z.le_refl 0) Hsome)
        as H.
      cbn [Z.to_nat skipn] in H. rewrite (H (le_n _) Hk Hack).
      rewrite (full_chunks_before k l Hk), Z.add_0_l. reflexivity.
    + intros size full payload ack t r q Hfull Hsize Hlen Hack.
      rewrite ScaffoldBus_read_connected.
      rewrite (read_loop_timeout addr poll poll_mask poll_value Haddr Hpoll
                 full (S (Z.to_nat size)) [] size ack payload t r q 0
                 Hfull Hsize);
        [| unfold len_chunks in Hsize; lia | exact Hlen | exact Hsome
         | unfold MAX_CHUNK; lia].
      unfold MAX_CHUNK. rewrite <- Hlen. reflexivity.
  - intros Hnone. split.
    + intros l k ack t r q Hk Hack.
      rewrite (ScaffoldBus_write_bytes _ _ _ _ _
                 (connected_bus t (map len (firstn k (chunks l)) ++ ack :: r) q 0)
                 (mkSerial t (map len (firstn k (chunks l)) ++ ack :: r))
                 eq_refl).
      pose proof (write_loop_assert addr l poll poll_mask poll_value
                    Haddr Hpoll k (length l) 0 ack t r q (Z.le_refl 0) Hnone)
        as H.
      cbn [Z.to_nat skipn] in H. exact (H (le_n _) Hk Hack).
    + intros size full payload ack t r q Hfull Hsize Hlen Hack.
      rewrite ScaffoldBus_read_connected.
      rewrite (read_loop_assert addr poll poll_mask poll_value Haddr Hpoll
                 full (S (Z.to_nat size)) [] size ack payload t r q 0
                 Hfull Hsize);
        [| unfold len_chunks in Hsize; lia | exact Hlen | exact Hnone
         | unfold MAX_CHUNK; lia].
      unfold MAX_CHUNK. rewrite <- Hlen. reflexivity.
Qed.

Lemma C3_timeout_attribution_witness :
  ScaffoldBus_write 0x0210 (DataBytes (repeat 7 300)) (PollAddr 0x0400) 1 1
    (connected_bus [] [255; 40] [] 0)
  = (Raise (TimeoutError (mkTimeoutError None (Some 295))),
     connected_bus
       [[7; 2; 0x10; 4; 0; 1; 1; 255] ++ repeat 7 255;
        [7; 2; 0x10; 4; 0; 1; 1; 45] ++ repeat 7 45]
       [] [] 0)
  /\ ScaffoldBus_read 0x0210 3 (PollAddr 0x0400) 1 1
       (connected_bus [] [9; 8; 7; 2] [] 0)
     = (Raise (TimeoutError (mkTimeoutError (Some [9; 8]) (Some 2))),
        connected_bus [[6; 2; 0x10; 4; 0; 1; 1; 3]] [] [] 0)
  /\ ScaffoldBus_write 0x0210 (DataBytes [1; 2; 3]) PollNone 255 0
       (connected_bus [] [2] [] 0)
     = (Raise AssertionError,
        connected_bus [[3; 2; 0x10; 3; 1; 2; 3]] [] [] 0)
  /\ ScaffoldBus_read 0x0210 3 PollNone 255 0
       (connected_bus [] [9; 8; 7; 2] [] 0)
     = (Raise AssertionError, connected_bus [[2; 2; 0x10; 3]] [] [] 0).
Proof.
  assert (Hsome : PollAddr 0x0400 <> PollNone) by discriminate.
  destruct (C3_timeout_attribution 0x0210 (PollAddr 0x0400) 1 1
              eq_refl eq_refl) as [Hpolled _].
  destruct (Hpolled Hsome) as [Hw Hr].
  destruct (C3_timeout_attribution 0x0210 PollNone 255 0 eq_refl eq_refl)
    as [_ Hplain].
  destruct (Hplain eq_refl) as [Hw0 Hr0].
  split; [| split; [| split]].
  - refine (proj1 (Hw (repeat 7 300) 1%nat 40 [] [] [] _ _)).
    + vm_compute. apply le_n.
    + vm_compute. discriminate.
  - refine (Hr 3 [] [9; 8; 7] 2 [] [] [] _ _ _ _).
    + constructor.
    + reflexivity.
    + reflexivity.
    + vm_compute. split; [discriminate | reflexivity].
  - refine (Hw0 [1; 2; 3] 0%nat 2 [] [] [] _ _).
    + vm_compute. apply le_n.
    + vm_compute. discriminate.
  - refine (Hr0 3 [] [9; 8; 7] 2 [] [] [] _ _ _ _).
    + constructor.
    + reflexivity.
    + reflexivity.
    + vm_compute. discriminate.
Defined.

(** ** Registers *)

Lemma Register_init_ok (mode : string) (address wideness : Z)
    (min_value max_value : option Z) (r : Register) :
  Register_init mode address wideness min_value max_value = Return r ->
  Register_ok r = true /\ reg_cache r = None /\ reg_address r = address.
Proof.
  unfold Register_init.
  destruct (in_range 0 65536 address) eqn:Ha; cbn [negb]; [| discriminate].
  destruct (Z.ltb_spec wideness 1) as [| Hw]; [discriminate |].
  destruct ((1 <? wideness) && char_in "r" mode) eqn:Hr; [discriminate |].
  assert (Hpow : 0 < 2 ^ (wideness * 8)) by (apply Z.pow_pos_nonneg; lia).
  assert (Hmin : forall mn,
             match min_value with
             | None => Return 0
             | Some m =>
                 if negb (in_range 0 (2 ^ (wideness * 8)) m)
                 then Raise (ValueError "Invalid register minimum value")
                 else Return m
             end = Return mn -> 0 <= mn).
  { intros mn. destruct min_value as [m |].
    - destruct (in_range 0 (2 ^ (wideness * 8)) m) eqn:Hm; cbn [negb];
        [| discriminate].
      intros E; injection E as <-. apply in_range_true in Hm. lia.
    - intros E; injection E as <-. lia. }
  assert (Hmax : forall mx,
             match max_value with
             | None => Return (2 ^ (wideness * 8) - 1)
             | Some m =>
                 if negb (in_range 0 (2 ^ (wideness * 8)) m)
                 then Raise (ValueError "Invalid register maximum value")
                 else Return m
             end = Return mx -> mx < 2 ^ (wideness * 8)).
  { intros mx. destruct max_value as [m |].
    - destruct (in_range 0 (2 ^ (wideness * 8)) m) eqn:Hm; cbn [negb];
        [| discriminate].
      intros E; injection E as <-. apply in_range_true in Hm. lia.
    - intros E; injection E as <-. lia. }
  destruct (match min_value with None => _ | Some _ => _ end) as [mn | | |] eqn:Emn;
    cbn [obind]; try discriminate.
  destruct (match max_value with None => _ | Some _ => _ end) as [mx | | |] eqn:Emx;
    cbn [obind]; try discriminate.
  destruct (Z.ltb_spec mx mn) as [| Hle]; [discriminate |].
  intros E; injection E as <-.
  specialize (Hmin mn eq_refl). specialize (Hmax mx eq_refl).
  unfold Register_ok.
  cbn [reg_address reg_wideness reg_min_value reg_max_value reg_r reg_cache].
  rewrite Ha. replace (8 * wideness) with (wideness * 8) by lia.
  repeat split.
  rewrite !andb_true_iff, orb_true_iff, negb_true_iff.
  rewrite !Z.leb_le, Z.ltb_lt, Z.eqb_eq.
  repeat split; try lia.
  apply andb_false_iff in Hr as [Hr | Hr].
  - right. apply Z.ltb_ge in Hr. lia.
  - left. exact Hr.
Qed.

Lemma be_bytes_length (n : nat) (v : Z) : length (be_bytes n v) = n.
Proof.
  revert v. induction n as [| n IH]; intros v; [reflexivity |].
  cbn [be_bytes]. rewrite length_app, IH. cbn [length]. lia.
Qed.

Lemma be_bytes_bytes (n : nat) (v : Z) :
  Forall (fun x => 0 <= x < 256) (be_bytes n v).
Proof.
  revert v. induction n as [| n IH]; intros v; [constructor |].
  cbn [be_bytes]. apply Forall_app. split; [apply IH |].
  constructor; [| constructor].
  rewrite land255_mod. apply Z.mod_pos_bound. lia.
Qed.

Lemma be_value_snoc (l : list Z) (x : Z) :
  be_value (l ++ [x]) = be_value l * 256 + x.
Proof. unfold be_value. rewrite fold_left_app. reflexivity. Qed.

Lemma be_value_be_bytes (n : nat) :
  forall v : Z, 0 <= v < 2 ^ (8 * Z.of_nat n) -> be_value (be_bytes n v) = v.
Proof.
  induction n as [| n IH]; intros v Hv.
  - change (8 * Z.of_nat 0) with 0 in Hv. cbn in Hv |- *. lia.
  - cbn [be_bytes]. rewrite be_value_snoc, shiftr8_div, land255_mod.
    rewrite IH.
    + pose proof (Z.div_mod v 256 ltac:(lia)). lia.
    + replace (8 * Z.of_nat (S n)) with (8 + 8 * Z.of_nat n) in Hv by lia.
      rewrite Z.pow_add_r in Hv by lia. change (2 ^ 8) with 256 in Hv.
      split; [apply Z.div_pos; lia |].
      apply Z.div_lt_upper_bound; lia.
Qed.

Lemma to_bytes_ok (value wideness : Z) :
  0 <= value < 2 ^ (8 * wideness) -> 0 <= wideness ->
  to_bytes value wideness = Return (be_bytes (Z.to_nat wideness) value).
Proof.
  intros Hv Hw. unfold to_bytes.
  destruct (Z.ltb_spec value 0); [lia |].
  destruct (Z.ltb_spec wideness 0); [lia |].
  destruct (Z.leb_spec (2 ^ (8 * wideness)) value); [lia |].
  reflexivity.
Qed.

Lemma to_bytes_cases (value wideness : Z) :
  to_bytes value wideness = Return (be_bytes (Z.to_nat wideness) value)
  \/ exists e, to_bytes value wideness = Raise e.
Proof.
  unfold to_bytes.
  destruct (value <? 0); [right; eexists; reflexivity |].
  destruct (wideness <? 0); [right; eexists; reflexivity |].
  destruct (2 ^ (8 * wideness) <=? value); [right; eexists; reflexivity |].
  left. reflexivity.
Qed.

Lemma on_bus_run {A} (c : M ScaffoldBus A) (r : Register) (b b' : ScaffoldBus)
    (o : outcome A) :
  c b = (o, b') -> on_bus c (r, b) = (o, (r, b')).
Proof. intros H. unfold on_bus. cbn [fst snd]. rewrite H. reflexivity. Qed.

(** [set], with the monad run: the two bounds checks, then the capability
    check, then the serialisation, then one [bus.write]; the cache is stored
    only when that write returned. *)
Lemma Register_set_run (value : Z) (poll : poll_arg) (poll_mask poll_value : Z)
    (r : Register) (b : ScaffoldBus) :
  Register_set value poll poll_mask poll_value (r, b)
  = if value <? reg_min_value r then
      (Raise (ValueError "Value too low"), (r, b))
    else if reg_max_value r <? value then
      (Raise (ValueError "Value too high"), (r, b))
    else if negb (reg_w r) then
      (Raise (RuntimeError "Register cannot be written"), (r, b))
    else
      match to_bytes value (reg_wideness r) with
      | Return value_bytes =>
          (fst (ScaffoldBus_write (reg_address r) (DataBytes value_bytes)
                                  poll poll_mask poll_value b),
           (cache_if_returned
              (fst (ScaffoldBus_write (reg_address r) (DataBytes value_bytes)
                                      poll poll_mask poll_value b))
              r value,
            snd (ScaffoldBus_write (reg_address r) (DataBytes value_bytes)
                                   poll poll_mask poll_value b)))
      | Raise e => (Raise e, (r, b))
      | Blocked => (Blocked, (r, b))
      | OutOfFuel => (OutOfFuel, (r, b))
      end.
Proof.
  unfold Register_set.
  rewrite (bind_Return _ _ _ _ _ (get_state_run _)). cbn [fst].
  destruct (value <? reg_min_value r); [reflexivity |].
  destruct (reg_max_value r <? value); [reflexivity |].
  destruct (reg_w r); cbn [negb]; [| reflexivity].
  unfold bind at 1, lift_pure at 1.
  destruct (to_bytes value (reg_wideness r)) as [bytes | e | |]; try reflexivity.
  unfold bind, on_bus, cache_store. cbn [fst snd].
  destruct (ScaffoldBus_write (reg_address r) (DataBytes bytes)
              poll poll_mask poll_value b) as [[[] | e | |] b'];
    reflexivity.
Qed.

Lemma bus_read_byte_run (addr : Z) (r : Register) (b : ScaffoldBus) :
  bus_read_byte addr (r, b)
  = (first_byte (fst (ScaffoldBus_read addr 1 PollNone 255 0 b)),
     (r, snd (ScaffoldBus_read addr 1 PollNone 255 0 b))).
Proof.
  unfold bus_read_byte, bind, on_bus. cbn [fst snd].
  destruct (ScaffoldBus_read addr 1 PollNone 255 0 b)
    as [[[| v res] | e | |] b']; reflexivity.
Qed.

(** [get], with the monad run. *)
Lemma Register_get_run (r : Register) (b : ScaffoldBus) :
  Register_get (r, b)
  = if reg_volatile r then
      if negb (reg_r r) then
        (Raise (RuntimeError "Register cannot be read"), (r, b))
      else
        (first_byte (fst (ScaffoldBus_read (reg_address r) 1 PollNone 255 0 b)),
         (r, snd (ScaffoldBus_read (reg_address r) 1 PollNone 255 0 b)))
    else
      match reg_cache r with
      | Some c => (Return c, (r, b))
      | None =>
          if reg_r r then
            (first_byte
               (fst (ScaffoldBus_read (reg_address r) 1 PollNone 255 0 b)),
             (match first_byte
                      (fst (ScaffoldBus_read (reg_address r) 1 PollNone 255 0 b))
              with
              | Return v => set_cache r (Some v)
              | _ => r
              end,
              snd (ScaffoldBus_read (reg_address r) 1 PollNone 255 0 b)))
          else (Raise (RuntimeError "Register cannot be read"), (r, b))
      end.
Proof.
  unfold Register_get.
  rewrite (bind_Return _ _ _ _ _ (get_state_run _)). cbn [fst].
  destruct (reg_volatile r).
  - destruct (reg_r r); cbn [negb]; [apply bus_read_byte_run | reflexivity].
  - destruct (reg_cache r) as [c |]; [reflexivity |].
    destruct (reg_r r); [| reflexivity].
    unfold bind. rewrite bus_read_byte_run.
    destruct (first_byte _); reflexivity.
Qed.

(** C4 fails as stated: the bounds are checked before the capability. On
    the read-only version register a value above the maximum is refused with
    [ValueError] (InvalidArgument), not with the [RuntimeError] of a register
    that cannot be written (CapabilityError). *)
Lemma C4_bounds_before_capability_counterexample :
  Register_init "r" 0x0100 1 None None
  = Return (mkRegister 0x0100 false true false 1 0 255 None)
  /\ Register_set 256 PollNone 255 0
       (mkRegister 0x0100 false true false 1 0 255 None,
        connected_bus [] [] [] 0)
     = (Raise (ValueError "Value too high"),
        (mkRegister 0x0100 false true false 1 0 255 None,
         connected_bus [] [] [] 0)).
Proof.
  split; vm_compute; reflexivity.
Qed.

(** C4 (amended): on a register as [Register.__init__] builds them, [set]
    first requires [min <= value <= max], failing with [ValueError]
    (InvalidArgument) otherwise, whatever the register's capabilities; then
    it requires the Writable capability, failing with the [RuntimeError] of a
    register that cannot be written (CapabilityError) otherwise; both
    failures leave the register and the bus, transport included, untouched.
    Otherwise it hands [bus.write] exactly [wideness] bytes, the big-endian
    digits of the value, at the register's address with the caller's poll
    spec, ends as that write ends, and leaves the bus as that write leaves
    it: it calls nothing else on the bus. When the write returned, the
    register's cache holds the value ([reg_cache = Some value], every other
    field as before); when it did not, the register is as it was. *)
Theorem C4_set_checks_then_writes (r : Register) (value : Z) (poll : poll_arg)
    (poll_mask poll_value : Z) (b : ScaffoldBus) :
  Register_ok r = true ->
  (value < reg_min_value r \/ reg_max_value r < value ->
   exists msg,
     Register_set value poll poll_mask poll_value (r, b)
     = (Raise (ValueError msg), (r, b)))
  /\ (reg_min_value r <= value <= reg_max_value r ->
      reg_w r = false ->
      Register_set value poll poll_mask poll_value (r, b)
      = (Raise (RuntimeError "Register cannot be written"), (r, b)))
  /\ (reg_min_value r <= value <= reg_max_value r ->
      reg_w r = true ->
      len (be_bytes (Z.to_nat (reg_wideness r)) value) = reg_wideness r
      /\ be_value (be_bytes (Z.to_nat (reg_wideness r)) value) = value
      /\ Forall (fun x => 0 <= x < 256)
                (be_bytes (Z.to_nat (reg_wideness r)) value)
      /\ forall (o : outcome unit) (b' : ScaffoldBus),
           ScaffoldBus_write (reg_address r)
             (DataBytes (be_bytes (Z.to_nat (reg_wideness r)) value))
             poll poll_mask poll_value b = (o, b') ->
           Register_set value poll poll_mask poll_value (r, b)
           = (o,
              (match o with
               | Return _ =>
                   mkRegister (reg_address r) (reg_w r) (reg_r r)
                              (reg_volatile r) (reg_wideness r)
                              (reg_min_value r) (reg_max_value r) (Some value)
               | _ => r
               end, b'))).
Proof.
  intros Hok. unfold Register_ok in Hok.
  rewrite !andb_true_iff, !Z.leb_le, Z.ltb_lt in Hok.
  destruct Hok as (((((Haddr & Hw) & Hmin) & Hmm) & Hmax) & _).
  rewrite Register_set_run. split; [| split].
  - intros [Hlo | Hhi].
    + destruct (Z.ltb_spec value (reg_min_value r)); [| lia].
      eexists; reflexivity.
    + destruct (Z.ltb_spec value (reg_min_value r));
        [eexists; reflexivity |].
      destruct (Z.ltb_spec (reg_max_value r) value); [| lia].
      eexists; reflexivity.
  - intros [Hlo Hhi] Hcap.
    destruct (Z.ltb_spec value (reg_min_value r)); [lia |].
    destruct (Z.ltb_spec (reg_max_value r) value); [lia |].
    rewrite Hcap. reflexivity.
  - intros [Hlo Hhi] Hcap. split; [| split; [| split]].
    + unfold len. rewrite be_bytes_length. lia.
    + apply be_value_be_bytes. rewrite Z2Nat.id by lia. lia.
    + apply be_bytes_bytes.
    + intros o b' Hrun.
      destruct (Z.ltb_spec value (reg_min_value r)); [lia |].
      destruct (Z.ltb_spec (reg_max_value r) value); [lia |].
      replace (negb (reg_w r)) with false by (rewrite Hcap; reflexivity).
      rewrite (to_bytes_ok value (reg_wideness r)) by lia.
      rewrite Hrun. cbn [fst snd].
      destruct o as [[] | e | |]; reflexivity.
Qed.

Lemma C4_set_checks_then_writes_witness :
  (exists msg,
     Register_set 0 PollNone 255 0
       (mkRegister 0x0403 true false false 2 1 65535 None,
        connected_bus [] [] [] 0)
     = (Raise (ValueError msg),
        (mkRegister 0x0403 true false false 2 1 65535 None,
         connected_bus [] [] [] 0)))
  /\ Register_set 0x1234 PollNone 255 0
       (mkRegister 0x0403 true false false 2 1 65535 None,
        connected_bus [] [2] [] 0)
     = (Return tt,
        (mkRegister 0x0403 true false false 2 1 65535 (Some 0x1234),
         connected_bus [[3; 4; 3; 2; 0x12; 0x34]] [] [] 0)).
Proof.
  destruct (C4_set_checks_then_writes
              (mkRegister 0x0403 true false false 2 1 65535 None)
              0 PollNone 255 0 (connected_bus [] [] [] 0) eq_refl)
    as (Hbounds & _ & _).
  destruct (C4_set_checks_then_writes
              (mkRegister 0x0403 true false false 2 1 65535 None)
              0x1234 PollNone 255 0 (connected_bus [] [2] [] 0) eq_refl)
    as (_ & _ & Hwrite).
  split.
  - apply Hbounds. left. reflexivity.
  - destruct (Hwrite ltac:(split; discriminate) eq_refl)
      as (_ & _ & _ & Hrun).
    apply (Hrun (Return tt) (connected_bus [[3; 4; 3; 2; 0x12; 0x34]] [] [] 0)).
    vm_compute. reflexivity.
Defined.

(** C5: [get] on a Volatile register fails with the [RuntimeError] of a
    register that cannot be read (CapabilityError) when it is not Readable,
    touching nothing; otherwise it always calls [bus.read] for one byte at the
    register's address, ends as that read ends with its first byte, and
    leaves the register, cache included, as it was. On a register that is not
    Volatile: a populated cache is returned with the bus untouched; with an
    empty cache a Readable register is read the same way and, when the read
    returned, the register's cache holds the byte read ([reg_cache = Some v],
    every other field as before); with an empty cache a register that is not
    Readable fails with that [RuntimeError], touching nothing. *)
Theorem C5_get_volatile_and_cached (r : Register) (b : ScaffoldBus) :
  (reg_volatile r = true -> reg_r r = false ->
   Register_get (r, b)
   = (Raise (RuntimeError "Register cannot be read"), (r, b)))
  /\ (reg_volatile r = true -> reg_r r = true ->
      forall (o : outcome (list Z)) (b' : ScaffoldBus),
        ScaffoldBus_read (reg_address r) 1 PollNone 255 0 b = (o, b') ->
        Register_get (r, b) = (first_byte o, (r, b')))
  /\ (reg_volatile r = false ->
      forall c : Z, reg_cache r = Some c ->
        Register_get (r, b) = (Return c, (r, b)))
  /\ (reg_volatile r = false -> reg_cache r = None -> reg_r r = true ->
      forall (o : outcome (list Z)) (b' : ScaffoldBus),
        ScaffoldBus_read (reg_address r) 1 PollNone 255 0 b = (o, b') ->
        Register_get (r, b)
        = (first_byte o,
           (match first_byte o with
            | Return v =>
                mkRegister (reg_address r) (reg_w r) (reg_r r)
                           (reg_volatile r) (reg_wideness r)
                           (reg_min_value r) (reg_max_value r) (Some v)
            | _ => r
            end, b')))
  /\ (reg_volatile r = false -> reg_cache r = None -> reg_r r = false ->
      Register_get (r, b)
      = (Raise (RuntimeError "Register cannot be read"), (r, b))).
Proof.
  rewrite Register_get_run. repeat split.
  - intros Hv Hr. rewrite Hv, Hr. reflexivity.
  - intros Hv Hr o b' Hrun. rewrite Hv, Hr, Hrun. reflexivity.
  - intros Hv c Hc. rewrite Hv, Hc. reflexivity.
  - intros Hv Hc Hr o b' Hrun. destruct r as [a w rd vol wd mn mx c].
    cbn [reg_volatile reg_cache reg_r reg_address reg_w reg_wideness
         reg_min_value reg_max_value] in *.
    subst vol c rd. rewrite Hrun. cbn [fst snd].
    destruct (first_byte o); reflexivity.
  - intros Hv Hc Hr. rewrite Hv, Hc, Hr. reflexivity.
Qed.

Lemma C5_get_volatile_and_cached_witness :
  Register_get (mkRegister 0x0400 false true true 1 0 255 (Some 3),
                connected_bus [] [0x5a; 1; 0x5b; 1] [] 0)
  = (Return 0x5a,
     (mkRegister 0x0400 false true true 1 0 255 (Some 3),
      connected_bus [[0; 4; 0]] [0x5b; 1] [] 0))
  /\ Register_get (mkRegister 0x0402 true false false 1 0 255 (Some 7),
                   connected_bus [] [] [] 0)
     = (Return 7,
        (mkRegister 0x0402 true false false 1 0 255 (Some 7),
         connected_bus [] [] [] 0))
  /\ Register_get (mkRegister 0x0100 false true false 1 0 255 None,
                   connected_bus [] [0x73; 1] [] 0)
     = (Return 0x73,
        (mkRegister 0x0100 false true false 1 0 255 (Some 0x73),
         connected_bus [[0; 1; 0]] [] [] 0)).
Proof.
  destruct (C5_get_volatile_and_cached
              (mkRegister 0x0400 false true true 1 0 255 (Some 3))
              (connected_bus [] [0x5a; 1; 0x5b; 1] [] 0))
    as (_ & Hvolatile & _).
  destruct (C5_get_volatile_and_cached
              (mkRegister 0x0402 true false false 1 0 255 (Some 7))
              (connected_bus [] [] [] 0))
    as (_ & _ & Hcached & _).
  destruct (C5_get_volatile_and_cached
              (mkRegister 0x0100 false true false 1 0 255 None)
              (connected_bus [] [0x73; 1] [] 0))
    as (_ & _ & _ & Hempty & _).
  split; [| split].
  - apply (Hvolatile eq_refl eq_refl (Return [0x5a])
             (connected_bus [[0; 4; 0]] [0x5b; 1] [] 0)).
    vm_compute. reflexivity.
  - apply (Hcached eq_refl 7 eq_refl).
  - apply (Hempty eq_refl eq_refl eq_refl (Return [0x73])
             (connected_bus [[0; 1; 0]] [] [] 0)).
    vm_compute. reflexivity.
Defined.

(** ** The cache invariant *)








(** ** Signal matrices *)

Lemma list_index_in (x : string) (l : list string) :
  str_in x l = true ->
  exists j, list_index x l = Return j
            /\ 0 <= j < Z.of_nat (length l)
            /\ nth_error l (Z.to_nat j) = Some x.
Proof.
  unfold str_in. induction l as [| y l IH]; [discriminate |].
  cbn [existsb list_index]. rewrite (String.eqb_sym x y).
  destruct (String.eqb_spec y x) as [-> | Hne].
  - intros _. exists 0. cbn [length]. repeat split; lia.
  - cbn [orb]. intros Hin. destruct (IH Hin) as (j & Hj & Hrange & Hnth).
    exists (j + 1). rewrite Hj. cbn [obind length]. repeat split; try lia.
    replace (Z.to_nat (j + 1)) with (S (Z.to_nat j)) by lia.
    exact Hnth.
Qed.

Lemma list_index_not_in (x : string) (l : list string) :
  str_in x l = false ->
  list_index x l = Raise (ValueError ("'" ++ x ++ "' is not in list")%string).
Proof.
  unfold str_in. induction l as [| y l IH]; [reflexivity |].
  cbn [existsb list_index]. rewrite (String.eqb_sym x y).
  destruct (String.eqb y x); [discriminate |].
  cbn [orb]. intros Hin. rewrite (IH Hin). reflexivity.
Qed.

(** A one-byte write outside lazy sections, acknowledged by the board: one
    datagram of four bytes, command 1. *)
Lemma ScaffoldBus_write_int (addr i : Z) (t : list (list Z)) (r q : list Z) :
  in_range 0 65536 addr = true ->
  in_range 0 256 i = true ->
  ScaffoldBus_write addr (DataInt i) PollNone 255 0
                    (connected_bus t (1 :: r) q 0)
  = (Return tt,
     connected_bus (t ++ [[1; addr / 256; addr mod 256; i]]) r q 0).
Proof.
  intros Haddr Hi. unfold ScaffoldBus_write.
  rewrite (bind_Return _ _ _ _ _ (get_state_run _)).
  cbn [connected_bus ser data_bytes]. rewrite Hi.
  rewrite (bind_Return _ _ _ _ _ (lift_pure_run _ _)).
  exact (write_loop_acked addr [i] PollNone 255 0 Haddr eq_refl
           1 0 t r q (Z.le_refl 0) (le_n 1)).
Qed.

(** C7 fails as stated: a destination found in neither output table is
    refused with a [RuntimeError], not with the [ValueError] the code uses
    for invalid arguments (and for an unknown source). *)
Lemma C7_unknown_destination_counterexample :
  str_in "/io/e0" mtxr_out_init = false
  /\ str_in "/io/e0" mtxl_out_init = false
  /\ sig_connect (SigSignal true "/io/e0") (SigInt 0) (connected_board [1] None [])
     = (Raise (RuntimeError "Invalid destination path '/io/e0'"),
        connected_board [1] None [])
  /\ is_ValueError (RuntimeError "Invalid destination path '/io/e0'") = false.
Proof.
  repeat split; vm_compute; reflexivity.
Qed.

Section SigConnect.

Variables (a b : signal_arg) (s : Scaffold) (dest src : string).
Hypothesis dest_path : signal_to_path a = Return dest.
Hypothesis src_path : signal_to_path b = Return src.

Lemma sig_connect_run :
  sig_connect a b s
  = if str_in dest (mtxr_out s) then
      match list_index src (mtxr_in s), list_index dest (mtxr_out s) with
      | Return i, Return j =>
          with_bus (ScaffoldBus_write (ADDR_MTXR_BASE + j) (DataInt i)
                                      PollNone 255 0) s
      | Return _, Raise e => (Raise e, s)
      | Return _, Blocked => (Blocked, s)
      | Return _, OutOfFuel => (OutOfFuel, s)
      | Raise e, _ => (Raise e, s)
      | Blocked, _ => (Blocked, s)
      | OutOfFuel, _ => (OutOfFuel, s)
      end
    else if str_in dest (mtxl_out s) then
      match list_index src (mtxl_in s), list_index dest (mtxl_out s) with
      | Return i, Return j =>
          with_bus (ScaffoldBus_write (ADDR_MTXL_BASE + j) (DataInt i)
                                      PollNone 255 0) s
      | Return _, Raise e => (Raise e, s)
      | Return _, Blocked => (Blocked, s)
      | Return _, OutOfFuel => (OutOfFuel, s)
      | Raise e, _ => (Raise e, s)
      | Blocked, _ => (Blocked, s)
      | OutOfFuel, _ => (OutOfFuel, s)
      end
    else (Raise (RuntimeError ("Invalid destination path '" ++ dest ++ "'")), s).
Proof.
  unfold sig_connect. rewrite dest_path, src_path.
  rewrite !(bind_Return _ _ _ _ _ (lift_pure_run _ _)).
  rewrite (bind_Return _ _ _ _ _ (get_state_run _)).
  destruct (str_in dest (mtxr_out s)).
  - unfold bind at 1, lift_pure at 1.
    destruct (list_index src (mtxr_in s)); try reflexivity;
      unfold bind at 1, lift_pure at 1;
      destruct (list_index dest (mtxr_out s)); reflexivity.
  - destruct (str_in dest (mtxl_out s)); [| reflexivity].
    unfold bind at 1, lift_pure at 1.
    destruct (list_index src (mtxl_in s)); try reflexivity;
      unfold bind at 1, lift_pure at 1;
      destruct (list_index dest (mtxl_out s)); reflexivity.
Qed.

End SigConnect.

(** C7 (amended): for a destination and a source that [sig_connect] accepts
    as signals. The destination is looked up in the right-matrix output
    table first: when found there and the source is in the right-matrix
    input table, [sig_connect] is exactly one [bus.write] of the source's
    index, as one byte and with no poll, at [right_matrix_base] plus the
    destination's index (outside lazy sections and acknowledged by the board
    that is one four-byte write datagram and nothing else: no read);
    otherwise the same with the left-matrix tables and [left_matrix_base]. A
    source absent from the applicable input table fails with [ValueError]
    (InvalidArgument); a destination found in neither output table fails
    with [RuntimeError]; both leave the board, transport included,
    untouched. *)
Theorem C7_sig_connect_one_write (a b : signal_arg) (s : Scaffold)
    (dest src : string) :
  signal_to_path a = Return dest ->
  signal_to_path b = Return src ->
  (str_in dest (mtxr_out s) = true ->
   (str_in src (mtxr_in s) = true ->
    exists i j,
      nth_error (mtxr_in s) (Z.to_nat i) = Some src
      /\ nth_error (mtxr_out s) (Z.to_nat j) = Some dest
      /\ 0 <= i /\ 0 <= j
      /\ sig_connect a b s
         = with_bus (ScaffoldBus_write (ADDR_MTXR_BASE + j) (DataInt i)
                                       PollNone 255 0) s)
   /\ (str_in src (mtxr_in s) = false ->
       exists msg, sig_connect a b s = (Raise (ValueError msg), s)))
  /\ (str_in dest (mtxr_out s) = false ->
      str_in dest (mtxl_out s) = true ->
      (str_in src (mtxl_in s) = true ->
       exists i j,
         nth_error (mtxl_in s) (Z.to_nat i) = Some src
         /\ nth_error (mtxl_out s) (Z.to_nat j) = Some dest
         /\ 0 <= i /\ 0 <= j
         /\ sig_connect a b s
            = with_bus (ScaffoldBus_write (ADDR_MTXL_BASE + j) (DataInt i)
                                          PollNone 255 0) s)
      /\ (str_in src (mtxl_in s) = false ->
          exists msg, sig_connect a b s = (Raise (ValueError msg), s)))
  /\ (str_in dest (mtxr_out s) = false ->
      str_in dest (mtxl_out s) = false ->
      sig_connect a b s
      = (Raise (RuntimeError ("Invalid destination path '" ++ dest ++ "'")), s))
  /\ (forall (addr i : Z) (t : list (list Z)) (r q : list Z),
        in_range 0 65536 addr = true ->
        in_range 0 256 i = true ->
        ScaffoldBus_write addr (DataInt i) PollNone 255 0
                          (connected_bus t (1 :: r) q 0)
        = (Return tt,
           connected_bus (t ++ [[1; addr / 256; addr mod 256; i]]) r q 0)).
Proof.
  intros Hdest Hsrc. rewrite (sig_connect_run a b s dest src Hdest Hsrc).
  split; [| split; [| split]].
  - intros Hr. rewrite Hr. split.
    + intros Hin.
      destruct (list_index_in src _ Hin) as (i & Hi & Hirange & Hinth).
      destruct (list_index_in dest _ Hr) as (j & Hj & Hjrange & Hjnth).
      exists i, j. rewrite Hi, Hj. repeat split; try assumption; lia.
    + intros Hout. rewrite (list_index_not_in src _ Hout).
      eexists; reflexivity.
  - intros Hr Hl. rewrite Hr, Hl. split.
    + intros Hin.
      destruct (list_index_in src _ Hin) as (i & Hi & Hirange & Hinth).
      destruct (list_index_in dest _ Hl) as (j & Hj & Hjrange & Hjnth).
      exists i, j. rewrite Hi, Hj. repeat split; try assumption; lia.
    + intros Hout. rewrite (list_index_not_in src _ Hout).
      eexists; reflexivity.
  - intros Hr Hl. rewrite Hr, Hl. reflexivity.
  - intros addr i t r q. apply ScaffoldBus_write_int.
Qed.

Lemma C7_sig_connect_one_write_witness :
  (exists i j,
     nth_error (mtxr_in (connected_board [1] None [])) (Z.to_nat i)
     = Some "/uart1/tx"
     /\ nth_error (mtxr_out (connected_board [1] None [])) (Z.to_nat j)
        = Some "/io/d3"
     /\ 0 <= i /\ 0 <= j
     /\ sig_connect (SigSignal true "/io/d3") (SigSignal true "/uart1/tx")
                    (connected_board [1] None [])
        = with_bus (ScaffoldBus_write (ADDR_MTXR_BASE + j) (DataInt i)
                                      PollNone 255 0)
                   (connected_board [1] None []))
  /\ (exists msg,
        sig_connect (SigSignal true "/uart0/rx") (SigNone)
                    (connected_board [1] None [])
        = (Raise (ValueError msg), connected_board [1] None []))
  /\ sig_connect (SigSignal true "/uart0/rx") (SigSignal true "/io/a1")
                 (connected_board [1] None [])
     = (Return tt,
        mkScaffold (connected_bus [[1; 0xf0; 0; 3]] [] [] 0) None []
                   mtxl_in_init mtxl_out_init mtxr_in_init mtxr_out_init).
Proof.
  split; [| split].
  - destruct (C7_sig_connect_one_write
                (SigSignal true "/io/d3") (SigSignal true "/uart1/tx")
                (connected_board [1] None []) "/io/d3" "/uart1/tx"
                eq_refl eq_refl) as (Hright & _).
    apply Hright; reflexivity.
  - destruct (C7_sig_connect_one_write
                (SigSignal true "/uart0/rx") SigNone
                (connected_board [1] None []) "/uart0/rx" "z"
                eq_refl eq_refl) as (_ & Hleft & _).
    apply Hleft; reflexivity.
  - vm_compute. reflexivity.
Defined.

(** ** The timeout stack *)

Lemma pop_timeout_empty (s : Scaffold) :
  timeout_stack s = [] ->
  pop_timeout s = (Raise (RuntimeError "Timeout setting stack is empty"), s).
Proof.
  intros H. unfold pop_timeout.
  rewrite (bind_Return _ _ _ _ _ (get_state_run _)). rewrite H.
  reflexivity.
Qed.

(** [push_timeout] always leaves on the stack what the [timeout] getter
    handed back, even when setting the new value fails. *)
Lemma push_timeout_saves (value : pyvalue) (s : Scaffold) :
  timeout_stack (snd (push_timeout value s))
  = timeout_stack s ++ [timeout_get s].
Proof.
  unfold push_timeout.
  rewrite (bind_Return _ _ _ _ _ (get_state_run _)).
  unfold bind at 1, set_timeout_stack at 1.
  unfold timeout_set, bind, lift_pure, with_bus, set_cache_timeout.
  cbn [bus cache_timeout timeout_stack mtxl_in mtxl_out mtxr_in mtxr_out].
  destruct (div_by_unit value) as [q | e | |]; try reflexivity.
  destruct (int_of_float q) as [n | e | |]; try reflexivity.
  destruct (ScaffoldBus_set_timeout n (bus s)) as [[[] | e | |] b']; reflexivity.
Qed.

(** The round trip through seconds on which [pop_timeout] relies loses a
    unit at 511: [int((511 * UNIT) / UNIT)] is 510. *)
Lemma timeout_units_511_round_trip :
  obind (div_by_unit (PyFloat (float_mul (float_of_int 511) TIMEOUT_UNIT)))
        int_of_float
  = Return 510.
Proof. vm_compute. reflexivity. Qed.

(** C9 (the code departs from it): on a connected board whose timeout is 0,
    [push_timeout(1.534e-5)] sets 511 timeout units;
    [push_timeout(1.0); pop_timeout()] then returns, but leaves 510 units,
    not the 511 that were in force: the value saved on the stack is
    [511 * UNIT] seconds and [int] truncates [(511 * UNIT) / UNIT]. The stack
    itself is back to the single entry saved by the first push. On a board
    whose timeout was never set, the getter hands back a [RuntimeError]
    object, [push_timeout] saves it, and the matching [pop_timeout] fails
    with [TypeError]. *)
Theorem C9_pop_timeout_restores_510_for_511 :
  cache_timeout (snd (push_timeout (PyFloat float_1534e_8)
                        (connected_board [] (Some 0) [])))
  = Some 511
  /\ fst (push_push_pop (connected_board [] (Some 0) [])) = Return tt
  /\ cache_timeout (snd (push_push_pop (connected_board [] (Some 0) [])))
     = Some 510
  /\ timeout_stack (snd (push_push_pop (connected_board [] (Some 0) [])))
     = [PyFloat (S754_zero false)]
  /\ sent (bus (snd (push_push_pop (connected_board [] (Some 0) []))))
     = [[8; 0; 0; 1; 255]; [8; 1; 252; 160; 85]; [8; 0; 0; 1; 254]]
  /\ fst ((push_timeout (PyFloat float_half) ;;; pop_timeout)
            (connected_board [] None []))
     = Raise TypeError.
Proof.
  repeat split; vm_compute; reflexivity.
Qed.

(** * Further properties *)

(** ** Argument checks of the bus *)

Lemma spec_header_bytes (rw addr size : Z) (poll : poll_arg)
    (poll_mask poll_value : Z) :
  in_range 0 2 rw = true ->
  in_range 1 256 size = true ->
  in_range 0 65536 addr = true ->
  valid_poll poll poll_mask poll_value = true ->
  Forall (fun x => 0 <= x < 256)
         (spec_header rw addr size (poll_address poll) poll_mask poll_value)
  /\ len (spec_header rw addr size (poll_address poll) poll_mask poll_value)
     = 3 + (match poll_address poll with Some _ => 4 | None => 0 end)
         + (if 1 <? size then 1 else 0).
Proof.
  intros Hrw Hsize Haddr Hpoll.
  apply in_range_true in Hrw. apply in_range_true in Hsize.
  apply in_range_true in Haddr.
  pose proof (proj1 (in_range_true _ _ _) (byte_hi addr Haddr)) as Hhi.
  pose proof (proj1 (in_range_true _ _ _) (byte_lo addr)) as Hlo.
  unfold valid_poll in Hpoll. unfold spec_header, spec_command.
  destruct (poll_address poll) as [p |].
  - apply andb_true_iff in Hpoll as [Hpoll Hpv].
    apply andb_true_iff in Hpoll as [Hp Hpm].
    apply in_range_true in Hp. apply in_range_true in Hpm.
    apply in_range_true in Hpv.
    pose proof (proj1 (in_range_true _ _ _) (byte_hi p Hp)) as Hphi.
    pose proof (proj1 (in_range_true _ _ _) (byte_lo p)) as Hplo.
    destruct (1 <? size); (split; [| reflexivity]);
      repeat (constructor; [lia |]); constructor.
  - destruct (1 <? size); (split; [| reflexivity]);
      repeat (constructor; [lia |]); constructor.
Qed.

Lemma prepare_datagram_rejects (rw addr size : Z) (poll : poll_arg)
    (poll_mask poll_value : Z) :
  in_range 0 2 rw && in_range 1 256 size && in_range 0 65536 addr
  && valid_poll poll poll_mask poll_value = false ->
  exists msg,
    prepare_datagram rw addr size poll poll_mask poll_value
    = Raise (ValueError msg).
Proof.
  intros Hbad. unfold prepare_datagram, MAX_CHUNK. change (255 + 1) with 256.
  destruct (in_range 0 2 rw) eqn:Hrw; cbn [negb]; [| eexists; reflexivity].
  destruct (in_range 1 256 size) eqn:Hsize; cbn [negb]; [| eexists; reflexivity].
  destruct (in_range 0 65536 addr) eqn:Haddr; cbn [negb];
    [| eexists; reflexivity].
  cbn [andb] in Hbad. unfold valid_poll in Hbad.
  destruct (poll_address poll) as [p |]; [| discriminate].
  destruct (in_range 0 65536 p) eqn:Hp; cbn [negb]; [| eexists; reflexivity].
  apply in_range_true in Haddr. apply in_range_true in Hp.
  rewrite !shiftr8_div, !land255_mod.
  assert (Hrw' : rw = 0 \/ rw = 1) by (apply in_range_true in Hrw; lia).
  unfold bytearray_append.
  rewrite (byte_hi addr Haddr), (byte_lo addr), (byte_hi p Hp), (byte_lo p).
  cbn [andb] in Hbad.
  destruct (in_range 0 256 poll_mask) eqn:Hpm.
  - cbn [andb] in Hbad. rewrite Hbad.
    destruct (1 <? size); destruct Hrw' as [-> | ->]; cbn; rewrite ?Hpm;
      cbn; eexists; reflexivity.
  - destruct (1 <? size); destruct Hrw' as [-> | ->]; cbn; rewrite ?Hpm;
      cbn; eexists; reflexivity.
Qed.

Lemma in_range_false (lo hi x : Z) :
  in_range lo hi x = false <-> x < lo \/ hi <= x.
Proof.
  unfold in_range.
  destruct (Z.leb_spec lo x) as [Hlo | Hlo],
           (Z.ltb_spec x hi) as [Hhi | Hhi]; cbn [andb];
    split; intros Hx; try discriminate; try reflexivity; lia.
Qed.

(** X1: [prepare_datagram], byte by byte. With [rw] 0 or 1, a size from 1 to
    255 and a 16-bit address: without poll spec it returns the command byte
    ([rw], plus 2 when the size exceeds 1), the address big-endian and, when
    the size exceeds 1, the size; with a poll spec whose address fits 16 bits
    and whose mask and value are bytes, the command byte has 4 more and the
    poll address (big-endian; that of the register when a register is
    given), the mask and the value come between the address and the size,
    every byte being in 0..255; a poll address outside 16 bits, or a mask or
    value that is not a byte, is refused with [ValueError]. Whatever the poll
    spec, another [rw], a size outside 1..255 or an address outside 16 bits
    is refused with [ValueError]. *)
Theorem X1_prepare_datagram_validates (rw addr size p : Z)
    (poll_mask poll_value : Z) (reg : Register) (poll : poll_arg) :
  (rw = 0 \/ rw = 1 -> 1 <= size <= 255 -> 0 <= addr < 65536 ->
   prepare_datagram rw addr size PollNone poll_mask poll_value
   = Return ([rw + (if 1 <? size then 2 else 0); addr / 256; addr mod 256]
             ++ (if 1 <? size then [size] else []))
   /\ (0 <= p < 65536 -> 0 <= poll_mask < 256 -> 0 <= poll_value < 256 ->
       prepare_datagram rw addr size (PollAddr p) poll_mask poll_value
       = Return ([rw + (if 1 <? size then 2 else 0) + 4;
                  addr / 256; addr mod 256;
                  p / 256; p mod 256; poll_mask; poll_value]
                 ++ (if 1 <? size then [size] else []))
       /\ (reg_address reg = p ->
           prepare_datagram rw addr size (PollReg reg) poll_mask poll_value
           = Return ([rw + (if 1 <? size then 2 else 0) + 4;
                      addr / 256; addr mod 256;
                      p / 256; p mod 256; poll_mask; poll_value]
                     ++ (if 1 <? size then [size] else [])))
       /\ Forall (fun x => 0 <= x < 256)
                 ([rw + (if 1 <? size then 2 else 0) + 4;
                   addr / 256; addr mod 256;
                   p / 256; p mod 256; poll_mask; poll_value]
                  ++ (if 1 <? size then [size] else [])))
   /\ (p < 0 \/ 65536 <= p \/ poll_mask < 0 \/ 256 <= poll_mask
       \/ poll_value < 0 \/ 256 <= poll_value ->
       exists msg,
         prepare_datagram rw addr size (PollAddr p) poll_mask poll_value
         = Raise (ValueError msg)))
  /\ (rw < 0 \/ 1 < rw \/ size < 1 \/ 255 < size \/ addr < 0 \/ 65536 <= addr ->
      exists msg,
        prepare_datagram rw addr size poll poll_mask poll_value
        = Raise (ValueError msg)).
Proof.
  split.
  - intros Hrw Hsize Haddr.
    assert (Brw : in_range 0 2 rw = true) by (apply in_range_true; lia).
    assert (Bsize : in_range 1 256 size = true) by (apply in_range_true; lia).
    assert (Baddr : in_range 0 65536 addr = true) by (apply in_range_true; lia).
    split; [| split].
    + rewrite (prepare_datagram_ok rw addr size PollNone poll_mask poll_value
                 Brw Bsize Baddr eq_refl).
      unfold spec_header, spec_command. cbn [poll_address app].
      rewrite Z.add_0_r. reflexivity.
    + intros Hp Hpm Hpv.
      assert (Bpoll : valid_poll (PollAddr p) poll_mask poll_value = true).
      { unfold valid_poll. cbn [poll_address].
        rewrite !andb_true_iff. repeat split; apply in_range_true; lia. }
      split; [| split].
      * rewrite (prepare_datagram_ok rw addr size (PollAddr p) poll_mask
                   poll_value Brw Bsize Baddr Bpoll).
        reflexivity.
      * intros Hreg.
        assert (Breg : valid_poll (PollReg reg) poll_mask poll_value = true).
        { unfold valid_poll. cbn [poll_address]. rewrite Hreg.
          rewrite !andb_true_iff. repeat split; apply in_range_true; lia. }
        rewrite (prepare_datagram_ok rw addr size (PollReg reg) poll_mask
                   poll_value Brw Bsize Baddr Breg).
        cbn [poll_address]. rewrite Hreg. reflexivity.
      * exact (proj1 (spec_header_bytes rw addr size (PollAddr p) poll_mask
                        poll_value Brw Bsize Baddr Bpoll)).
    + intros Hbad. apply prepare_datagram_rejects.
      rewrite Brw, Bsize, Baddr. cbn [andb].
      unfold valid_poll. cbn [poll_address].
      rewrite !andb_false_iff, !in_range_false. lia.
  - intros Hbad. apply prepare_datagram_rejects.
    rewrite !andb_false_iff, !in_range_false. lia.
Qed.

Lemma X1_prepare_datagram_validates_witness :
  prepare_datagram 1 0x0404 200 (PollAddr 0x0400) 1 1
  = Return [7; 4; 4; 4; 0; 1; 1; 200]
  /\ prepare_datagram 0 0x0404 1 PollNone 255 0 = Return [0; 4; 4]
  /\ (exists msg,
        prepare_datagram 1 0x0404 200 (PollAddr 0x10000) 1 1
        = Raise (ValueError msg))
  /\ (exists msg,
        prepare_datagram 1 0x0404 256 PollNone 255 0 = Raise (ValueError msg)).
Proof.
  destruct (X1_prepare_datagram_validates 1 0x0404 200 0x0400 1 1
              (mkRegister 0x0400 false true true 1 0 255 None) PollNone)
    as (Hok & _).
  destruct (Hok (or_intror eq_refl) ltac:(lia) ltac:(lia))
    as (_ & Hpoll & _).
  destruct (Hpoll ltac:(lia) ltac:(lia) ltac:(lia)) as (Hbytes & _).
  destruct (X1_prepare_datagram_validates 0 0x0404 1 0 255 0
              (mkRegister 0x0400 false true true 1 0 255 None) PollNone)
    as (Hread & _).
  destruct (Hread (or_introl eq_refl) ltac:(lia) ltac:(lia))
    as (Hnone & _).
  destruct (X1_prepare_datagram_validates 1 0x0404 200 0x10000 1 1
              (mkRegister 0x0400 false true true 1 0 255 None) PollNone)
    as (Hbad & _).
  destruct (Hbad (or_intror eq_refl) ltac:(lia) ltac:(lia))
    as (_ & _ & Hrefused).
  destruct (X1_prepare_datagram_validates 1 0x0404 256 0 255 0
              (mkRegister 0x0400 false true true 1 0 255 None) PollNone)
    as (_ & Hsize).
  split; [exact Hbytes |]. split; [exact Hnone |].
  split; [apply Hrefused; lia | apply Hsize; lia].
Defined.

(** ** Reads that the board answers in full *)

Section ReadAll.

Variables (addr : Z) (poll : poll_arg) (poll_mask poll_value : Z).
Hypothesis addr_ok : in_range 0 65536 addr = true.
Hypothesis poll_ok : valid_poll poll poll_mask poll_value = true.

Lemma read_loop_done (fuel : nat) (result : list Z) (b : ScaffoldBus) :
  read_loop fuel addr poll poll_mask poll_value result 0 b = (Return result, b).
Proof. destruct fuel; reflexivity. Qed.

Lemma read_loop_all (fuel : nat) :
  forall (data result : list Z) (t : list (list Z)) (r q : list Z) (d : Z),
    (length data <= fuel)%nat ->
    read_loop fuel addr poll poll_mask poll_value result (len data)
              (connected_bus t
                 (concat (map (fun c => c ++ [len c]) (chunks data)) ++ r) q d)
    = (Return (result ++ data),
       connected_bus
         (t ++ map (fun c => spec_read_datagram addr poll poll_mask poll_value
                               (len c))
                   (chunks data))
         r q d).
Proof.
  induction fuel as [| fuel IH]; intros data result t r q d Hfuel.
  - assert (E : data = []) by (apply length_zero_iff_nil; lia). subst data.
    cbn [chunks chunks_fuel length map concat app]. rewrite !app_nil_r.
    reflexivity.
  - destruct (list_eq_dec Z.eq_dec data []) as [E | Hne].
    + subst data. change (len []) with 0. rewrite read_loop_done.
      cbn [chunks chunks_fuel length map concat app]. rewrite !app_nil_r.
      reflexivity.
    + rewrite (chunks_cons data Hne). cbn [map concat].
      rewrite <- !app_assoc. cbn [app].
      assert (Hpos : 0 < len data).
      { unfold len. destruct data; [contradiction | cbn [length]; lia]. }
      rewrite <- (min_chunk_len data) at 1.
      rewrite (read_loop_step_full addr poll poll_mask poll_value
                 addr_ok poll_ok fuel result (len data) (firstn 255 data)
                 t _ q d Hpos (eq_sym (min_chunk_len data))).
      rewrite (min_chunk_len data), len_skip_chunk.
      rewrite IH.
      * rewrite <- !app_assoc. cbn [app]. rewrite (firstn_skipn 255 data).
        reflexivity.
      * rewrite length_skipn. destruct data; [contradiction |].
        cbn [length] in *. lia.
Qed.

End ReadAll.

(** X2: outside lazy sections, with a 16-bit address and a valid poll spec,
    when the board answers every chunk in full (its payload followed by the
    chunk size), [read] returns exactly the requested bytes in order; it
    sends one read datagram per chunk of at most 255 bytes, each announcing
    its chunk's size, and consumes nothing beyond the answers. A read of
    size 0 returns the empty buffer and touches nothing. *)
Theorem X2_read_returns_requested_bytes (addr : Z) (poll : poll_arg)
    (poll_mask poll_value : Z) (data : list Z)
    (t : list (list Z)) (r q : list Z) :
  in_range 0 65536 addr = true ->
  valid_poll poll poll_mask poll_value = true ->
  ScaffoldBus_read addr (len data) poll poll_mask poll_value
    (connected_bus t
       (concat (map (fun c => c ++ [len c]) (chunks data)) ++ r) q 0)
  = (Return data,
     connected_bus
       (t ++ map (fun c => spec_read_datagram addr poll poll_mask poll_value
                             (len c))
                 (chunks data))
       r q 0).
Proof.
  intros Haddr Hpoll. rewrite ScaffoldBus_read_connected.
  rewrite (read_loop_all addr poll poll_mask poll_value Haddr Hpoll).
  - reflexivity.
  - unfold len. lia.
Qed.

Lemma X2_read_returns_requested_bytes_witness :
  ScaffoldBus_read 0x0404 (len (repeat 9 300)) (PollAddr 0x0400) 4 0
    (connected_bus []
       (concat (map (fun c => c ++ [len c]) (chunks (repeat 9 300))) ++ [])
       [] 0)
  = (Return (repeat 9 300),
     connected_bus
       ([] ++ map (fun c => spec_read_datagram 0x0404 (PollAddr 0x0400) 4 0
                              (len c))
                  (chunks (repeat 9 300)))
       [] [] 0).
Proof.
  apply (X2_read_returns_requested_bytes 0x0404 (PollAddr 0x0400) 4 0
           (repeat 9 300) [] [] []); reflexivity.
Defined.

(** ** Argument errors come before any transfer *)

Lemma ScaffoldBus_read_negative (addr size : Z) (poll : poll_arg)
    (poll_mask poll_value : Z) (t : list (list Z)) (r q : list Z) :
  size < 0 ->
  ScaffoldBus_read addr size poll poll_mask poll_value (connected_bus t r q 0)
  = (Raise (ValueError "Invalid size"), connected_bus t r q 0).
Proof.
  intros Hneg. rewrite ScaffoldBus_read_connected.
  cbn [read_loop]. rewrite (proj2 (Z.eqb_neq size 0)) by lia.
  unfold prepare_datagram, MAX_CHUNK. change (255 + 1) with 256.
  cbn [in_range Z.leb Z.ltb Z.compare andb negb].
  replace (in_range 1 256 (Z.min 255 size)) with false.
  - reflexivity.
  - symmetry. unfold in_range. apply andb_false_iff. left.
    apply Z.leb_gt. lia.
Qed.

(** X3: on a connected bus outside lazy sections, [read] with a negative
    size fails with [ValueError] and [read] of a positive size with an
    address beyond 16 bits or an invalid poll spec fails with [ValueError];
    in both cases nothing is sent and nothing is consumed. A read of size 0
    checks nothing: it returns the empty buffer whatever the address. *)
Theorem X3_read_argument_errors (addr size : Z) (poll : poll_arg)
    (poll_mask poll_value : Z) (t : list (list Z)) (r q : list Z) :
  (size < 0 ->
   ScaffoldBus_read addr size poll poll_mask poll_value (connected_bus t r q 0)
   = (Raise (ValueError "Invalid size"), connected_bus t r q 0))
  /\ (0 < size ->
      in_range 0 65536 addr && valid_poll poll poll_mask poll_value = false ->
      exists msg,
        ScaffoldBus_read addr size poll poll_mask poll_value
                         (connected_bus t r q 0)
        = (Raise (ValueError msg), connected_bus t r q 0))
  /\ (size = 0 ->
      ScaffoldBus_read addr size poll poll_mask poll_value
                       (connected_bus t r q 0)
      = (Return [], connected_bus t r q 0)).
Proof.
  split; [apply ScaffoldBus_read_negative |]. split.
  - intros Hpos Hbad. rewrite ScaffoldBus_read_connected.
    cbn [read_loop]. rewrite (proj2 (Z.eqb_neq size 0)) by lia.
    destruct (prepare_datagram_rejects 0 addr (Z.min MAX_CHUNK size)
                poll poll_mask poll_value) as [msg Hmsg].
    + rewrite (read_chunk_size_ok size Hpos). exact Hbad.
    + rewrite Hmsg. exists msg. reflexivity.
  - intros ->. reflexivity.
Qed.

Lemma X3_read_argument_errors_witness :
  ScaffoldBus_read 0x0404 (-1) PollNone 255 0 (connected_bus [] [7; 1] [] 0)
  = (Raise (ValueError "Invalid size"), connected_bus [] [7; 1] [] 0)
  /\ (exists msg,
        ScaffoldBus_read 0x10000 1 PollNone 255 0 (connected_bus [] [7; 1] [] 0)
        = (Raise (ValueError msg), connected_bus [] [7; 1] [] 0))
  /\ ScaffoldBus_read 0x10000 0 PollNone 255 0 (connected_bus [] [7; 1] [] 0)
     = (Return [], connected_bus [] [7; 1] [] 0).
Proof.
  split; [| split].
  - apply (X3_read_argument_errors 0x0404 (-1) PollNone 255 0 [] [7; 1] []).
    reflexivity.
  - apply (X3_read_argument_errors 0x10000 1 PollNone 255 0 [] [7; 1] []);
      reflexivity.
  - apply (X3_read_argument_errors 0x10000 0 PollNone 255 0 [] [7; 1] []).
    reflexivity.
Defined.

(** X4: [write] on a bus that is not connected fails with the
    [RuntimeError] "Not connected to board". On a connected bus an empty
    payload returns at once, whatever the address and poll spec, which are
    not checked; an int payload that is not a byte, and a non-empty payload
    with an address beyond 16 bits or an invalid poll spec, fail with
    [ValueError]. In all these cases the bus is left as it was: nothing is
    sent, read or queued. *)
Theorem X4_write_argument_errors (addr : Z) (poll : poll_arg)
    (poll_mask poll_value : Z) :
  (forall (data : data_arg) (b : ScaffoldBus),
      ser b = None ->
      ScaffoldBus_write addr data poll poll_mask poll_value b
      = (Raise (RuntimeError "Not connected to board"), b))
  /\ (forall (t : list (list Z)) (r q : list Z) (d : Z),
        ScaffoldBus_write addr (DataBytes []) poll poll_mask poll_value
                          (connected_bus t r q d)
        = (Return tt, connected_bus t r q d))
  /\ (forall (n : Z) (t : list (list Z)) (r q : list Z) (d : Z),
        in_range 0 256 n = false ->
        exists msg,
          ScaffoldBus_write addr (DataInt n) poll poll_mask poll_value
                            (connected_bus t r q d)
          = (Raise (ValueError msg), connected_bus t r q d))
  /\ (forall (l : list Z) (t : list (list Z)) (r q : list Z) (d : Z),
        l <> [] ->
        in_range 0 65536 addr && valid_poll poll poll_mask poll_value = false ->
        exists msg,
          ScaffoldBus_write addr (DataBytes l) poll poll_mask poll_value
                            (connected_bus t r q d)
          = (Raise (ValueError msg), connected_bus t r q d)).
Proof.
  split; [intros data b Hs; apply ScaffoldBus_write_not_connected; exact Hs |].
  split; [reflexivity |]. split.
  - intros n t r q d Hn. unfold ScaffoldBus_write.
    rewrite (bind_Return _ _ _ _ _ (get_state_run _)).
    cbn [connected_bus ser data_bytes]. rewrite Hn.
    eexists. reflexivity.
  - intros l t r q d Hne Hbad.
    rewrite (ScaffoldBus_write_bytes _ _ _ _ _ (connected_bus t r q d)
               (mkSerial t r) eq_refl).
    destruct l as [| x l]; [contradiction |].
    cbn [length write_loop].
    rewrite (len_nonzero (x :: l) Hne).
    destruct (prepare_datagram_rejects 1 addr (Z.min MAX_CHUNK (len (x :: l)))
                poll poll_mask poll_value) as [msg Hmsg].
    + rewrite min_chunk_len, (chunk_size_ok (x :: l) Hne). exact Hbad.
    + rewrite Hmsg. exists msg. reflexivity.
Qed.

Lemma X4_write_argument_errors_witness :
  ScaffoldBus_write 0x10000 (DataInt 5) PollNone 255 0 ScaffoldBus_init
  = (Raise (RuntimeError "Not connected to board"), ScaffoldBus_init)
  /\ (exists msg,
        ScaffoldBus_write 0x10000 (DataInt 256) PollNone 255 0
                          (connected_bus [] [1] [] 0)
        = (Raise (ValueError msg), connected_bus [] [1] [] 0))
  /\ (exists msg,
        ScaffoldBus_write 0x10000 (DataBytes [5]) PollNone 255 0
                          (connected_bus [] [1] [] 0)
        = (Raise (ValueError msg), connected_bus [] [1] [] 0)).
Proof.
  destruct (X4_write_argument_errors 0x10000 PollNone 255 0)
    as (Hnc & _ & Hint & Hargs).
  split; [| split].
  - apply Hnc. reflexivity.
  - apply Hint. reflexivity.
  - apply Hargs; [discriminate | reflexivity].
Defined.

(** ** Lazy sections, again *)

Lemma last_mismatch_app (q1 : list Z) :
  forall (a1 q2 a2 : list Z) (e : option exn),
    length a1 = length q1 ->
    last_mismatch (q1 ++ q2) (a1 ++ a2) e
    = last_mismatch q2 a2 (last_mismatch q1 a1 e).
Proof.
  induction q1 as [| x q1 IH]; intros a1 q2 a2 e Hlen.
  - destruct a1; [| discriminate]. destruct q2; destruct a2; reflexivity.
  - destruct a1 as [| a a1]; [discriminate |]. injection Hlen as Hlen.
    cbn [app last_mismatch]. apply IH. exact Hlen.
Qed.

Lemma last_mismatch_same (q : list Z) (e : option exn) :
  last_mismatch q q e = e.
Proof.
  revert e. induction q as [| x q IH]; intros e; [reflexivity |].
  cbn [last_mismatch]. rewrite Z.eqb_refl. cbn [negb]. apply IH.
Qed.

(** X5: closing the outermost lazy section with as many acknowledgments
    pending as sizes queued reads exactly that many bytes, empties the queue
    and brings the depth to 0. It returns when every acknowledgment equals
    its queued size; when some differ it raises the [TimeoutError] whose size
    is the LAST acknowledgment that differs, whatever came before it. *)
Theorem X5_lazy_end_reports_last_mismatch (t : list (list Z))
    (queue acks rest : list Z) :
  length acks = length queue ->
  lazy_end (connected_bus t (acks ++ rest) queue 1)
  = (match last_mismatch queue acks None with
     | Some e => Raise e
     | None => Return tt
     end, connected_bus t rest [] 0)
  /\ (acks = queue -> last_mismatch queue acks None = None)
  /\ (forall (q1 a1 same : list Z) (x a : Z),
        queue = q1 ++ x :: same -> acks = a1 ++ a :: same ->
        length a1 = length q1 -> a <> x ->
        last_mismatch queue acks None
        = Some (TimeoutError (mkTimeoutError None (Some a)))).
Proof.
  intros Hlen. split; [apply lazy_end_outermost; exact Hlen |]. split.
  - intros ->. apply last_mismatch_same.
  - intros q1 a1 same x a -> -> Hl Hne.
    rewrite (last_mismatch_app q1 a1 (x :: same) (a :: same) None Hl).
    cbn [last_mismatch]. rewrite (proj2 (Z.eqb_neq a x) Hne). cbn [negb].
    apply last_mismatch_same.
Qed.

Lemma X5_lazy_end_reports_last_mismatch_witness :
  lazy_end (connected_bus [] ([7; 10; 3; 4] ++ [99]) [10; 10; 5; 4] 1)
  = (match last_mismatch [10; 10; 5; 4] [7; 10; 3; 4] None with
     | Some e => Raise e
     | None => Return tt
     end, connected_bus [] [99] [] 0)
  /\ last_mismatch [10; 10; 5; 4] [7; 10; 3; 4] None
     = Some (TimeoutError (mkTimeoutError None (Some 3))).
Proof.
  destruct (X5_lazy_end_reports_last_mismatch
              [] [10; 10; 5; 4] [7; 10; 3; 4] [99] eq_refl)
    as (Hrun & _ & Hlast).
  split; [exact Hrun |].
  apply (Hlast [10; 10] [7; 10] [4] 5 3); [reflexivity | reflexivity
                                          | reflexivity | discriminate].
Defined.

(** X6: batching changes nothing when the board acknowledges everything.
    With a 16-bit address, a valid poll spec, depth 0 and an empty queue, a
    write wrapped in [lazy_start] ... [lazy_end] leaves the bus exactly as
    the same write made directly does: the same datagrams sent, the same
    acknowledgments consumed, and both return. *)
Theorem X6_lazy_write_equals_direct_write (addr : Z) (l : list Z)
    (poll : poll_arg) (poll_mask poll_value : Z)
    (t : list (list Z)) (r : list Z) :
  in_range 0 65536 addr = true ->
  valid_poll poll poll_mask poll_value = true ->
  (lazy_start ;;;
   ScaffoldBus_write addr (DataBytes l) poll poll_mask poll_value ;;;
   lazy_end) (connected_bus t (map len (chunks l) ++ r) [] 0)
  = ScaffoldBus_write addr (DataBytes l) poll poll_mask poll_value
      (connected_bus t (map len (chunks l) ++ r) [] 0)
  /\ ScaffoldBus_write addr (DataBytes l) poll poll_mask poll_value
       (connected_bus t (map len (chunks l) ++ r) [] 0)
     = (Return tt,
        connected_bus
          (t ++ map (spec_write_datagram addr poll poll_mask poll_value)
                    (chunks l))
          r [] 0).
Proof.
  intros Haddr Hpoll.
  assert (Hdirect :
    ScaffoldBus_write addr (DataBytes l) poll poll_mask poll_value
      (connected_bus t (map len (chunks l) ++ r) [] 0)
    = (Return tt,
       connected_bus
         (t ++ map (spec_write_datagram addr poll poll_mask poll_value)
                   (chunks l))
         r [] 0)).
  { rewrite (ScaffoldBus_write_bytes _ _ _ _ _
               (connected_bus t (map len (chunks l) ++ r) [] 0)
               (mkSerial t (map len (chunks l) ++ r)) eq_refl).
    apply (write_loop_acked addr l poll poll_mask poll_value Haddr Hpoll
             (length l) 0 t r []); [lia | cbn [Z.to_nat skipn]; lia]. }
  split; [| exact Hdirect]. rewrite Hdirect.
  assert (Hstart : lazy_start (connected_bus t (map len (chunks l) ++ r) [] 0)
                   = (Return tt,
                      connected_bus t (map len (chunks l) ++ r) [] 1))
    by reflexivity.
  rewrite (bind_Return _ _ _ _ _ Hstart).
  assert (Hlazy :
    ScaffoldBus_write addr (DataBytes l) poll poll_mask poll_value
      (connected_bus t (map len (chunks l) ++ r) [] 1)
    = (Return tt,
       connected_bus
         (t ++ map (spec_write_datagram addr poll poll_mask poll_value)
                   (chunks l))
         (map len (chunks l) ++ r) ([] ++ map len (chunks l)) 1)).
  { rewrite (ScaffoldBus_write_bytes _ _ _ _ _
               (connected_bus t (map len (chunks l) ++ r) [] 1)
               (mkSerial t (map len (chunks l) ++ r)) eq_refl).
    apply (write_loop_lazy addr l poll poll_mask poll_value Haddr Hpoll
             (length l) 0 t (map len (chunks l) ++ r) [] 1);
      [lia | discriminate | cbn [Z.to_nat skipn]; lia]. }
  rewrite (bind_Return _ _ _ _ _ Hlazy). cbn [app].
  change (connected_bus ?t' (?a ++ r) ?q' 1)
    with (mkBus (Some (mkSerial t' (a ++ r))) q' 1).
  rewrite lazy_end_outermost by reflexivity.
  rewrite last_mismatch_same. reflexivity.
Qed.

Lemma X6_lazy_write_equals_direct_write_witness :
  (lazy_start ;;;
   ScaffoldBus_write 0x0704 (DataBytes (repeat 5 260)) PollNone 255 0 ;;;
   lazy_end) (connected_bus [] (map len (chunks (repeat 5 260)) ++ []) [] 0)
  = ScaffoldBus_write 0x0704 (DataBytes (repeat 5 260)) PollNone 255 0
      (connected_bus [] (map len (chunks (repeat 5 260)) ++ []) [] 0).
Proof.
  apply (X6_lazy_write_equals_direct_write 0x0704 (repeat 5 260) PollNone 255 0
           [] []); reflexivity.
Defined.

Lemma read_ack_keeps_depth (b b' : ScaffoldBus) (o : outcome Z) :
  read_ack b = (o, b') ->
  lazy_stack b' = lazy_stack b /\ lazy_writes b' = lazy_writes b.
Proof.
  unfold read_ack, bind, ser_read, ret, raise.
  destruct (ser b) as [s |].
  - destruct (Z.of_nat (length (rx s)) <? 1).
    + intros H. injection H as <- <-. split; reflexivity.
    + destruct (firstn (Z.to_nat 1) (rx s)); intros H; injection H as <- <-;
        split; reflexivity.
  - intros H. injection H as <- <-. split; reflexivity.
Qed.

Lemma lazy_end_loop_keeps_depth (queue : list Z) :
  forall (err : option exn) (b b' : ScaffoldBus) (o : outcome (option exn)),
    lazy_end_loop queue err b = (o, b') ->
    lazy_stack b' = lazy_stack b.
Proof.
  induction queue as [| x queue IH]; intros err b b' o.
  - intros H. injection H as <- <-. reflexivity.
  - cbn [lazy_end_loop]. unfold bind at 1.
    destruct (read_ack b) as [oa ba] eqn:Ea.
    apply read_ack_keeps_depth in Ea as [Hd _].
    destruct oa as [ack | e | |].
    + intros H. rewrite (IH _ _ _ _ H). exact Hd.
    + intros H. injection H as <- <-. exact Hd.
    + intros H. injection H as <- <-. exact Hd.
    + intros H. injection H as <- <-. exact Hd.
Qed.

(** [lazy_end] above depth 0 always takes the depth down by one, however it
    ends. *)
Lemma lazy_end_depth (b : ScaffoldBus) :
  lazy_stack b <> 0 ->
  lazy_stack (snd (lazy_end b)) = lazy_stack b - 1.
Proof.
  intros Hd. unfold lazy_end.
  rewrite (bind_Return _ _ _ _ _ (get_state_run _)).
  rewrite (proj2 (Z.eqb_neq _ _) Hd).
  unfold bind at 1, put_state at 1.
  rewrite (bind_Return _ _ _ _ _ (get_state_run _)).
  cbn [lazy_stack lazy_writes].
  destruct (lazy_stack b - 1 =? 0).
  - unfold bind at 1.
    destruct (lazy_end_loop (lazy_writes b) None
                (mkBus (ser b) (lazy_writes b) (lazy_stack b - 1)))
      as [o b1] eqn:El.
    apply lazy_end_loop_keeps_depth in El. cbn [lazy_stack] in El.
    destruct o as [[e |] | e | |]; cbn [snd]; try exact El;
      unfold bind, lazy_writes_clear, raise, ret; cbn [snd lazy_stack];
      exact El.
  - unfold bind, ret, lazy_writes_clear. reflexivity.
Qed.

(** X7: a [with bus.lazy_section():] block always closes the section it
    opened. Whatever the body does, as long as it comes back (returning or
    raising) with the depth it was entered at, the depth after the block is
    the depth before it, also when the body raised and when the final flush
    fails or blocks. *)
Theorem X7_lazy_section_always_closed {A} (body : M ScaffoldBus A)
    (b : ScaffoldBus) :
  0 <= lazy_stack b ->
  lazy_stack (snd (body (snd (lazy_start b)))) = lazy_stack b + 1 ->
  fst (body (snd (lazy_start b))) <> Blocked ->
  fst (body (snd (lazy_start b))) <> OutOfFuel ->
  lazy_stack (snd (with_lazy_section body b)) = lazy_stack b.
Proof.
  intros Hd Hkeep Hnb Hnf. unfold with_lazy_section.
  rewrite (bind_Return lazy_start _ b (snd (lazy_start b)) tt eq_refl).
  destruct (body (snd (lazy_start b))) as [o b1] eqn:Eb.
  cbn [fst snd] in Hkeep, Hnb, Hnf.
  assert (Hend : lazy_stack (snd (lazy_end b1)) = lazy_stack b).
  { rewrite lazy_end_depth by lia. lia. }
  destruct o as [a | e | |]; try contradiction;
    destruct (lazy_end b1) as [[[] | e' | |] b2]; exact Hend.
Qed.

Lemma X7_lazy_section_always_closed_witness :
  lazy_stack
    (snd (with_lazy_section
            (ScaffoldBus_write 0x10000 (DataBytes [1]) PollNone 255 0)
            (connected_bus [] [] [] 0)))
  = lazy_stack (connected_bus [] [] [] 0).
Proof.
  apply (X7_lazy_section_always_closed
           (ScaffoldBus_write 0x10000 (DataBytes [1]) PollNone 255 0)
           (connected_bus [] [] [] 0)).
  - vm_compute. discriminate.
  - reflexivity.
  - vm_compute. discriminate.
  - vm_compute. discriminate.
Defined.

(** ** [ScaffoldBus.set_timeout] *)

(** X8: [set_timeout] accepts exactly the values of an unsigned 32-bit
    integer. For those, on a connected bus, it sends one datagram, the byte 8
    followed by the four big-endian bytes of the value, and reads no answer;
    for any other value it raises [ValueError] and sends nothing. *)
Theorem X8_set_timeout_datagram (value : Z) :
  (0 <= value <= 0xffffffff ->
   forall (t : list (list Z)) (r q : list Z) (d : Z),
     ScaffoldBus_set_timeout value (connected_bus t r q d)
     = (Return tt, connected_bus (t ++ [8 :: be_bytes 4 value]) r q d)
     /\ be_value (be_bytes 4 value) = value
     /\ Forall (fun x => 0 <= x < 256) (be_bytes 4 value))
  /\ (value < 0 \/ 0xffffffff < value ->
      forall b : ScaffoldBus,
        ScaffoldBus_set_timeout value b
        = (Raise (ValueError "Timeout value out of range"), b)).
Proof.
  split.
  - intros Hv t r q d. split; [| split].
    + unfold ScaffoldBus_set_timeout.
      destruct (Z.ltb_spec value 0); [lia |].
      destruct (Z.ltb_spec 4294967295 value); [lia |].
      cbn [orb]. change (bytearray_append [] 8) with (Return [8]).
      rewrite (bind_Return _ _ _ _ _ (lift_pure_run _ _)).
      rewrite (to_bytes_ok value 4) by (change (2 ^ (8 * 4)) with 4294967296; lia).
      rewrite (bind_Return _ _ _ _ _ (lift_pure_run _ _)).
      apply ser_write_connected.
    + apply (be_value_be_bytes 4).
      change (2 ^ (8 * Z.of_nat 4)) with 4294967296. lia.
    + apply be_bytes_bytes.
  - intros Hv b. unfold ScaffoldBus_set_timeout.
    destruct (Z.ltb_spec value 0); [reflexivity |].
    destruct (Z.ltb_spec 4294967295 value); [reflexivity | lia].
Qed.

Lemma X8_set_timeout_datagram_witness :
  ScaffoldBus_set_timeout 0x01020304 (connected_bus [] [] [] 0)
  = (Return tt, connected_bus ([] ++ [8 :: be_bytes 4 0x01020304]) [] [] 0)
  /\ ScaffoldBus_set_timeout 0x100000000 ScaffoldBus_init
     = (Raise (ValueError "Timeout value out of range"), ScaffoldBus_init).
Proof.
  destruct (X8_set_timeout_datagram 0x01020304) as [Hok _].
  destruct (X8_set_timeout_datagram 0x100000000) as [_ Hbad].
  split.
  - apply Hok. split; discriminate.
  - apply Hbad. right. reflexivity.
Defined.

(** ** Registers, again *)

Lemma Register_init_flags (mode : string) (address wideness : Z)
    (min_value max_value : option Z) (r : Register) :
  Register_init mode address wideness min_value max_value = Return r ->
  reg_w r = char_in "w" mode /\ reg_r r = char_in "r" mode
  /\ reg_volatile r = char_in "v" mode /\ reg_wideness r = wideness.
Proof.
  unfold Register_init.
  destruct (negb (in_range 0 65536 address)); [discriminate |].
  destruct (wideness <? 1); [discriminate |].
  destruct ((1 <? wideness) && char_in "r" mode); [discriminate |].
  destruct (match min_value with None => _ | Some _ => _ end) as [mn | | |];
    cbn [obind]; try discriminate.
  destruct (match max_value with None => _ | Some _ => _ end) as [mx | | |];
    cbn [obind]; try discriminate.
  destruct (mx <? mn); [discriminate |].
  intros E; injection E as <-. repeat split.
Qed.

(** X9: a register that [Register.__init__] accepts has a 16-bit address, a
    wideness of at least 1 (exactly 1 when readable), bounds with
    [0 <= min <= max < 2^(8*wideness)], the capabilities named by the letters
    of its mode string, and an empty cache; a readable register wider than
    one byte is refused with [ValueError]. *)
Theorem X9_register_init_invariants (mode : string) (address wideness : Z)
    (min_value max_value : option Z) :
  (forall r : Register,
      Register_init mode address wideness min_value max_value = Return r ->
      0 <= reg_address r < 65536 /\ reg_address r = address
      /\ 1 <= reg_wideness r /\ reg_wideness r = wideness
      /\ (reg_r r = true -> reg_wideness r = 1)
      /\ 0 <= reg_min_value r <= reg_max_value r
      /\ reg_max_value r < 2 ^ (8 * reg_wideness r)
      /\ reg_w r = char_in "w" mode /\ reg_r r = char_in "r" mode
      /\ reg_volatile r = char_in "v" mode
      /\ reg_cache r = None)
  /\ (char_in "r" mode = true -> 1 < wideness ->
      exists msg,
        Register_init mode address wideness min_value max_value
        = Raise (ValueError msg)).
Proof.
  split.
  - intros r Hinit.
    destruct (Register_init_ok _ _ _ _ _ _ Hinit) as (Hok & Hcache & Haddr).
    destruct (Register_init_flags _ _ _ _ _ _ Hinit) as (Hw & Hr & Hv & Hwd).
    unfold Register_ok in Hok.
    rewrite !andb_true_iff, orb_true_iff, negb_true_iff, !Z.leb_le,
      Z.ltb_lt, Z.eqb_eq in Hok.
    destruct Hok as (((((Ha & Hw1) & Hmin) & Hmm) & Hmax) & Hrd).
    apply in_range_true in Ha.
    repeat split; try assumption; try lia.
    intros Hreadable. destruct Hrd as [Hrd | Hrd]; [congruence | exact Hrd].
  - intros Hr Hw. unfold Register_init.
    destruct (negb (in_range 0 65536 address)); [eexists; reflexivity |].
    destruct (Z.ltb_spec wideness 1); [lia |].
    rewrite Hr. rewrite (proj2 (Z.ltb_lt 1 wideness) Hw). cbn [andb].
    eexists; reflexivity.
Qed.

Lemma X9_register_init_invariants_witness :
  (0 <= reg_address (mkRegister 0x0403 true false false 2 1 65535 None) < 65536
   /\ reg_address (mkRegister 0x0403 true false false 2 1 65535 None) = 0x0403
   /\ 1 <= reg_wideness (mkRegister 0x0403 true false false 2 1 65535 None)
   /\ reg_wideness (mkRegister 0x0403 true false false 2 1 65535 None) = 2
   /\ (reg_r (mkRegister 0x0403 true false false 2 1 65535 None) = true ->
       reg_wideness (mkRegister 0x0403 true false false 2 1 65535 None) = 1)
   /\ 0 <= reg_min_value (mkRegister 0x0403 true false false 2 1 65535 None)
        <= reg_max_value (mkRegister 0x0403 true false false 2 1 65535 None)
   /\ reg_max_value (mkRegister 0x0403 true false false 2 1 65535 None)
      < 2 ^ (8 * reg_wideness (mkRegister 0x0403 true false false 2 1 65535 None))
   /\ reg_w (mkRegister 0x0403 true false false 2 1 65535 None)
      = char_in "w" "w"
   /\ reg_r (mkRegister 0x0403 true false false 2 1 65535 None)
      = char_in "r" "w"
   /\ reg_volatile (mkRegister 0x0403 true false false 2 1 65535 None)
      = char_in "v" "w"
   /\ reg_cache (mkRegister 0x0403 true false false 2 1 65535 None) = None)
  /\ exists msg,
       Register_init "rw" 0x0403 2 None None = Raise (ValueError msg).
Proof.
  split.
  - apply (X9_register_init_invariants "w" 0x0403 2 (Some 1) None).
    reflexivity.
  - apply (X9_register_init_invariants "rw" 0x0403 2 None None); reflexivity.
Defined.

Lemma Register_set_returned (value : Z) (poll : poll_arg)
    (poll_mask poll_value : Z) (r r' : Register) (b b' : ScaffoldBus) :
  Register_set value poll poll_mask poll_value (r, b) = (Return tt, (r', b')) ->
  r' = set_cache r (Some value)
  /\ reg_min_value r <= value <= reg_max_value r /\ reg_w r = true.
Proof.
  rewrite Register_set_run.
  destruct (Z.ltb_spec value (reg_min_value r)) as [| Hlo]; [discriminate |].
  destruct (Z.ltb_spec (reg_max_value r) value) as [| Hhi]; [discriminate |].
  destruct (reg_w r); cbn [negb]; [| discriminate].
  destruct (to_bytes value (reg_wideness r)) as [bytes | e | |];
    try discriminate.
  destruct (ScaffoldBus_write (reg_address r) (DataBytes bytes)
              poll poll_mask poll_value b) as [[[] | e | |] b''];
    cbn [fst snd cache_if_returned]; try discriminate.
  intros Hrun. injection Hrun as <- <-. repeat split; lia.
Qed.

(** X10: on a register that is not volatile, a [set] that returned is
    followed by a [get] that returns the value set and leaves the register
    and the bus, transport included, untouched: no datagram, no byte read. *)
Theorem X10_set_then_get_hits_cache (value : Z) (poll : poll_arg)
    (poll_mask poll_value : Z) (r r' : Register) (b b' : ScaffoldBus) :
  reg_volatile r = false ->
  Register_set value poll poll_mask poll_value (r, b) = (Return tt, (r', b')) ->
  Register_get (r', b') = (Return value, (r', b')).
Proof.
  intros Hv Hset.
  destruct (Register_set_returned _ _ _ _ _ _ _ _ Hset) as (-> & _ & _).
  rewrite Register_get_run. cbn [set_cache reg_volatile reg_cache].
  rewrite Hv. reflexivity.
Qed.

Lemma X10_set_then_get_hits_cache_witness :
  Register_get (mkRegister 0x0402 true false false 1 0 255 (Some 9),
                connected_bus [[1; 4; 2; 9]] [] [] 0)
  = (Return 9,
     (mkRegister 0x0402 true false false 1 0 255 (Some 9),
      connected_bus [[1; 4; 2; 9]] [] [] 0)).
Proof.
  apply (X10_set_then_get_hits_cache 9 PollNone 255 0
           (mkRegister 0x0402 true false false 1 0 255 None)
           (mkRegister 0x0402 true false false 1 0 255 (Some 9))
           (connected_bus [] [1] [] 0)
           (connected_bus [[1; 4; 2; 9]] [] [] 0)).
  - reflexivity.
  - vm_compute. reflexivity.
Defined.

(** X11: the cache of a Volatile register never influences [get]: whatever
    it holds, [get] ends as it does with an empty cache, does the same to the
    bus, and leaves the cached value as it was. In particular a [set] on a
    readable Volatile register is not what the next [get] returns. *)
Theorem X11_volatile_get_ignores_cache (r : Register) (c : option Z)
    (b : ScaffoldBus) :
  reg_volatile r = true ->
  Register_get (set_cache r c, b)
  = (fst (Register_get (r, b)),
     (set_cache r c, snd (snd (Register_get (r, b))))).
Proof.
  intros Hv. rewrite !Register_get_run.
  cbn [set_cache reg_volatile reg_r reg_address]. rewrite Hv.
  destruct (negb (reg_r r)); reflexivity.
Qed.

Lemma X11_volatile_get_ignores_cache_witness :
  Register_get (set_cache (mkRegister 0x0404 true true true 1 0 255 None)
                          (Some 9),
                connected_bus [] [0x41; 1] [] 0)
  = (fst (Register_get (mkRegister 0x0404 true true true 1 0 255 None,
                        connected_bus [] [0x41; 1] [] 0)),
     (set_cache (mkRegister 0x0404 true true true 1 0 255 None) (Some 9),
      snd (snd (Register_get (mkRegister 0x0404 true true true 1 0 255 None,
                              connected_bus [] [0x41; 1] [] 0))))).
Proof.
  apply (X11_volatile_get_ignores_cache
           (mkRegister 0x0404 true true true 1 0 255 None) (Some 9)
           (connected_bus [] [0x41; 1] [] 0)).
  reflexivity.
Defined.

(** ** Bit helpers *)

Lemma merge_mask_bits (cur value mask i : Z) :
  0 <= i ->
  Z.testbit (Z.lor (Z.land cur (Z.lnot mask)) (Z.land value mask)) i
  = if Z.testbit mask i then Z.testbit value i else Z.testbit cur i.
Proof.
  intros Hi. rewrite Z.lor_spec, !Z.land_spec, Z.lnot_spec by exact Hi.
  destruct (Z.testbit mask i), (Z.testbit value i), (Z.testbit cur i);
    reflexivity.
Qed.

Lemma shifted_bit (v : bool) (i j : Z) :
  0 <= i -> 0 <= j ->
  Z.testbit (Z.shiftl (if v then 1 else 0) i) j = v && (j =? i).
Proof.
  intros Hi Hj. destruct v.
  - rewrite Z.shiftl_1_l, Z.pow2_bits_eqb by exact Hi.
    rewrite Z.eqb_sym. reflexivity.
  - rewrite Z.shiftl_0_l, Z.bits_0. reflexivity.
Qed.

Lemma set_bit_bits (cur : Z) (v : bool) (i j : Z) :
  0 <= i -> 0 <= j ->
  Z.testbit (Z.lor (Z.land cur (Z.lnot (Z.shiftl 1 i)))
                   (Z.shiftl (if v then 1 else 0) i)) j
  = if j =? i then v else Z.testbit cur j.
Proof.
  intros Hi Hj. rewrite Z.lor_spec, Z.land_spec, Z.lnot_spec by exact Hj.
  rewrite (shifted_bit true i j Hi Hj), (shifted_bit v i j Hi Hj).
  destruct (j =? i), v, (Z.testbit cur j); reflexivity.
Qed.

Lemma shifted_low_bit (x j : Z) :
  0 <= j -> Z.land (Z.shiftr x j) 1 = Z.b2z (Z.testbit x j).
Proof.
  intros Hj. change 1 with (Z.ones 1). rewrite Z.land_ones by lia.
  change (2 ^ 1) with 2. rewrite <- Z.bit0_mod.
  rewrite Z.shiftr_spec by lia. reflexivity.
Qed.

Lemma Register_get_cached (r : Register) (c : Z) (b : ScaffoldBus) :
  reg_volatile r = false -> reg_cache r = Some c ->
  Register_get (r, b) = (Return c, (r, b)).
Proof.
  intros Hv Hc. rewrite Register_get_run, Hv, Hc. reflexivity.
Qed.

(** X12: on a register that is not volatile and has the value [cur] cached,
    [set_mask(value, mask)] is one [set] of the value whose bits are those of
    [value] where [mask] has a 1 and those of [cur] elsewhere; the current
    value comes from the cache, with no read on the bus. *)
Theorem X12_set_mask_merges_bits (value mask : Z) (poll : poll_arg)
    (poll_mask poll_value : Z) (r : Register) (cur : Z) (b : ScaffoldBus) :
  reg_volatile r = false ->
  reg_cache r = Some cur ->
  Register_set_mask value mask poll poll_mask poll_value (r, b)
  = Register_set (Z.lor (Z.land cur (Z.lnot mask)) (Z.land value mask))
                 poll poll_mask poll_value (r, b)
  /\ forall i, 0 <= i ->
       Z.testbit (Z.lor (Z.land cur (Z.lnot mask)) (Z.land value mask)) i
       = if Z.testbit mask i then Z.testbit value i else Z.testbit cur i.
Proof.
  intros Hv Hc. split; [| intros i; apply merge_mask_bits].
  unfold Register_set_mask.
  rewrite (bind_Return _ _ _ _ _ (Register_get_cached r cur b Hv Hc)).
  reflexivity.
Qed.

Lemma X12_set_mask_merges_bits_witness :
  Register_set_mask 0x04 0x06 PollNone 255 0
    (mkRegister 0x0702 true false false 1 0 255 (Some 0x03),
     connected_bus [] [1] [] 0)
  = Register_set (Z.lor (Z.land 0x03 (Z.lnot 0x06)) (Z.land 0x04 0x06))
      PollNone 255 0
      (mkRegister 0x0702 true false false 1 0 255 (Some 0x03),
       connected_bus [] [1] [] 0).
Proof.
  apply (X12_set_mask_merges_bits 0x04 0x06 PollNone 255 0
           (mkRegister 0x0702 true false false 1 0 255 (Some 0x03)) 0x03
           (connected_bus [] [1] [] 0)); reflexivity.
Defined.

(** X13: on a register that is not volatile and has a value cached, after a
    [set_bit(index, value)] that returned, [get_bit(index)] returns that bit
    (1 for a true value, 0 otherwise) and [get_bit] of any other index
    returns the bit the register had before; neither touches the bus. *)
Theorem X13_set_bit_then_get_bit (index : Z) (value : bool) (poll : poll_arg)
    (poll_mask poll_value : Z) (r : Register) (cur : Z) (b : ScaffoldBus)
    (st' : RegState) :
  reg_volatile r = false ->
  reg_cache r = Some cur ->
  0 <= index ->
  Register_set_bit index value poll poll_mask poll_value (r, b)
  = (Return tt, st') ->
  forall j, 0 <= j ->
    Register_get_bit j st'
    = (Return (Z.b2z (if j =? index then value else Z.testbit cur j)), st').
Proof.
  intros Hv Hc Hi Hrun j Hj. destruct st' as [r' b'].
  unfold Register_set_bit in Hrun.
  rewrite (bind_Return _ _ _ _ _ (Register_get_cached r cur b Hv Hc)) in Hrun.
  unfold py_shl in Hrun. rewrite (proj2 (Z.ltb_ge index 0) Hi) in Hrun.
  unfold bind at 1, ret at 1 in Hrun. unfold bind at 1, ret at 1 in Hrun.
  destruct (Register_set_returned _ _ _ _ _ _ _ _ Hrun) as (-> & _ & _).
  unfold Register_get_bit.
  rewrite (bind_Return _ _ _ _ _
             (Register_get_cached (set_cache r (Some _)) _ b' Hv eq_refl)).
  unfold py_shr. rewrite (proj2 (Z.ltb_ge j 0) Hj).
  unfold bind, ret.
  rewrite (shifted_low_bit _ j Hj), (set_bit_bits cur value index j Hi Hj).
  reflexivity.
Qed.

Lemma X13_set_bit_then_get_bit_witness :
  Register_get_bit 3
    (mkRegister 0x0402 true false false 1 0 255 (Some 0x09),
     connected_bus [[1; 4; 2; 9]] [] [] 0)
  = (Return (Z.b2z (if 3 =? 3 then true else Z.testbit 0x01 3)),
     (mkRegister 0x0402 true false false 1 0 255 (Some 0x09),
      connected_bus [[1; 4; 2; 9]] [] [] 0)).
Proof.
  apply (X13_set_bit_then_get_bit 3 true PollNone 255 0
           (mkRegister 0x0402 true false false 1 0 255 (Some 0x01)) 0x01
           (connected_bus [] [1] [] 0)).
  - reflexivity.
  - reflexivity.
  - discriminate.
  - vm_compute. reflexivity.
  - discriminate.
Defined.

(** X14: the read-modify-write helpers need a value to start from. On a
    register that is neither Readable nor Volatile and whose cache is empty
    (a write-only register never set), [or_set], [set_bit], [set_mask] and
    [get_bit] all fail with the [RuntimeError] "Register cannot be read" and
    leave the register and the bus untouched. *)
Theorem X14_helpers_need_a_cached_value (r : Register) (b : ScaffoldBus) :
  reg_volatile r = false -> reg_r r = false -> reg_cache r = None ->
  (forall v, Register_or_set v (r, b)
             = (Raise (RuntimeError "Register cannot be read"), (r, b)))
  /\ (forall i v p pm pv,
        Register_set_bit i v p pm pv (r, b)
        = (Raise (RuntimeError "Register cannot be read"), (r, b)))
  /\ (forall v m p pm pv,
        Register_set_mask v m p pm pv (r, b)
        = (Raise (RuntimeError "Register cannot be read"), (r, b)))
  /\ (forall i, Register_get_bit i (r, b)
                = (Raise (RuntimeError "Register cannot be read"), (r, b))).
Proof.
  intros Hv Hr Hc.
  assert (Hget : Register_get (r, b)
                 = (Raise (RuntimeError "Register cannot be read"), (r, b))).
  { rewrite Register_get_run, Hv, Hc, Hr. reflexivity. }
  repeat split; intros;
    [unfold Register_or_set | unfold Register_set_bit
     | unfold Register_set_mask | unfold Register_get_bit];
    apply bind_Raise; exact Hget.
Qed.

Lemma X14_helpers_need_a_cached_value_witness :
  Register_set_bit 0 true PollNone 255 0
    (mkRegister 0x0401 true false false 1 0 255 None, connected_bus [] [] [] 0)
  = (Raise (RuntimeError "Register cannot be read"),
     (mkRegister 0x0401 true false false 1 0 255 None,
      connected_bus [] [] [] 0)).
Proof.
  destruct (X14_helpers_need_a_cached_value
              (mkRegister 0x0401 true false false 1 0 255 None)
              (connected_bus [] [] [] 0) eq_refl eq_refl eq_refl)
    as (_ & Hbit & _).
  apply Hbit.
Defined.

(** X15: the raw [write] of a register does not update its cache. On a
    register that is not volatile with the value [c] cached, whatever bytes a
    raw [write] sends and however it ends, the next [get] still returns [c],
    without any read on the bus. *)
Theorem X15_raw_write_leaves_cache_stale (data : data_arg) (poll : poll_arg)
    (poll_mask poll_value : Z) (r : Register) (c : Z) (b : ScaffoldBus) :
  reg_volatile r = false ->
  reg_cache r = Some c ->
  fst (snd (Register_write data poll poll_mask poll_value (r, b))) = r
  /\ Register_get (snd (Register_write data poll poll_mask poll_value (r, b)))
     = (Return c, snd (Register_write data poll poll_mask poll_value (r, b))).
Proof.
  intros Hv Hc.
  assert (Hreg : fst (snd (Register_write data poll poll_mask poll_value (r, b)))
                 = r).
  { unfold Register_write.
    rewrite (bind_Return _ _ _ _ _ (get_state_run _)). cbn [fst].
    destruct (negb (reg_w r)); [reflexivity |].
    unfold on_bus. cbn [fst snd].
    destruct (ScaffoldBus_write (reg_address r) data poll poll_mask poll_value b);
      reflexivity. }
  split; [exact Hreg |].
  destruct (snd (Register_write data poll poll_mask poll_value (r, b)))
    as [r' b'] eqn:E.
  cbn [fst] in Hreg. subst r'. apply Register_get_cached; assumption.
Qed.

Lemma X15_raw_write_leaves_cache_stale_witness :
  fst (snd (Register_write (DataInt 7) PollNone 255 0
              (mkRegister 0x0402 true false false 1 0 255 (Some 5),
               connected_bus [] [1] [] 0)))
  = mkRegister 0x0402 true false false 1 0 255 (Some 5)
  /\ Register_get
       (snd (Register_write (DataInt 7) PollNone 255 0
               (mkRegister 0x0402 true false false 1 0 255 (Some 5),
                connected_bus [] [1] [] 0)))
     = (Return 5,
        snd (Register_write (DataInt 7) PollNone 255 0
               (mkRegister 0x0402 true false false 1 0 255 (Some 5),
                connected_bus [] [1] [] 0))).
Proof.
  apply (X15_raw_write_leaves_cache_stale (DataInt 7) PollNone 255 0
           (mkRegister 0x0402 true false false 1 0 255 (Some 5)) 5
           (connected_bus [] [1] [] 0)); reflexivity.
Defined.

(** ** Single-chunk transfers *)

Lemma chunks_small (l : list Z) :
  l <> [] -> (length l <= 255)%nat -> chunks l = [l].
Proof.
  intros Hne Hlen. rewrite (chunks_cons l Hne).
  rewrite firstn_all2 by exact Hlen.
  rewrite skipn_all2 by exact Hlen. reflexivity.
Qed.

(** When its checks pass, [set] ends as its [bus.write] ends. *)
Lemma Register_set_as_write (r : Register) (value : Z)
    (poll : poll_arg) (poll_mask poll_value : Z) (b : ScaffoldBus) :
  Register_ok r = true ->
  reg_min_value r <= value <= reg_max_value r ->
  reg_w r = true ->
  forall (o : outcome unit) (b' : ScaffoldBus),
    ScaffoldBus_write (reg_address r)
      (DataBytes (be_bytes (Z.to_nat (reg_wideness r)) value))
      poll poll_mask poll_value b = (o, b') ->
    Register_set value poll poll_mask poll_value (r, b)
    = (o, (cache_if_returned o r value, b')).
Proof.
  intros Hok [Hlo Hhi] Hcap o b' Hrun. unfold Register_ok in Hok.
  rewrite !andb_true_iff, !Z.leb_le, Z.ltb_lt in Hok.
  destruct Hok as (((((Haddr & Hw) & Hmin) & Hmm) & Hmax) & _).
  rewrite Register_set_run.
  destruct (Z.ltb_spec value (reg_min_value r)); [lia |].
  destruct (Z.ltb_spec (reg_max_value r) value); [lia |].
  rewrite Hcap. cbn [negb].
  rewrite (to_bytes_ok value (reg_wideness r)) by lia.
  rewrite Hrun. reflexivity.
Qed.

(** A [set] outside lazy sections, without poll, which the board
    acknowledges in full: one write datagram, the value cached. *)
Lemma Register_set_acked (r : Register) (value : Z)
    (t : list (list Z)) (rest q : list Z) :
  Register_ok r = true ->
  reg_w r = true ->
  reg_wideness r <= 255 ->
  reg_min_value r <= value <= reg_max_value r ->
  Register_set value PollNone 255 0
               (r, connected_bus t (reg_wideness r :: rest) q 0)
  = (Return tt,
     (set_cache r (Some value),
      connected_bus
        (t ++ [spec_write_datagram (reg_address r) PollNone 255 0
                 (be_bytes (Z.to_nat (reg_wideness r)) value)])
        rest q 0)).
Proof.
  intros Hok Hw Hwide Hval.
  pose proof Hok as Hok'. unfold Register_ok in Hok'.
  rewrite !andb_true_iff, !Z.leb_le, Z.ltb_lt in Hok'.
  destruct Hok' as (((((Haddr & Hw1) & Hmin) & Hmm) & Hmax) & _).
  pose proof (Register_set_as_write r value PollNone 255 0
                (connected_bus t (reg_wideness r :: rest) q 0) Hok Hval Hw)
    as Hrun.
  set (bytes := be_bytes (Z.to_nat (reg_wideness r)) value) in *.
  assert (Hlen : length bytes = Z.to_nat (reg_wideness r))
    by apply be_bytes_length.
  assert (Hne : bytes <> []).
  { intros E. rewrite E in Hlen. cbn in Hlen. lia. }
  assert (Hwrite :
    ScaffoldBus_write (reg_address r) (DataBytes bytes) PollNone 255 0
      (connected_bus t (reg_wideness r :: rest) q 0)
    = (Return tt,
       connected_bus
         (t ++ [spec_write_datagram (reg_address r) PollNone 255 0 bytes])
         rest q 0)).
  { rewrite (ScaffoldBus_write_bytes _ _ _ _ _
               (connected_bus t (reg_wideness r :: rest) q 0)
               (mkSerial t (reg_wideness r :: rest)) eq_refl).
    pose proof (write_loop_acked (reg_address r) bytes PollNone 255 0
                  Haddr eq_refl (length bytes) 0 t rest q
                  (Z.le_refl 0)) as Hloop.
    cbn [Z.to_nat skipn] in Hloop.
    rewrite (chunks_small bytes Hne) in Hloop by lia.
    cbn [map app] in Hloop.
    replace (len bytes) with (reg_wideness r) in Hloop at 2
      by (unfold len; lia).
    apply Hloop. lia. }
  rewrite (Hrun _ _ Hwrite). reflexivity.
Qed.

(** ** The version string *)

Lemma buf_at_middle (before : list Z) (x : Z) (after : list Z) :
  buf_at (before ++ x :: after) (len before) = Return x.
Proof.
  unfold buf_at, len. rewrite Nat2Z.id.
  rewrite nth_error_app2 by lia. rewrite Nat.sub_diag. reflexivity.
Qed.

Lemma buf_at_end (buf : list Z) : buf_at buf (len buf) = Raise IndexError.
Proof.
  unfold buf_at, len. rewrite Nat2Z.id.
  rewrite (proj2 (nth_error_None buf (length buf))) by lia. reflexivity.
Qed.

Lemma len_snoc (l : list Z) (x : Z) : len (l ++ [x]) = len l + 1.
Proof. rewrite len_app. reflexivity. Qed.

Lemma skip_to_zero_finds (skipped : list Z) :
  forall (fuel : nat) (before after : list Z),
    Forall (fun x => x <> 0) skipped ->
    (length skipped < fuel)%nat ->
    skip_to_zero fuel (before ++ skipped ++ 0 :: after) (len before)
    = Return (len before + len skipped).
Proof.
  induction skipped as [| x skipped IH]; intros fuel before after Hnz Hfuel.
  - destruct fuel as [| fuel]; [lia |]. cbn [skip_to_zero app].
    rewrite buf_at_middle. cbn [obind]. change (len []) with 0.
    rewrite Z.add_0_r. reflexivity.
  - destruct fuel as [| fuel]; [cbn in Hfuel; lia |].
    inversion Hnz as [| x' l' Hx Hnz']; subst x' l'.
    cbn [skip_to_zero app]. rewrite buf_at_middle. cbn [obind].
    rewrite (proj2 (Z.eqb_neq x 0) Hx). cbn [negb].
    rewrite <- (len_snoc before x).
    change (before ++ x :: skipped ++ 0 :: after)
      with (before ++ [x] ++ skipped ++ 0 :: after).
    rewrite app_assoc. rewrite IH by (try assumption; cbn in Hfuel; lia).
    f_equal. rewrite len_snoc. unfold len. cbn [length]. lia.
Qed.

Lemma string_snoc_app (acc : string) (c : ascii) (s : string) :
  ((acc ++ String c EmptyString) ++ s)%string = (acc ++ String c s)%string.
Proof.
  induction acc as [| a acc IH]; [reflexivity |].
  cbn [String.append]. rewrite IH. reflexivity.
Qed.

Lemma string_app_empty (s : string) : (s ++ EmptyString)%string = s.
Proof.
  induction s as [| a s IH]; [reflexivity |].
  cbn [String.append]. rewrite IH. reflexivity.
Qed.

Lemma collect_to_zero_collects (body : list Z) :
  forall (fuel : nat) (before after : list Z) (acc : string),
    Forall (fun x => x <> 0) body ->
    (length body < fuel)%nat ->
    collect_to_zero fuel (before ++ body ++ 0 :: after) (len before) acc
    = Return (acc ++ bytes_to_string body)%string.
Proof.
  induction body as [| x body IH]; intros fuel before after acc Hnz Hfuel.
  - destruct fuel as [| fuel]; [lia |]. cbn [collect_to_zero app].
    rewrite buf_at_middle. cbn [obind bytes_to_string].
    rewrite string_app_empty. reflexivity.
  - destruct fuel as [| fuel]; [cbn in Hfuel; lia |].
    inversion Hnz as [| x' l' Hx Hnz']; subst x' l'.
    cbn [collect_to_zero app]. rewrite buf_at_middle. cbn [obind].
    rewrite (proj2 (Z.eqb_neq x 0) Hx). cbn [negb].
    rewrite <- (len_snoc before x).
    change (before ++ x :: body ++ 0 :: after)
      with (before ++ [x] ++ body ++ 0 :: after).
    rewrite app_assoc. rewrite IH by (try assumption; cbn in Hfuel; lia).
    cbn [bytes_to_string]. rewrite string_snoc_app. reflexivity.
Qed.

Lemma skip_to_zero_runs_out (rest : list Z) :
  forall (fuel : nat) (before : list Z),
    Forall (fun x => x <> 0) rest ->
    (length rest < fuel)%nat ->
    skip_to_zero fuel (before ++ rest) (len before) = Raise IndexError.
Proof.
  induction rest as [| x rest IH]; intros fuel before Hnz Hfuel.
  - destruct fuel as [| fuel]; [lia |]. cbn [skip_to_zero].
    rewrite app_nil_r, buf_at_end. reflexivity.
  - destruct fuel as [| fuel]; [cbn in Hfuel; lia |].
    inversion Hnz as [| x' l' Hx Hnz']; subst x' l'.
    cbn [skip_to_zero]. rewrite buf_at_middle. cbn [obind].
    rewrite (proj2 (Z.eqb_neq x 0) Hx). cbn [negb].
    rewrite <- (len_snoc before x).
    change (before ++ x :: rest) with (before ++ [x] ++ rest).
    rewrite app_assoc. apply IH; [assumption | cbn in Hfuel; lia].
Qed.

Lemma collect_to_zero_runs_out (rest : list Z) :
  forall (fuel : nat) (before : list Z) (acc : string),
    Forall (fun x => x <> 0) rest ->
    (length rest < fuel)%nat ->
    collect_to_zero fuel (before ++ rest) (len before) acc = Raise IndexError.
Proof.
  induction rest as [| x rest IH]; intros fuel before acc Hnz Hfuel.
  - destruct fuel as [| fuel]; [lia |]. cbn [collect_to_zero].
    rewrite app_nil_r, buf_at_end. reflexivity.
  - destruct fuel as [| fuel]; [cbn in Hfuel; lia |].
    inversion Hnz as [| x' l' Hx Hnz']; subst x' l'.
    cbn [collect_to_zero]. rewrite buf_at_middle. cbn [obind].
    rewrite (proj2 (Z.eqb_neq x 0) Hx). cbn [negb].
    rewrite <- (len_snoc before x).
    change (before ++ x :: rest) with (before ++ [x] ++ rest).
    rewrite app_assoc. apply IH; [assumption | cbn in Hfuel; lia].
Qed.

(** A read of one chunk that the board answers in full. *)
Lemma ScaffoldBus_read_single (addr : Z) (buf : list Z)
    (t : list (list Z)) (r q : list Z) :
  in_range 0 65536 addr = true ->
  buf <> [] -> (length buf <= 255)%nat ->
  ScaffoldBus_read addr (len buf) PollNone 255 0
                   (connected_bus t (buf ++ len buf :: r) q 0)
  = (Return buf,
     connected_bus (t ++ [spec_read_datagram addr PollNone 255 0 (len buf)])
                   r q 0).
Proof.
  intros Haddr Hne Hlen. rewrite ScaffoldBus_read_connected.
  pose proof (read_loop_all addr PollNone 255 0 Haddr eq_refl
                (S (Z.to_nat (len buf))) buf [] t r q 0) as Hloop.
  rewrite (chunks_small buf Hne Hlen) in Hloop.
  cbn [map concat app] in Hloop. rewrite app_nil_r, <- app_assoc in Hloop.
  apply Hloop. unfold len. lia.
Qed.

Lemma Register_read_run (size : Z) (poll : poll_arg) (poll_mask poll_value : Z)
    (r : Register) (b b' : ScaffoldBus) (o : outcome (list Z)) :
  reg_r r = true ->
  ScaffoldBus_read (reg_address r) size poll poll_mask poll_value b = (o, b') ->
  Register_read size poll poll_mask poll_value (r, b) = (o, (r, b')).
Proof.
  intros Hr Hrun. unfold Register_read.
  rewrite (bind_Return _ _ _ _ _ (get_state_run _)). cbn [fst].
  rewrite Hr. cbn [negb]. apply on_bus_run. exact Hrun.
Qed.

(** X16: [Version.get_string] asks the version register (address 0x0100)
    for 66 bytes in one read datagram. When the board answers them in full,
    the result is the text between the first and the second zero byte, one
    character per byte; what precedes the first zero and what follows the
    second is ignored. When the 66 bytes hold no zero byte, or a single one,
    the call fails with [IndexError], the bytes being consumed all the
    same. *)
Theorem X16_version_string_between_zeros
    (t : list (list Z)) (r q : list Z) :
  Version_reg_data = Return (mkRegister 0x0100 false true false 1 0 255 None)
  /\ (forall skipped body after : list Z,
        Forall (fun x => x <> 0) skipped ->
        Forall (fun x => x <> 0) body ->
        len (skipped ++ 0 :: body ++ 0 :: after) = 66 ->
        Version_get_string
          (mkRegister 0x0100 false true false 1 0 255 None,
           connected_bus t ((skipped ++ 0 :: body ++ 0 :: after) ++ 66 :: r) q 0)
        = (Return (bytes_to_string body),
           (mkRegister 0x0100 false true false 1 0 255 None,
            connected_bus (t ++ [[2; 1; 0; 66]]) r q 0)))
  /\ (forall buf : list Z,
        Forall (fun x => x <> 0) buf -> len buf = 66 ->
        Version_get_string
          (mkRegister 0x0100 false true false 1 0 255 None,
           connected_bus t (buf ++ 66 :: r) q 0)
        = (Raise IndexError,
           (mkRegister 0x0100 false true false 1 0 255 None,
            connected_bus (t ++ [[2; 1; 0; 66]]) r q 0)))
  /\ (forall skipped body : list Z,
        Forall (fun x => x <> 0) skipped ->
        Forall (fun x => x <> 0) body ->
        len (skipped ++ 0 :: body) = 66 ->
        Version_get_string
          (mkRegister 0x0100 false true false 1 0 255 None,
           connected_bus t ((skipped ++ 0 :: body) ++ 66 :: r) q 0)
        = (Raise IndexError,
           (mkRegister 0x0100 false true false 1 0 255 None,
            connected_bus (t ++ [[2; 1; 0; 66]]) r q 0))).
Proof.
  split; [reflexivity |].
  assert (Hread : forall buf : list Z,
    len buf = 66 ->
    Register_read (32 + 1 + 32 + 1) PollNone 255 0
      (mkRegister 0x0100 false true false 1 0 255 None,
       connected_bus t (buf ++ 66 :: r) q 0)
    = (Return buf,
       (mkRegister 0x0100 false true false 1 0 255 None,
        connected_bus (t ++ [[2; 1; 0; 66]]) r q 0))).
  { intros buf Hlen. apply Register_read_run; [reflexivity |].
    cbn [reg_address]. change (32 + 1 + 32 + 1) with 66.
    rewrite <- Hlen at 1 2.
    rewrite (ScaffoldBus_read_single 0x0100 buf t r q eq_refl).
    - rewrite Hlen. reflexivity.
    - intros ->. discriminate Hlen.
    - unfold len in Hlen. lia. }
  split; [| split].
  - intros skipped body after Hs Hb Hlen. unfold Version_get_string.
    rewrite (bind_Return _ _ _ _ _ (Hread _ Hlen)).
    rewrite (skip_to_zero_finds skipped _ [] (body ++ 0 :: after) Hs)
      by (unfold len in Hlen; rewrite length_app in *; lia).
    rewrite (bind_Return _ _ _ _ _ (lift_pure_run _ _)).
    change (len [] + len skipped + 1) with (len skipped + 1).
    rewrite <- (len_snoc skipped 0).
    change (skipped ++ 0 :: body ++ 0 :: after)
      with (skipped ++ [0] ++ body ++ 0 :: after).
    rewrite (app_assoc skipped [0]).
    rewrite (collect_to_zero_collects body _ (skipped ++ [0]) after
               EmptyString Hb).
    + reflexivity.
    + rewrite <- app_assoc. cbn [app]. unfold len in Hlen.
      rewrite !length_app in *. cbn [length] in *.
      rewrite !length_app in *. cbn [length] in *. lia.
  - intros buf Hnz Hlen. unfold Version_get_string.
    rewrite (bind_Return _ _ _ _ _ (Hread _ Hlen)).
    rewrite (skip_to_zero_runs_out buf _ [] Hnz) by lia.
    reflexivity.
  - intros skipped body Hs Hb Hlen. unfold Version_get_string.
    rewrite (bind_Return _ _ _ _ _ (Hread _ Hlen)).
    rewrite (skip_to_zero_finds skipped _ [] body Hs)
      by (unfold len in Hlen; rewrite length_app in *; lia).
    rewrite (bind_Return _ _ _ _ _ (lift_pure_run _ _)).
    change (len [] + len skipped + 1) with (len skipped + 1).
    rewrite <- (len_snoc skipped 0).
    change (skipped ++ 0 :: body) with (skipped ++ [0] ++ body).
    rewrite (app_assoc skipped [0]).
    rewrite (collect_to_zero_runs_out body _ (skipped ++ [0]) EmptyString Hb).
    + reflexivity.
    + rewrite <- app_assoc. cbn [app]. unfold len in Hlen.
      rewrite !length_app in *. cbn [length] in *. lia.
Qed.

Lemma X16_version_string_between_zeros_witness :
  Version_get_string
    (mkRegister 0x0100 false true false 1 0 255 None,
     connected_bus []
       (([7; 7] ++ 0 :: [115; 99; 97; 102; 102; 111; 108; 100; 45; 48; 46; 50]
                 ++ 0 :: repeat 0 50) ++ 66 :: []) [] 0)
  = (Return (bytes_to_string
               [115; 99; 97; 102; 102; 111; 108; 100; 45; 48; 46; 50]),
     (mkRegister 0x0100 false true false 1 0 255 None,
      connected_bus ([] ++ [[2; 1; 0; 66]]) [] [] 0))
  /\ bytes_to_string [115; 99; 97; 102; 102; 111; 108; 100; 45; 48; 46; 50]
     = "scaffold-0.2".
Proof.
  destruct (X16_version_string_between_zeros [] [] []) as (_ & Hparse & _).
  split; [| reflexivity].
  apply Hparse.
  - repeat constructor; discriminate.
  - repeat constructor; discriminate.
  - reflexivity.
Defined.

(** ** Pulse count and ETU *)

(** A setter that stores [value - 1] in a two-byte write-only register and
    the getter that adds 1 back. *)
Lemma minus_one_round_trip (r : Register) (value : Z)
    (t : list (list Z)) (rest q : list Z) :
  Register_ok r = true -> reg_w r = true -> reg_volatile r = false ->
  reg_wideness r = 2 ->
  reg_min_value r <= value - 1 <= reg_max_value r ->
  Register_set (value - 1) PollNone 255 0 (r, connected_bus t (2 :: rest) q 0)
  = (Return tt,
     (set_cache r (Some (value - 1)),
      connected_bus
        (t ++ [[3; reg_address r / 256; reg_address r mod 256; 2;
                (value - 1) / 256 mod 256; (value - 1) mod 256]])
        rest q 0))
  /\ (c <- Register_get ;; ret (c + 1))
       (set_cache r (Some (value - 1)),
        connected_bus
          (t ++ [[3; reg_address r / 256; reg_address r mod 256; 2;
                  (value - 1) / 256 mod 256; (value - 1) mod 256]])
          rest q 0)
     = (Return value,
        (set_cache r (Some (value - 1)),
         connected_bus
           (t ++ [[3; reg_address r / 256; reg_address r mod 256; 2;
                   (value - 1) / 256 mod 256; (value - 1) mod 256]])
           rest q 0)).
Proof.
  intros Hok Hw Hv Hwide Hval. split.
  - pose proof (Register_set_acked r (value - 1) t rest q Hok Hw) as Hset.
    rewrite Hwide in Hset. rewrite (Hset ltac:(lia) Hval).
    change (Z.to_nat 2) with 2%nat. cbn [be_bytes app].
    unfold spec_write_datagram, spec_header, spec_command.
    cbn [poll_address app length len]. change (len [_; _]) with 2.
    cbn [Z.ltb Z.compare Pos.compare Pos.compare_cont Z.add Pos.add
         Pos.succ].
    rewrite !land255_mod, shiftr8_div. reflexivity.
  - rewrite (bind_Return _ _ _ _ _
               (Register_get_cached (set_cache r (Some (value - 1)))
                  (value - 1) _ Hv eq_refl)).
    unfold ret. f_equal. f_equal. lia.
Qed.

(** X17: the pulse count of a pulse generator. The setter refuses a count
    outside 1..65536 with [ValueError], touching nothing. For a count in that
    range, outside lazy sections and acknowledged by the board, it sends one
    write datagram with the two big-endian bytes of [count - 1] to the count
    register (address [0x0306 + 0x10 * index]); the getter then returns the
    count that was set, without touching the bus. *)
Theorem X17_pulse_count_round_trip (index value : Z) (reg : Register)
    (t : list (list Z)) (rest q : list Z) (b : ScaffoldBus) :
  PulseGenerator_reg_count index = Return reg ->
  (in_range 1 65537 value = false ->
   PulseGenerator_count_set value (reg, b)
   = (Raise (ValueError "Invalid pulse count"), (reg, b)))
  /\ (in_range 1 65537 value = true ->
      reg_address reg = 0x0306 + 0x10 * index
      /\ PulseGenerator_count_set value
           (reg, connected_bus t (2 :: rest) q 0)
         = (Return tt,
            (set_cache reg (Some (value - 1)),
             connected_bus
               (t ++ [[3; reg_address reg / 256; reg_address reg mod 256; 2;
                       (value - 1) / 256 mod 256; (value - 1) mod 256]])
               rest q 0))
      /\ PulseGenerator_count_get
           (set_cache reg (Some (value - 1)),
            connected_bus
              (t ++ [[3; reg_address reg / 256; reg_address reg mod 256; 2;
                      (value - 1) / 256 mod 256; (value - 1) mod 256]])
              rest q 0)
         = (Return value,
            (set_cache reg (Some (value - 1)),
             connected_bus
               (t ++ [[3; reg_address reg / 256; reg_address reg mod 256; 2;
                       (value - 1) / 256 mod 256; (value - 1) mod 256]])
               rest q 0))).
Proof.
  intros Hinit. unfold PulseGenerator_reg_count in Hinit.
  destruct (Register_init_ok _ _ _ _ _ _ Hinit) as (Hok & Hcache & Haddr).
  destruct (Register_init_flags _ _ _ _ _ _ Hinit) as (Hw & Hr & Hv & Hwd).
  assert (Hbounds : reg_min_value reg = 0 /\ reg_max_value reg = 65535).
  { unfold Register_init in Hinit.
    destruct (negb (in_range 0 65536 (768 + 16 * index + 6))); [discriminate |].
    cbn in Hinit. injection Hinit as <-. split; reflexivity. }
  destruct Hbounds as [Hmin Hmax].
  unfold PulseGenerator_count_set, PulseGenerator_count_get.
  change (2 ^ 16 + 1) with 65537. split.
  - intros Hbad. rewrite Hbad. reflexivity.
  - intros Hgood. rewrite Hgood. cbn [negb].
    apply in_range_true in Hgood.
    split; [rewrite Haddr; lia |].
    apply minus_one_round_trip; try assumption; try reflexivity.
    rewrite Hmin, Hmax. lia.
Qed.

Lemma X17_pulse_count_round_trip_witness :
  PulseGenerator_count_set 0
    (mkRegister 0x0316 true false false 2 0 65535 None, ScaffoldBus_init)
  = (Raise (ValueError "Invalid pulse count"),
     (mkRegister 0x0316 true false false 2 0 65535 None, ScaffoldBus_init))
  /\ PulseGenerator_count_get
       (set_cache (mkRegister 0x0316 true false false 2 0 65535 None)
                  (Some (65536 - 1)),
        connected_bus
          ([] ++ [[3; 0x0316 / 256; 0x0316 mod 256; 2;
                   (65536 - 1) / 256 mod 256; (65536 - 1) mod 256]])
          [] [] 0)
     = (Return 65536,
        (set_cache (mkRegister 0x0316 true false false 2 0 65535 None)
                   (Some (65536 - 1)),
         connected_bus
           ([] ++ [[3; 0x0316 / 256; 0x0316 mod 256; 2;
                    (65536 - 1) / 256 mod 256; (65536 - 1) mod 256]])
           [] [] 0)).
Proof.
  destruct (X17_pulse_count_round_trip 1 0
              (mkRegister 0x0316 true false false 2 0 65535 None)
              [] [] [] ScaffoldBus_init eq_refl) as [Hbad _].
  destruct (X17_pulse_count_round_trip 1 65536
              (mkRegister 0x0316 true false false 2 0 65535 None)
              [] [] [] ScaffoldBus_init eq_refl) as [_ Hgood].
  split.
  - apply Hbad. reflexivity.
  - apply Hgood. reflexivity.
Defined.

(** X18: the ETU parameter of the ISO7816 peripheral. The setter refuses a
    value outside 1..2047 with [ValueError], touching nothing. For a value in
    that range, outside lazy sections and acknowledged by the board, it sends
    one write datagram with the two big-endian bytes of [etu - 1] to the ETU
    register (address 0x0504); the getter then returns the value that was
    set, without touching the bus. *)
Theorem X18_etu_round_trip (value : Z) (reg : Register)
    (t : list (list Z)) (rest q : list Z) (b : ScaffoldBus) :
  ISO7816_reg_etu = Return reg ->
  (in_range 1 2048 value = false ->
   ISO7816_etu_set value (reg, b)
   = (Raise (ValueError "Invalid ETU parameter"), (reg, b)))
  /\ (in_range 1 2048 value = true ->
      ISO7816_etu_set value (reg, connected_bus t (2 :: rest) q 0)
      = (Return tt,
         (set_cache reg (Some (value - 1)),
          connected_bus
            (t ++ [[3; 5; 4; 2; (value - 1) / 256 mod 256; (value - 1) mod 256]])
            rest q 0))
      /\ ISO7816_etu_get
           (set_cache reg (Some (value - 1)),
            connected_bus
              (t ++ [[3; 5; 4; 2; (value - 1) / 256 mod 256;
                      (value - 1) mod 256]])
              rest q 0)
         = (Return value,
            (set_cache reg (Some (value - 1)),
             connected_bus
               (t ++ [[3; 5; 4; 2; (value - 1) / 256 mod 256;
                       (value - 1) mod 256]])
               rest q 0))).
Proof.
  intros Hinit. injection Hinit as <-.
  unfold ISO7816_etu_set, ISO7816_etu_get. change (2 ^ 11) with 2048. split.
  - intros Hbad. rewrite Hbad. reflexivity.
  - intros Hgood. rewrite Hgood. cbn [negb].
    apply in_range_true in Hgood.
    apply (minus_one_round_trip
             (mkRegister 1284 true false false 2 0 65535 None) value t rest q);
      try reflexivity.
    cbn [reg_min_value reg_max_value]. lia.
Qed.

Lemma X18_etu_round_trip_witness :
  ISO7816_etu_set 2048
    (mkRegister 0x0504 true false false 2 0 65535 None, ScaffoldBus_init)
  = (Raise (ValueError "Invalid ETU parameter"),
     (mkRegister 0x0504 true false false 2 0 65535 None, ScaffoldBus_init))
  /\ ISO7816_etu_set 372
       (mkRegister 0x0504 true false false 2 0 65535 None,
        connected_bus [] (2 :: []) [] 0)
     = (Return tt,
        (set_cache (mkRegister 0x0504 true false false 2 0 65535 None)
                   (Some (372 - 1)),
         connected_bus
           ([] ++ [[3; 5; 4; 2; (372 - 1) / 256 mod 256; (372 - 1) mod 256]])
           [] [] 0)).
Proof.
  destruct (X18_etu_round_trip 2048
              (mkRegister 0x0504 true false false 2 0 65535 None)
              [] [] [] ScaffoldBus_init eq_refl) as [Hbad _].
  destruct (X18_etu_round_trip 372
              (mkRegister 0x0504 true false false 2 0 65535 None)
              [] [] [] ScaffoldBus_init eq_refl) as [_ Hgood].
  split.
  - apply Hbad. reflexivity.
  - apply Hgood. reflexivity.
Defined.

(** ** The I2C header *)

(** X19: what [I2C.__make_header] builds, with [rw] 0 or 1. An even address
    up to 254 gives the single byte [address + rw], whose low bit is [rw].
    An address above 256 and below 2048 with bit 4 clear gives two bytes,
    [0xf0 + (address >> 8) + rw] and the low FOUR bits of the address. The
    address 256 itself is refused with [ValueError] (its byte does not fit),
    as are odd addresses up to 255, addresses above 256 with bit 4 set,
    negative addresses and addresses from 2048; with no address given and
    none stored in the peripheral the call fails with [ValueError]. An [rw]
    other than 0 and 1 trips the assertion. *)
Theorem X19_i2c_header (self_address : option Z) (address rw : Z) :
  (rw = 0 \/ rw = 1 ->
   (0 <= address <= 254 -> address mod 2 = 0 ->
    I2C_make_header self_address (Some address) rw = Return [address + rw]
    /\ (address + rw) mod 2 = rw /\ (address + rw) / 2 = address / 2)
   /\ (256 < address < 2048 -> Z.testbit address 4 = false ->
       I2C_make_header self_address (Some address) rw
       = Return [0xf0 + address / 256 + rw; address mod 16]
       /\ 0xf0 <= 0xf0 + address / 256 + rw <= 0xf8)
   /\ (address = 256
       \/ (0 <= address <= 255 /\ address mod 2 = 1)
       \/ (256 < address < 2048 /\ Z.testbit address 4 = true)
       \/ address < 0 \/ 2048 <= address ->
       exists msg,
         I2C_make_header self_address (Some address) rw
         = Raise (ValueError msg))
   /\ I2C_make_header self_address None rw
      = match self_address with
        | Some a => I2C_make_header self_address (Some a) rw
        | None => Raise (ValueError "I2C transaction address is not defined")
        end)
  /\ (rw <> 0 -> rw <> 1 ->
      forall a, I2C_make_header self_address a rw = Raise AssertionError).
Proof.
  assert (Hbit4 : forall a, 0 <= a ->
            (Z.land a 16 =? 0) = negb (Z.testbit a 4)).
  { intros a Ha. change 16 with (2 ^ 4).
    destruct (Z.testbit a 4) eqn:Hb.
    - apply Z.eqb_neq. intros E.
      assert (Hc : Z.testbit (Z.land a (2 ^ 4)) 4 = true).
      { rewrite Z.land_spec, Hb, Z.pow2_bits_true by lia. reflexivity. }
      rewrite E, Z.bits_0 in Hc. discriminate.
    - apply Z.eqb_eq. apply Z.bits_inj'. intros n Hn.
      rewrite Z.land_spec, Z.bits_0, Z.pow2_bits_eqb by lia.
      destruct (Z.eqb_spec 4 n) as [<- | _];
        [rewrite Hb; reflexivity | apply andb_false_r]. }
  assert (Hlow : forall a, Z.land a 1 = a mod 2).
  { intros a. change 1 with (Z.ones 1). rewrite Z.land_ones by lia.
    reflexivity. }
  assert (Hlow4 : forall a, Z.land a 15 = a mod 16).
  { intros a. change 15 with (Z.ones 4). rewrite Z.land_ones by lia.
    reflexivity. }
  split.
  - intros Hrw.
    assert (Hrwb : negb ((rw =? 0) || (rw =? 1)) = false).
    { destruct Hrw as [-> | ->]; reflexivity. }
    unfold I2C_make_header. rewrite Hrwb.
    change (2 ^ 11) with 2048. change (2 ^ 8) with 256.
    split; [| split; [| split]].
    + intros Ha Heven.
      destruct (Z.ltb_spec address 0); [lia |].
      destruct (Z.leb_spec 2048 address); [lia |].
      destruct (Z.ltb_spec 256 address); [lia |].
      rewrite Hlow, Heven. cbn [Z.eqb negb].
      unfold bytearray_append.
      replace (in_range 0 256 (address + rw)) with true
        by (symmetry; apply in_range_true; lia).
      repeat split.
      * destruct Hrw as [-> | ->].
        -- rewrite Z.add_0_r. exact Heven.
        -- rewrite Z.add_mod, Heven by lia. reflexivity.
      * pose proof (Z.div_mod address 2 ltac:(lia)) as Hdm.
        rewrite Heven in Hdm.
        destruct Hrw as [-> | ->].
        -- rewrite Z.add_0_r. reflexivity.
        -- symmetry. apply (Z.div_unique (address + 1) 2 (address / 2) 1);
             lia.
    + intros Ha Hb4.
      destruct (Z.ltb_spec address 0); [lia |].
      destruct (Z.leb_spec 2048 address); [lia |].
      destruct (Z.ltb_spec 256 address); [| lia].
      rewrite (Hbit4 address) by lia. rewrite Hb4. cbn [negb].
      rewrite shiftr8_div, Hlow4.
      assert (Hhi : 1 <= address / 256 <= 7).
      { split; [apply Z.div_le_lower_bound; lia |].
        assert (address / 256 < 8) by (apply Z.div_lt_upper_bound; lia).
        lia. }
      unfold bytearray_append.
      replace (in_range 0 256 (240 + address / 256 + rw)) with true
        by (symmetry; apply in_range_true; lia).
      cbn [obind app].
      replace (in_range 0 256 (address mod 16)) with true.
      * split; [reflexivity | lia].
      * symmetry. apply in_range_true.
        pose proof (Z.mod_pos_bound address 16 ltac:(lia)). lia.
    + intros Hbad.
      destruct (Z.ltb_spec address 0); [eexists; reflexivity |].
      destruct (Z.leb_spec 2048 address); [eexists; reflexivity |].
      destruct (Z.ltb_spec 256 address).
      * rewrite (Hbit4 address) by lia.
        destruct Hbad as [-> | [[Hr _] | [[_ Hb] | [Hneg | Hbig]]]]; try lia.
        rewrite Hb. eexists; reflexivity.
      * rewrite Hlow.
        destruct Hbad as [-> | [[_ Hodd] | [[Hr _] | [Hneg | Hbig]]]]; try lia.
        -- cbn [Z.modulo Z.div_eucl Z.pos_div_eucl Z.eqb negb].
           unfold bytearray_append.
           replace (in_range 0 256 (256 + rw)) with false
             by (symmetry; unfold in_range; apply andb_false_iff; right;
                 apply Z.ltb_ge; lia).
           eexists; reflexivity.
        -- rewrite Hodd. eexists; reflexivity.
    + destruct self_address; reflexivity.
  - intros H0 H1 a. unfold I2C_make_header.
    rewrite (proj2 (Z.eqb_neq rw 0) H0), (proj2 (Z.eqb_neq rw 1) H1).
    reflexivity.
Qed.

Lemma X19_i2c_header_witness :
  (I2C_make_header None (Some 0xa0) 1 = Return [0xa0 + 1]
   /\ (0xa0 + 1) mod 2 = 1 /\ (0xa0 + 1) / 2 = 0xa0 / 2)
  /\ (I2C_make_header None (Some 0x3a5) 0
      = Return [0xf0 + 0x3a5 / 256 + 0; 0x3a5 mod 16]
      /\ 0xf0 <= 0xf0 + 0x3a5 / 256 + 0 <= 0xf8)
  /\ exists msg, I2C_make_header None (Some 256) 0 = Raise (ValueError msg).
Proof.
  destruct (X19_i2c_header None 0xa0 1) as [H7 _].
  destruct (X19_i2c_header None 0x3a5 0) as [H10 _].
  destruct (X19_i2c_header None 256 0) as [H256 _].
  split; [| split].
  - apply H7; [right; reflexivity | split; discriminate | reflexivity].
  - apply H10; [left; reflexivity | split; reflexivity | reflexivity].
  - apply H256; [left; reflexivity | left; reflexivity].
Defined.

(** ** One-byte registers of the peripherals *)

Lemma Register_init_byte (mode : string) (address : Z) :
  in_range 0 65536 address = true ->
  Register_init mode address 1 None None
  = Return (mkRegister address (char_in "w" mode) (char_in "r" mode)
                       (char_in "v" mode) 1 0 255 None).
Proof.
  intros Ha. unfold Register_init. rewrite Ha. reflexivity.
Qed.

Lemma byte_from_bits (y : Z) :
  0 <= y -> (forall j, 8 <= j -> Z.testbit y j = false) -> y < 256.
Proof.
  intros Hy Hhigh.
  assert (E : y mod 2 ^ 8 = y).
  { apply Z.bits_inj'. intros n Hn.
    destruct (Z.lt_ge_cases n 8) as [Hlt | Hge].
    - apply Z.mod_pow2_bits_low. lia.
    - rewrite Z.mod_pow2_bits_high by lia. symmetry. apply Hhigh. exact Hge. }
  pose proof (Z.mod_pos_bound y (2 ^ 8) ltac:(lia)) as Hb.
  rewrite E in Hb. change (2 ^ 8) with 256 in Hb. lia.
Qed.

Lemma byte_high_bits (x j : Z) :
  0 <= x < 256 -> 8 <= j -> Z.testbit x j = false.
Proof.
  intros Hx Hj. destruct (Z.eq_dec x 0) as [-> | Hne]; [apply Z.bits_0 |].
  apply Z.bits_above_log2; [lia |].
  assert (Z.log2 x < 8) by (apply Z.log2_lt_pow2; lia). lia.
Qed.

Lemma set_bit_byte (x : Z) (v : bool) (i : Z) :
  0 <= x < 256 -> 0 <= i < 8 ->
  0 <= Z.lor (Z.land x (Z.lnot (Z.shiftl 1 i)))
             (Z.shiftl (if v then 1 else 0) i) < 256.
Proof.
  intros Hx Hi.
  assert (Hnn : 0 <= Z.lor (Z.land x (Z.lnot (Z.shiftl 1 i)))
                           (Z.shiftl (if v then 1 else 0) i)).
  { apply Z.lor_nonneg. split.
    - apply Z.land_nonneg. left. lia.
    - apply Z.shiftl_nonneg. destruct v; lia. }
  split; [exact Hnn |].
  apply byte_from_bits; [exact Hnn |].
  intros j Hj. rewrite set_bit_bits by lia.
  destruct (Z.eqb_spec j i); [lia |].
  apply byte_high_bits; assumption.
Qed.

Lemma clear_mask_byte (i : Z) :
  0 <= i < 8 ->
  Z.lxor 255 (Z.shiftl 1 i) = 255 - 2 ^ i
  /\ 0 <= Z.lxor 255 (Z.shiftl 1 i) <= 255
  /\ forall j, 0 <= j < 8 ->
       Z.testbit (Z.lxor 255 (Z.shiftl 1 i)) j = negb (j =? i).
Proof.
  intros Hi.
  assert (Hcases : i = 0 \/ i = 1 \/ i = 2 \/ i = 3 \/ i = 4 \/ i = 5
                   \/ i = 6 \/ i = 7) by lia.
  repeat split.
  - destruct Hcases as [-> | [-> | [-> | [-> | [-> | [-> | [-> | ->]]]]]]];
      reflexivity.
  - destruct Hcases as [-> | [-> | [-> | [-> | [-> | [-> | [-> | ->]]]]]]];
      discriminate.
  - destruct Hcases as [-> | [-> | [-> | [-> | [-> | [-> | [-> | ->]]]]]]];
      discriminate.
  - intros j Hj. rewrite Z.lxor_spec.
    rewrite (shifted_bit true i j) by lia. cbn [andb].
    change 255 with (Z.ones 8). rewrite Z.ones_spec_low by lia.
    destruct (j =? i); reflexivity.
Qed.

(** X20: for an I/O index from 0 to 4095 (the board's I/Os have indices 0
    to 21), [IO.__init__] builds the two registers of the I/O's group,
    [0xe000 + 0x10 * (index // 8)] and the next address, and [clear_event],
    outside lazy sections and acknowledged by the board, never fails a bounds
    or capability check: it sends one write datagram to the event register
    with the byte [255 - 2^(index % 8)], the only zero bit of which is the
    I/O's own bit. *)
Theorem X20_io_clear_event_byte (index : Z)
    (t : list (list Z)) (rest q : list Z) :
  0 <= index < 4096 ->
  exists io : IO,
    IO_init index = Return io
    /\ io_group_index io = index mod 8
    /\ reg_address (io_reg_value io) = 0xe000 + 0x10 * (index / 8)
    /\ reg_address (io_reg_event io) = 0xe001 + 0x10 * (index / 8)
    /\ IO_clear_event (io_group_index io)
         (io_reg_event io, connected_bus t (1 :: rest) q 0)
       = (Return tt,
          (set_cache (io_reg_event io) (Some (255 - 2 ^ (index mod 8))),
           connected_bus
             (t ++ [[1; reg_address (io_reg_event io) / 256;
                     reg_address (io_reg_event io) mod 256;
                     255 - 2 ^ (index mod 8)]])
             rest q 0))
    /\ forall j, 0 <= j < 8 ->
         Z.testbit (255 - 2 ^ (index mod 8)) j = negb (j =? index mod 8).
Proof.
  intros Hidx.
  assert (Hg : 0 <= index / 8 <= 511).
  { split; [apply Z.div_pos; lia |].
    assert (index / 8 < 512) by (apply Z.div_lt_upper_bound; lia). lia. }
  assert (Hgi : 0 <= index mod 8 < 8) by (apply Z.mod_pos_bound; lia).
  assert (Ha0 : in_range 0 65536 (0xe000 + 0x10 * (index / 8) + 0x00) = true)
    by (apply in_range_true; lia).
  assert (Ha1 : in_range 0 65536 (0xe000 + 0x10 * (index / 8) + 0x01) = true)
    by (apply in_range_true; lia).
  destruct (clear_mask_byte (index mod 8) Hgi) as (Hval & Hrange & Hbits).
  eexists. split.
  { unfold IO_init. rewrite (Register_init_byte "rv" _ Ha0).
    cbn [obind]. rewrite (Register_init_byte "rwv" _ Ha1). reflexivity. }
  cbn [io_group_index io_reg_value io_reg_event reg_address].
  split; [reflexivity |]. split; [lia |]. split; [lia |]. split.
  - unfold IO_clear_event, py_shl.
    rewrite (proj2 (Z.ltb_ge (index mod 8) 0)) by lia.
    unfold bind at 1, ret at 1. rewrite Hval. rewrite Hval in Hrange.
    pose proof (Register_set_acked
                  (mkRegister (0xe000 + 0x10 * (index / 8) + 0x01)
                     (char_in "w" "rwv") (char_in "r" "rwv")
                     (char_in "v" "rwv") 1 0 255 None)
                  (255 - 2 ^ (index mod 8)) t rest q) as Hset.
    cbn [reg_wideness reg_w reg_min_value reg_max_value reg_address] in Hset.
    rewrite Hset.
    + change (Z.to_nat 1) with 1%nat. cbn [be_bytes app].
      unfold spec_write_datagram, spec_header, spec_command.
      cbn [poll_address app]. change (len [_]) with 1.
      change (1 <? 1) with false. cbv iota. change (1 + 0 + 0) with 1.
      rewrite land255_mod.
      rewrite (Z.mod_small (255 - 2 ^ (index mod 8)) 256) by lia.
      reflexivity.
    + unfold Register_ok.
      cbn [reg_address reg_wideness reg_min_value reg_max_value reg_r].
      rewrite Ha1. reflexivity.
    + reflexivity.
    + lia.
    + lia.
  - intros j Hj. rewrite <- Hval. apply Hbits. exact Hj.
Qed.

Lemma X20_io_clear_event_byte_witness :
  exists io : IO,
    IO_init 11 = Return io
    /\ io_group_index io = 11 mod 8
    /\ reg_address (io_reg_value io) = 0xe000 + 0x10 * (11 / 8)
    /\ reg_address (io_reg_event io) = 0xe001 + 0x10 * (11 / 8)
    /\ IO_clear_event (io_group_index io)
         (io_reg_event io, connected_bus [] (1 :: []) [] 0)
       = (Return tt,
          (set_cache (io_reg_event io) (Some (255 - 2 ^ (11 mod 8))),
           connected_bus
             ([] ++ [[1; reg_address (io_reg_event io) / 256;
                      reg_address (io_reg_event io) mod 256;
                      255 - 2 ^ (11 mod 8)]])
             [] [] 0))
    /\ forall j, 0 <= j < 8 ->
         Z.testbit (255 - 2 ^ (11 mod 8)) j = negb (j =? 11 mod 8).
Proof.
  apply (X20_io_clear_event_byte 11 [] [] []). split; [discriminate | reflexivity].
Defined.

(** ** Read-modify-write on a volatile register *)

Lemma ScaffoldBus_read_lazy (addr size : Z) (poll : poll_arg)
    (poll_mask poll_value : Z) (t : list (list Z)) (r q : list Z) (d : Z) :
  0 < d ->
  ScaffoldBus_read addr size poll poll_mask poll_value (connected_bus t r q d)
  = (Raise (RuntimeError
       "Read operations not allowed during lazy-update section."),
     connected_bus t r q d).
Proof.
  intros Hd. unfold ScaffoldBus_read.
  rewrite (bind_Return _ _ _ _ _ (get_state_run _)).
  cbn [connected_bus ser lazy_stack].
  rewrite (proj2 (Z.ltb_lt 0 d) Hd). reflexivity.
Qed.

(** [set_bit] on a one-byte volatile register that can be read and written:
    the byte is read on the bus, one bit of it replaced, and the result
    written back. *)
Lemma Register_set_bit_volatile (r : Register) (index x : Z) (v : bool)
    (t : list (list Z)) (rest q : list Z) :
  Register_ok r = true -> reg_volatile r = true ->
  reg_r r = true -> reg_w r = true ->
  reg_wideness r = 1 -> reg_min_value r = 0 -> reg_max_value r = 255 ->
  0 <= index < 8 -> 0 <= x < 256 ->
  Register_set_bit index v PollNone 255 0
    (r, connected_bus t (x :: 1 :: 1 :: rest) q 0)
  = (Return tt,
     (set_cache r
        (Some (Z.lor (Z.land x (Z.lnot (Z.shiftl 1 index)))
                     (Z.shiftl (if v then 1 else 0) index))),
      connected_bus
        (t ++ [[0; reg_address r / 256; reg_address r mod 256];
               [1; reg_address r / 256; reg_address r mod 256;
                Z.lor (Z.land x (Z.lnot (Z.shiftl 1 index)))
                      (Z.shiftl (if v then 1 else 0) index)]])
        rest q 0)).
Proof.
  intros Hok Hvol Hr Hw Hwid Hmin Hmax Hi Hx.
  pose proof Hok as Hok'. unfold Register_ok in Hok'.
  rewrite !andb_true_iff in Hok'.
  destruct Hok' as (((((Haddr & _) & _) & _) & _) & _).
  pose proof (set_bit_byte x v index Hx Hi) as Hy.
  assert (Hget :
    Register_get (r, connected_bus t (x :: 1 :: 1 :: rest) q 0)
    = (Return x,
       (r, connected_bus (t ++ [[0; reg_address r / 256; reg_address r mod 256]])
             (1 :: rest) q 0))).
  { rewrite Register_get_run, Hvol, Hr. cbn [negb].
    pose proof (ScaffoldBus_read_single (reg_address r) [x] t (1 :: rest) q
                  Haddr ltac:(discriminate) ltac:(cbn; lia)) as Hread.
    change (len [x]) with 1 in Hread. cbn [app] in Hread.
    rewrite Hread. reflexivity. }
  unfold Register_set_bit.
  rewrite (bind_Return _ _ _ _ _ Hget).
  unfold py_shl. rewrite (proj2 (Z.ltb_ge index 0)) by lia.
  unfold bind at 1, ret at 1. unfold bind at 1, ret at 1.
  pose proof (Register_set_acked r
                (Z.lor (Z.land x (Z.lnot (Z.shiftl 1 index)))
                       (Z.shiftl (if v then 1 else 0) index))
                (t ++ [[0; reg_address r / 256; reg_address r mod 256]])
                rest q Hok Hw) as Hset.
  rewrite Hwid, Hmin, Hmax in Hset.
  rewrite Hset by lia.
  change (Z.to_nat 1) with 1%nat. cbn [be_bytes app].
  unfold spec_write_datagram, spec_header, spec_command.
  cbn [poll_address app]. change (len [_]) with 1.
  change (1 <? 1) with false. cbv iota. change (1 + 0 + 0) with 1.
  rewrite land255_mod.
  rewrite (Z.mod_small (Z.lor (Z.land x (Z.lnot (Z.shiftl 1 index)))
                              (Z.shiftl (if v then 1 else 0) index)) 256)
    by lia.
  rewrite <- app_assoc. reflexivity.
Qed.

(** X21: the [dut] and [platform] setters of the power module work on the
    volatile control register (0x0600), so each is a read-modify-write on
    the bus. Outside lazy sections, when the board answers the byte [x] and
    acknowledges, the setter sends the read datagram [00 06 00] and then
    the write datagram [01 06 00 y], where bit 0 (for [dut]; bit 1 for
    [platform]) of the byte [y] is the value given and the other bits are
    those of [x]. Inside a lazy section both setters fail with
    [RuntimeError], because their read is refused, and nothing is sent or
    queued. The [all] setter trips its assertion, without any I/O, for a
    value that has a bit set outside the two low ones. *)
Theorem X21_power_setters (x : Z) (v : bool)
    (t : list (list Z)) (rest q : list Z) :
  0 <= x < 256 ->
  exists r : Register,
    Power_reg_control = Return r
    /\ (exists y : Z,
          0 <= y < 256
          /\ (forall j, 0 <= j ->
                Z.testbit y j = if j =? 0 then v else Z.testbit x j)
          /\ Power_dut_set v (r, connected_bus t (x :: 1 :: 1 :: rest) q 0)
             = (Return tt,
                (set_cache r (Some y),
                 connected_bus (t ++ [[0; 6; 0]; [1; 6; 0; y]]) rest q 0)))
    /\ (exists y : Z,
          0 <= y < 256
          /\ (forall j, 0 <= j ->
                Z.testbit y j = if j =? 1 then v else Z.testbit x j)
          /\ Power_platform_set v
               (r, connected_bus t (x :: 1 :: 1 :: rest) q 0)
             = (Return tt,
                (set_cache r (Some y),
                 connected_bus (t ++ [[0; 6; 0]; [1; 6; 0; y]]) rest q 0)))
    /\ (forall (d : Z) (rx : list Z), 0 < d ->
          Power_dut_set v (r, connected_bus t rx q d)
          = (Raise (RuntimeError
               "Read operations not allowed during lazy-update section."),
             (r, connected_bus t rx q d))
          /\ Power_platform_set v (r, connected_bus t rx q d)
             = (Raise (RuntimeError
                  "Read operations not allowed during lazy-update section."),
                (r, connected_bus t rx q d)))
    /\ (forall (value : Z) (b : ScaffoldBus),
          Z.land value (Z.lnot 3) <> 0 ->
          Power_all_set value (r, b) = (Raise AssertionError, (r, b))).
Proof.
  intros Hx.
  exists (mkRegister 0x0600 true true true 1 0 255 None).
  split; [reflexivity |].
  split; [| split; [| split]].
  - eexists. split; [| split].
    + apply (set_bit_byte x v 0); [exact Hx | lia].
    + intros j Hj. apply set_bit_bits; [lia | exact Hj].
    + unfold Power_dut_set.
      apply (Register_set_bit_volatile
               (mkRegister 0x0600 true true true 1 0 255 None) 0 x v t rest q);
        try reflexivity; [lia | exact Hx].
  - eexists. split; [| split].
    + apply (set_bit_byte x v 1); [exact Hx | lia].
    + intros j Hj. apply set_bit_bits; [lia | exact Hj].
    + unfold Power_platform_set.
      apply (Register_set_bit_volatile
               (mkRegister 0x0600 true true true 1 0 255 None) 1 x v t rest q);
        try reflexivity; [lia | exact Hx].
  - intros d rx Hd.
    assert (Hget :
      Register_get (mkRegister 0x0600 true true true 1 0 255 None,
                    connected_bus t rx q d)
      = (Raise (RuntimeError
           "Read operations not allowed during lazy-update section."),
         (mkRegister 0x0600 true true true 1 0 255 None,
          connected_bus t rx q d))).
    { rewrite Register_get_run. cbn [reg_volatile reg_r negb reg_address].
      rewrite (ScaffoldBus_read_lazy _ _ _ _ _ _ _ _ _ Hd). reflexivity. }
    split; [unfold Power_dut_set | unfold Power_platform_set];
      unfold Register_set_bit; apply bind_Raise; exact Hget.
  - intros value b Hbits. unfold Power_all_set.
    rewrite (proj2 (Z.eqb_neq _ _) Hbits). reflexivity.
Qed.

Lemma X21_power_setters_witness :
  exists r : Register,
    Power_reg_control = Return r
    /\ exists y : Z,
         0 <= y < 256
         /\ Z.testbit y 0 = true
         /\ Power_dut_set true (r, connected_bus [] [2; 1; 1] [] 0)
            = (Return tt,
               (set_cache r (Some y),
                connected_bus ([] ++ [[0; 6; 0]; [1; 6; 0; y]]) [] [] 0)).
Proof.
  destruct (X21_power_setters 2 true [] [] [] ltac:(lia))
    as (r & Hr & (y & Hy & Hbits & Hrun) & _).
  exists r. split; [exact Hr |].
  exists y. split; [exact Hy |]. split; [| exact Hrun].
  apply (Hbits 0). lia.
Defined.

(** ** The crossbar tables of [Scaffold.__init__] *)

Lemma nth_str_in (l : list string) (i : nat) (x : string) :
  nth_error l i = Some x -> str_in x l = true.
Proof.
  intros Hnth. unfold str_in. apply existsb_exists.
  exists x. split; [exact (nth_error_In l i Hnth) | apply String.eqb_refl].
Qed.

(** In a table without duplicates, [index] gives back the position. *)
Lemma list_index_nth (l : list string) :
  distinctb l = true ->
  forall (i : nat) (x : string),
    nth_error l i = Some x -> list_index x l = Return (Z.of_nat i).
Proof.
  induction l as [| y l IH]; intros Hd i x Hnth.
  - destruct i; discriminate Hnth.
  - cbn [distinctb] in Hd. apply andb_true_iff in Hd. destruct Hd as [Hy Hd].
    destruct i as [| i]; cbn [nth_error] in Hnth.
    + injection Hnth as ->. cbn [list_index]. rewrite String.eqb_refl.
      reflexivity.
    + cbn [list_index].
      destruct (String.eqb_spec y x) as [-> | Hne].
      * rewrite (nth_str_in l i x Hnth) in Hy. discriminate Hy.
      * rewrite (IH Hd i x Hnth). cbn [obind].
        rewrite Nat2Z.inj_succ. reflexivity.
Qed.

Lemma nth_error_bound {A} (l : list A) (i : nat) (x : A) :
  nth_error l i = Some x -> (i < length l)%nat.
Proof. intros H. apply nth_error_Some. rewrite H. discriminate. Qed.

Lemma matrix_address_bytes (base j : Z) :
  0 <= base -> 0 <= j < 256 ->
  (base * 256 + j) / 256 = base /\ (base * 256 + j) mod 256 = j.
Proof.
  intros Hb Hj. split.
  - rewrite Z.div_add_l, Z.div_small by lia. lia.
  - rewrite Z.add_comm, Z.mod_add, Z.mod_small by lia. reflexivity.
Qed.

(** X22: the tables that [Scaffold.__init__] builds hold no name twice
    and no destination of the left matrix is a destination of the right
    one, so on such a board [sig_connect] sends the positions of the two
    names in the tables: for the signal at position [j] of the right-matrix
    outputs and the signal at position [i] of the right-matrix inputs,
    outside lazy sections and acknowledged by the board, exactly one write
    datagram [01 f1 j i]; for positions [j] and [i] of the left-matrix
    tables, [01 f0 j i]. *)
Theorem X22_sig_connect_sends_table_positions (i j : nat) (src dest : string)
    (t : list (list Z)) (rest q : list Z)
    (cache : option Z) (stack : list pyvalue) :
  (nth_error mtxr_out_init j = Some dest ->
   nth_error mtxr_in_init i = Some src ->
   sig_connect (SigSignal true dest) (SigSignal true src)
     (mkScaffold (connected_bus t (1 :: rest) q 0) cache stack
                 mtxl_in_init mtxl_out_init mtxr_in_init mtxr_out_init)
   = (Return tt,
      mkScaffold
        (connected_bus (t ++ [[1; 0xf1; Z.of_nat j; Z.of_nat i]]) rest q 0)
        cache stack mtxl_in_init mtxl_out_init mtxr_in_init mtxr_out_init))
  /\ (nth_error mtxl_out_init j = Some dest ->
      nth_error mtxl_in_init i = Some src ->
      sig_connect (SigSignal true dest) (SigSignal true src)
        (mkScaffold (connected_bus t (1 :: rest) q 0) cache stack
                    mtxl_in_init mtxl_out_init mtxr_in_init mtxr_out_init)
      = (Return tt,
         mkScaffold
           (connected_bus (t ++ [[1; 0xf0; Z.of_nat j; Z.of_nat i]]) rest q 0)
           cache stack mtxl_in_init mtxl_out_init mtxr_in_init mtxr_out_init)).
Proof.
  assert (Hdri : distinctb mtxr_in_init = true) by (vm_compute; reflexivity).
  assert (Hdro : distinctb mtxr_out_init = true) by (vm_compute; reflexivity).
  assert (Hdli : distinctb mtxl_in_init = true) by (vm_compute; reflexivity).
  assert (Hdlo : distinctb mtxl_out_init = true) by (vm_compute; reflexivity).
  assert (Hdisj : forallb (fun d => negb (str_in d mtxr_out_init))
                          mtxl_out_init = true) by (vm_compute; reflexivity).
  split; intros Hdest Hsrc;
    rewrite (sig_connect_run (SigSignal true dest) (SigSignal true src) _
               dest src eq_refl eq_refl);
    cbn [mtxr_out mtxr_in mtxl_out mtxl_in].
  - rewrite (nth_str_in _ _ _ Hdest).
    rewrite (list_index_nth _ Hdri i src Hsrc).
    rewrite (list_index_nth _ Hdro j dest Hdest).
    pose proof (nth_error_bound _ _ _ Hdest) as Hj.
    pose proof (nth_error_bound _ _ _ Hsrc) as Hi.
    change (length mtxr_out_init) with 22%nat in Hj.
    change (length mtxr_in_init) with 19%nat in Hi.
    unfold with_bus. cbn [bus cache_timeout timeout_stack
                          mtxr_out mtxr_in mtxl_out mtxl_in].
    rewrite ScaffoldBus_write_int
      by (apply in_range_true; unfold ADDR_MTXR_BASE; lia).
    unfold ADDR_MTXR_BASE.
    destruct (matrix_address_bytes 0xf1 (Z.of_nat j)) as [Hhi Hlo]; [lia | lia |].
    change 0xf100 with (0xf1 * 256). rewrite Hhi, Hlo. reflexivity.
  - rewrite forallb_forall in Hdisj.
    pose proof (Hdisj dest (nth_error_In _ _ Hdest)) as Hnot.
    apply negb_true_iff in Hnot. rewrite Hnot.
    rewrite (nth_str_in _ _ _ Hdest).
    rewrite (list_index_nth _ Hdli i src Hsrc).
    rewrite (list_index_nth _ Hdlo j dest Hdest).
    pose proof (nth_error_bound _ _ _ Hdest) as Hj.
    pose proof (nth_error_bound _ _ _ Hsrc) as Hi.
    change (length mtxl_out_init) with 9%nat in Hj.
    change (length mtxl_in_init) with 24%nat in Hi.
    unfold with_bus. cbn [bus cache_timeout timeout_stack
                          mtxr_out mtxr_in mtxl_out mtxl_in].
    rewrite ScaffoldBus_write_int
      by (apply in_range_true; unfold ADDR_MTXL_BASE; lia).
    unfold ADDR_MTXL_BASE.
    destruct (matrix_address_bytes 0xf0 (Z.of_nat j)) as [Hhi Hlo]; [lia | lia |].
    change 0xf000 with (0xf0 * 256). rewrite Hhi, Hlo. reflexivity.
Qed.

Lemma X22_sig_connect_sends_table_positions_witness :
  sig_connect (SigSignal true "/io/d3") (SigSignal true "/uart1/tx")
    (mkScaffold (connected_bus [] (1 :: []) [] 0) None []
                mtxl_in_init mtxl_out_init mtxr_in_init mtxr_out_init)
  = (Return tt,
     mkScaffold
       (connected_bus ([] ++ [[1; 0xf1; Z.of_nat 9; Z.of_nat 7]]) [] [] 0)
       None [] mtxl_in_init mtxl_out_init mtxr_in_init mtxr_out_init).
Proof.
  apply (proj1 (X22_sig_connect_sends_table_positions
                  7 9 "/uart1/tx" "/io/d3" [] [] [] None []));
    reflexivity.
Defined.

(** ** The timeout setter and its stack *)

Lemma ScaffoldBus_set_timeout_cases (n : Z) (b : ScaffoldBus) :
  (exists e, ScaffoldBus_set_timeout n b = (Raise e, b))
  \/ (0 <= n <= 0xffffffff
      /\ exists s0 : Serial,
           ser b = Some s0
           /\ ScaffoldBus_set_timeout n b
              = (Return tt,
                 mkBus (Some (mkSerial (tx s0 ++ [8 :: be_bytes 4 n]) (rx s0)))
                       (lazy_writes b) (lazy_stack b))).
Proof.
  unfold ScaffoldBus_set_timeout.
  destruct (Z.ltb_spec n 0) as [Hneg | Hlo];
    [left; eexists; reflexivity |].
  destruct (Z.ltb_spec 4294967295 n) as [Hbig | Hhi];
    [left; eexists; reflexivity |].
  cbn [orb]. change (bytearray_append [] 8) with (Return [8]).
  rewrite (bind_Return _ _ _ _ _ (lift_pure_run _ _)).
  rewrite (to_bytes_ok n 4) by (change (2 ^ (8 * 4)) with 4294967296; lia).
  rewrite (bind_Return _ _ _ _ _ (lift_pure_run _ _)).
  unfold ser_write. destruct (ser b) as [s0 |] eqn:Hser.
  - right. split; [lia |]. exists s0. split; reflexivity.
  - left. eexists. reflexivity.
Qed.

(** The [timeout] setter, with the monad run. *)
Lemma timeout_set_run (value : pyvalue) (s : Scaffold) :
  timeout_set value s
  = match obind (div_by_unit value) int_of_float with
    | Return n =>
        match fst (ScaffoldBus_set_timeout n (bus s)) with
        | Return _ =>
            (Return tt,
             mkScaffold (snd (ScaffoldBus_set_timeout n (bus s))) (Some n)
                        (timeout_stack s)
                        (mtxl_in s) (mtxl_out s) (mtxr_in s) (mtxr_out s))
        | Raise e =>
            (Raise e,
             mkScaffold (snd (ScaffoldBus_set_timeout n (bus s)))
                        (cache_timeout s) (timeout_stack s)
                        (mtxl_in s) (mtxl_out s) (mtxr_in s) (mtxr_out s))
        | Blocked =>
            (Blocked,
             mkScaffold (snd (ScaffoldBus_set_timeout n (bus s)))
                        (cache_timeout s) (timeout_stack s)
                        (mtxl_in s) (mtxl_out s) (mtxr_in s) (mtxr_out s))
        | OutOfFuel =>
            (OutOfFuel,
             mkScaffold (snd (ScaffoldBus_set_timeout n (bus s)))
                        (cache_timeout s) (timeout_stack s)
                        (mtxl_in s) (mtxl_out s) (mtxr_in s) (mtxr_out s))
        end
    | Raise e => (Raise e, s)
    | Blocked => (Blocked, s)
    | OutOfFuel => (OutOfFuel, s)
    end.
Proof.
  unfold timeout_set, bind, lift_pure, with_bus, set_cache_timeout.
  destruct (div_by_unit value) as [x | e | |]; cbn [obind]; try reflexivity.
  destruct (int_of_float x) as [n | e | |]; try reflexivity.
  destruct (ScaffoldBus_set_timeout n (bus s)) as [[[] | e | |] b'];
    reflexivity.
Qed.

Lemma Scaffold_eta (s : Scaffold) :
  mkScaffold (bus s) (cache_timeout s) (timeout_stack s)
             (mtxl_in s) (mtxl_out s) (mtxr_in s) (mtxr_out s) = s.
Proof. destruct s. reflexivity. Qed.

(** X23: the [timeout] setter does all or nothing. Either it fails and
    leaves the board object as it was (cached timeout, stack, tables, bus
    and transport: nothing was sent), or it returns, and then the number of
    units [n = int(value / UNIT)] lies in 0..0xffffffff, exactly one
    datagram, [08] followed by the four big-endian bytes of [n], was handed
    to the transport, no byte of the board was consumed, and the cached
    timeout is that same [n]. *)
Theorem X23_timeout_setter_all_or_nothing (value : pyvalue) (s : Scaffold) :
  (exists e, timeout_set value s = (Raise e, s))
  \/ (exists n : Z,
        obind (div_by_unit value) int_of_float = Return n
        /\ 0 <= n <= 0xffffffff
        /\ fst (timeout_set value s) = Return tt
        /\ cache_timeout (snd (timeout_set value s)) = Some n
        /\ timeout_stack (snd (timeout_set value s)) = timeout_stack s
        /\ sent (bus (snd (timeout_set value s)))
           = sent (bus s) ++ [8 :: be_bytes 4 n]
        /\ pending (bus (snd (timeout_set value s))) = pending (bus s)
        /\ lazy_stack (bus (snd (timeout_set value s))) = lazy_stack (bus s)).
Proof.
  rewrite timeout_set_run.
  destruct (obind (div_by_unit value) int_of_float) as [n | e | |] eqn:Hn.
  - destruct (ScaffoldBus_set_timeout_cases n (bus s))
      as [[e He] | (Hrange & s0 & Hser & Hrun)].
    + left. exists e. rewrite He. cbn [fst snd].
      rewrite Scaffold_eta. reflexivity.
    + right. exists n. rewrite Hrun. cbn [fst snd bus cache_timeout timeout_stack].
      unfold sent, pending. cbn [ser tx rx lazy_stack]. rewrite Hser.
      repeat split; try reflexivity; lia.
  - left. exists e. reflexivity.
  - exfalso. destruct (div_by_unit value) as [x | |  |] eqn:Hd;
      cbn [obind] in Hn; try discriminate Hn.
    + destruct x; discriminate Hn.
    + destruct value as [k | x | e]; cbn [div_by_unit] in Hd;
        [destruct (float_of_int k) |  |]; discriminate Hd.
  - exfalso. destruct (div_by_unit value) as [x | |  |] eqn:Hd;
      cbn [obind] in Hn; try discriminate Hn.
    + destruct x; discriminate Hn.
    + destruct value as [k | x | e]; cbn [div_by_unit] in Hd;
        [destruct (float_of_int k) |  |]; discriminate Hd.
Qed.

Lemma timeout_set_keeps_stack (value : pyvalue) (s : Scaffold) :
  timeout_stack (snd (timeout_set value s)) = timeout_stack s.
Proof.
  rewrite timeout_set_run.
  destruct (obind (div_by_unit value) int_of_float) as [n | e | |];
    try reflexivity.
  destruct (fst (ScaffoldBus_set_timeout n (bus s))); reflexivity.
Qed.

Lemma timeout_stack_pop_run (s : Scaffold) (below : list pyvalue)
    (top : pyvalue) :
  timeout_stack s = below ++ [top] ->
  timeout_stack_pop s
  = (Return top,
     mkScaffold (bus s) (cache_timeout s) below
                (mtxl_in s) (mtxl_out s) (mtxr_in s) (mtxr_out s)).
Proof.
  intros Hst. unfold timeout_stack_pop.
  rewrite (bind_Return _ _ _ _ _ (get_state_run _)).
  rewrite Hst, rev_app_distr. cbn [rev app].
  unfold bind, set_timeout_stack, ret. rewrite rev_involutive. reflexivity.
Qed.

Lemma pop_timeout_run (s : Scaffold) (below : list pyvalue) (top : pyvalue) :
  timeout_stack s = below ++ [top] ->
  pop_timeout s
  = timeout_set top
      (mkScaffold (bus s) (cache_timeout s) below
                  (mtxl_in s) (mtxl_out s) (mtxr_in s) (mtxr_out s)).
Proof.
  intros Hst. unfold pop_timeout.
  rewrite (bind_Return _ _ _ _ _ (get_state_run _)).
  rewrite Hst, length_app. cbn [length].
  destruct (Z.eqb_spec (Z.of_nat (length below + 1)) 0) as [E | _]; [lia |].
  apply bind_Return. apply timeout_stack_pop_run. exact Hst.
Qed.

(** X24: the discipline of the timeout stack. [push_timeout] appends what
    the [timeout] getter hands back before it sets the new value, so the
    entry is on the stack even when the setter then fails. [pop_timeout] on
    a stack whose last entry is [top] removes that entry and then behaves as
    the [timeout] setter given [top], so the entry is gone even when that
    setter fails; on an empty stack it fails with [RuntimeError] and changes
    nothing. Hence a [pop_timeout] after a [push_timeout] always leaves the
    stack as it was before the push, whatever either call did. *)
Theorem X24_timeout_stack_discipline (value : pyvalue) (s : Scaffold) :
  timeout_stack (snd (push_timeout value s))
  = timeout_stack s ++ [timeout_get s]
  /\ (forall (below : list pyvalue) (top : pyvalue),
        timeout_stack s = below ++ [top] ->
        pop_timeout s
        = timeout_set top
            (mkScaffold (bus s) (cache_timeout s) below
                        (mtxl_in s) (mtxl_out s) (mtxr_in s) (mtxr_out s))
        /\ timeout_stack (snd (pop_timeout s)) = below)
  /\ (timeout_stack s = [] ->
      pop_timeout s
      = (Raise (RuntimeError "Timeout setting stack is empty"), s))
  /\ timeout_stack (snd (pop_timeout (snd (push_timeout value s))))
     = timeout_stack s.
Proof.
  split; [apply push_timeout_saves |].
  split; [| split; [apply pop_timeout_empty |]].
  - intros below top Hst. rewrite (pop_timeout_run s below top Hst).
    split; [reflexivity |]. rewrite timeout_set_keeps_stack. reflexivity.
  - rewrite (pop_timeout_run _ _ _ (push_timeout_saves value s)).
    rewrite timeout_set_keeps_stack. reflexivity.
Qed.

(** ** The LEDs module *)

(** X25: the instance dictionary that [LEDs.__init__] leaves. The list of
    LED names holds ['b1'] twice and no ['a1'], and an attribute bound twice
    keeps the last object: the module has no attribute [a1], its attribute
    [b1] is the LED of bit index 9, and no attribute is the LED of bit index
    7 (the second LED of the list); each other bit index from 6 to 17 has
    its attribute. No LED name collides with a register attribute, so
    the construction itself never fails. *)
Theorem X25_leds_attribute_table :
  exists d : list (string * attr),
    LEDs_init = Return d
    /\ dict_get "a1" d = None
    /\ dict_get "b1" d = Some (AttrLED 9)
    /\ (forall name : string, dict_get name d <> Some (AttrLED 7))
    /\ (forall i : Z, 6 <= i < 18 -> i <> 7 ->
          exists name : string,
            In name LEDs_leds /\ dict_get name d = Some (AttrLED i))
    /\ (forall name : string, In name LEDs_leds ->
          exists i : Z, 6 <= i < 18 /\ dict_get name d = Some (AttrLED i)).
Proof.
  eexists. split; [vm_compute; reflexivity |].
  split; [reflexivity |]. split; [reflexivity |]. split; [| split].
  - intros name. cbn [dict_get].
    repeat match goal with
           | |- context [if String.eqb ?a ?b then _ else _] =>
               destruct (String.eqb a b)
           end; discriminate.
  - intros i Hi Hne.
    assert (Hcases : i = 6 \/ i = 8 \/ i = 9 \/ i = 10 \/ i = 11 \/ i = 12
                     \/ i = 13 \/ i = 14 \/ i = 15 \/ i = 16 \/ i = 17) by lia.
    destruct Hcases
      as [-> | [-> | [-> | [-> | [-> | [-> | [-> | [-> | [-> | [-> | ->]]]]]]]]]].
    + exists "a0". split; [cbn; tauto | reflexivity].
    + exists "b0". split; [cbn; tauto | reflexivity].
    + exists "b1". split; [cbn; tauto | reflexivity].
    + exists "c0". split; [cbn; tauto | reflexivity].
    + exists "c1". split; [cbn; tauto | reflexivity].
    + exists "d0". split; [cbn; tauto | reflexivity].
    + exists "d1". split; [cbn; tauto | reflexivity].
    + exists "d2". split; [cbn; tauto | reflexivity].
    + exists "d3". split; [cbn; tauto | reflexivity].
    + exists "d4". split; [cbn; tauto | reflexivity].
    + exists "d5". split; [cbn; tauto | reflexivity].
  - intros name Hin. cbn [In LEDs_leds] in Hin.
    repeat (destruct Hin as [<- | Hin];
            [eexists; split; [| reflexivity]; lia |]).
    contradiction.
Qed.

Lemma bound_from_bits (n y : Z) :
  0 <= n -> 0 <= y -> (forall j, n <= j -> Z.testbit y j = false) ->
  y < 2 ^ n.
Proof.
  intros Hn Hy Hhigh.
  assert (E : y mod 2 ^ n = y).
  { apply Z.bits_inj'. intros k Hk.
    destruct (Z.lt_ge_cases k n) as [Hlt | Hge].
    - apply Z.mod_pow2_bits_low. lia.
    - rewrite Z.mod_pow2_bits_high by lia. symmetry. apply Hhigh. exact Hge. }
  assert (Hpos : 0 < 2 ^ n) by (apply Z.pow_pos_nonneg; lia).
  pose proof (Z.mod_pos_bound y (2 ^ n) Hpos) as Hb.
  rewrite E in Hb. lia.
Qed.

Lemma bits_above_bound (n x j : Z) :
  0 <= n -> 0 <= x < 2 ^ n -> n <= j -> Z.testbit x j = false.
Proof.
  intros Hn Hx Hj. destruct (Z.eq_dec x 0) as [-> | Hne]; [apply Z.bits_0 |].
  apply Z.bits_above_log2; [lia |].
  assert (Z.log2 x < n) by (apply Z.log2_lt_pow2; lia). lia.
Qed.

(** The value [set_mask(v << i, 1 << i)] computes from [cur]. *)
Lemma mode_mask_bits (cur : Z) (v : bool) (i j : Z) :
  0 <= i -> 0 <= j ->
  Z.testbit (Z.lor (Z.land cur (Z.lnot (Z.shiftl 1 i)))
                   (Z.land (Z.shiftl (if v then 1 else 0) i) (Z.shiftl 1 i))) j
  = if j =? i then v else Z.testbit cur j.
Proof.
  intros Hi Hj. rewrite merge_mask_bits by exact Hj.
  rewrite (shifted_bit true i j Hi Hj), (shifted_bit v i j Hi Hj).
  cbn [andb]. destruct (j =? i), v; reflexivity.
Qed.

(** X26: the [mode] setter of a LED works on the three-byte, write-only
    mode register (0x0205) of the LEDs module. A value other than 0 and 1
    is refused with [ValueError] by the [LEDMode] conversion before anything
    else. While the register has no cached value (it is write-only: nothing
    can be read back), the setter fails with the [RuntimeError] "Register
    cannot be read" and sends nothing. With the value [cur] cached, outside
    lazy sections and acknowledged by the board, it sends one write datagram
    [03 02 05 03] followed by the three big-endian bytes of [y], where bit
    [index] of [y] is the mode given and the other bits are those of [cur],
    and caches [y]; the getter then returns the mode set without touching
    the bus. *)
Theorem X26_led_mode_setter (index value cur : Z)
    (t : list (list Z)) (rest q : list Z) :
  exists r : Register,
    LEDs_reg_mode = Return r
    /\ (value <> 0 -> value <> 1 ->
        forall (c : option Z) (b : ScaffoldBus),
          LED_mode_set index value (set_cache r c, b)
          = (Raise (ValueError (str_of_Z value ++ " is not a valid LEDMode")),
             (set_cache r c, b)))
    /\ (value = 0 \/ value = 1 -> 0 <= index ->
        forall b : ScaffoldBus,
          LED_mode_set index value (r, b)
          = (Raise (RuntimeError "Register cannot be read"), (r, b)))
    /\ (value = 0 \/ value = 1 -> 0 <= index < 24 -> 0 <= cur < 2 ^ 24 ->
        exists y : Z,
          0 <= y < 2 ^ 24
          /\ (forall j, 0 <= j ->
                Z.testbit y j
                = if j =? index then (value =? 1) else Z.testbit cur j)
          /\ LED_mode_set index value
               (set_cache r (Some cur), connected_bus t (3 :: rest) q 0)
             = (Return tt,
                (set_cache r (Some y),
                 connected_bus (t ++ [[3; 2; 5; 3] ++ be_bytes 3 y]) rest q 0))
          /\ LED_mode_get index
               (set_cache r (Some y),
                connected_bus (t ++ [[3; 2; 5; 3] ++ be_bytes 3 y]) rest q 0)
             = (Return value,
                (set_cache r (Some y),
                 connected_bus (t ++ [[3; 2; 5; 3] ++ be_bytes 3 y])
                               rest q 0))).
Proof.
  exists (mkRegister 0x0205 true false false 3 0 (2 ^ 24 - 1) None).
  split; [reflexivity |]. split; [| split].
  - intros H0 H1 c b. unfold LED_mode_set, LEDMode_value.
    rewrite (proj2 (Z.eqb_neq value 0) H0), (proj2 (Z.eqb_neq value 1) H1).
    reflexivity.
  - intros Hv Hi b. unfold LED_mode_set, LEDMode_value.
    assert (E : (value =? 0) || (value =? 1) = true)
      by (destruct Hv as [-> | ->]; reflexivity).
    rewrite E. rewrite (bind_Return _ _ _ _ _ (lift_pure_run _ _)).
    unfold py_shl. rewrite (proj2 (Z.ltb_ge index 0) Hi).
    unfold bind at 1, ret at 1. unfold bind at 1, ret at 1.
    unfold Register_set_mask. apply bind_Raise.
    rewrite Register_get_run. reflexivity.
  - intros Hv Hi Hcur.
    set (v := value =? 1).
    assert (Ev : value = if v then 1 else 0)
      by (destruct Hv as [-> | ->]; reflexivity).
    set (y := Z.lor (Z.land cur (Z.lnot (Z.shiftl 1 index)))
                    (Z.land (Z.shiftl (if v then 1 else 0) index)
                            (Z.shiftl 1 index))).
    assert (Hbits : forall j, 0 <= j ->
              Z.testbit y j = if j =? index then v else Z.testbit cur j).
    { intros j Hj. apply mode_mask_bits; lia. }
    assert (Hnn : 0 <= y).
    { apply Z.lor_nonneg. split; apply Z.land_nonneg; left; [lia |].
      apply Z.shiftl_nonneg. destruct v; lia. }
    assert (Hy : 0 <= y < 2 ^ 24).
    { split; [exact Hnn |]. apply bound_from_bits; [lia | exact Hnn |].
      intros j Hj. rewrite Hbits by lia.
      destruct (Z.eqb_spec j index); [lia |].
      apply (bits_above_bound 24); [lia | exact Hcur | exact Hj]. }
    exists y. split; [exact Hy |]. split; [exact Hbits |].
    set (r := mkRegister 0x0205 true false false 3 0 (2 ^ 24 - 1) None).
    assert (Hset :
      LED_mode_set index value
        (set_cache r (Some cur), connected_bus t (3 :: rest) q 0)
      = (Return tt,
         (set_cache r (Some y),
          connected_bus (t ++ [[3; 2; 5; 3] ++ be_bytes 3 y]) rest q 0))).
    { unfold LED_mode_set, LEDMode_value.
      assert (E : (value =? 0) || (value =? 1) = true)
        by (destruct Hv as [-> | ->]; reflexivity).
      rewrite E. rewrite (bind_Return _ _ _ _ _ (lift_pure_run _ _)).
      unfold py_shl. rewrite (proj2 (Z.ltb_ge index 0)) by lia.
      unfold bind at 1, ret at 1. unfold bind at 1, ret at 1.
      unfold Register_set_mask.
      rewrite (bind_Return _ _ _ _ _
                 (Register_get_cached (set_cache r (Some cur)) cur _
                    eq_refl eq_refl)).
      rewrite Ev at 1. fold y.
      pose proof (Register_set_acked (set_cache r (Some cur)) y t rest q
                    eq_refl eq_refl) as Hacked.
      change (reg_wideness (set_cache r (Some cur))) with 3 in Hacked.
      change (reg_min_value (set_cache r (Some cur))) with 0 in Hacked.
      change (reg_max_value (set_cache r (Some cur))) with (2 ^ 24 - 1)
        in Hacked.
      rewrite Hacked by lia.
      unfold spec_write_datagram, spec_header, spec_command.
      change (len (be_bytes (Z.to_nat 3) y)) with 3.
      reflexivity. }
    split; [exact Hset |].
    unfold LED_mode_get.
    rewrite (bind_Return _ _ _ _ _
               (Register_get_cached (set_cache r (Some y)) y _
                  eq_refl eq_refl)).
    unfold py_shr. rewrite (proj2 (Z.ltb_ge index 0)) by lia.
    unfold bind at 1, ret at 1.
    rewrite (shifted_low_bit y index) by lia.
    rewrite Hbits, Z.eqb_refl by lia.
    rewrite Ev. destruct v; reflexivity.
Qed.

Lemma X26_led_mode_setter_witness :
  exists r : Register,
    LEDs_reg_mode = Return r
    /\ exists y : Z,
         0 <= y < 2 ^ 24
         /\ Z.testbit y 9 = true
         /\ LED_mode_set 9 1
              (set_cache r (Some 0), connected_bus [] (3 :: []) [] 0)
            = (Return tt,
               (set_cache r (Some y),
                connected_bus ([] ++ [[3; 2; 5; 3] ++ be_bytes 3 y]) [] [] 0)).
Proof.
  destruct (X26_led_mode_setter 9 1 0 [] [] []) as (r & Hr & _ & _ & Hset).
  exists r. split; [exact Hr |].
  destruct (Hset (or_intror eq_refl) ltac:(lia) ltac:(lia))
    as (y & Hy & Hbits & Hrun & _).
  exists y. split; [exact Hy |]. split; [| exact Hrun].
  apply (Hbits 9). lia.
Defined.

(** ** Polled transfers of the peripherals *)

Lemma Register_write_run (data : data_arg) (poll : poll_arg)
    (poll_mask poll_value : Z) (r : Register) (b b' : ScaffoldBus)
    (o : outcome unit) :
  reg_w r = true ->
  ScaffoldBus_write (reg_address r) data poll poll_mask poll_value b = (o, b') ->
  Register_write data poll poll_mask poll_value (r, b) = (o, (r, b')).
Proof.
  intros Hw Hrun. unfold Register_write.
  rewrite (bind_Return _ _ _ _ _ (get_state_run _)). cbn [fst].
  rewrite Hw. cbn [negb]. apply on_bus_run. exact Hrun.
Qed.

Lemma ScaffoldBus_write_acked (addr : Z) (l : list Z) (poll : poll_arg)
    (poll_mask poll_value : Z) (t : list (list Z)) (r q : list Z) :
  in_range 0 65536 addr = true ->
  valid_poll poll poll_mask poll_value = true ->
  ScaffoldBus_write addr (DataBytes l) poll poll_mask poll_value
                    (connected_bus t (map len (chunks l) ++ r) q 0)
  = (Return tt,
     connected_bus
       (t ++ map (spec_write_datagram addr poll poll_mask poll_value)
                 (chunks l))
       r q 0).
Proof.
  intros Haddr Hpoll.
  rewrite (ScaffoldBus_write_bytes _ _ _ _ _
             (connected_bus t (map len (chunks l) ++ r) q 0)
             (mkSerial t (map len (chunks l) ++ r)) eq_refl).
  apply (write_loop_acked addr l poll poll_mask poll_value Haddr Hpoll
           (length l) 0 t r q); [lia | cbn [Z.to_nat skipn]; lia].
Qed.

Lemma ScaffoldBus_write_int_polled (addr i : Z) (poll : poll_arg)
    (poll_mask poll_value : Z) (t : list (list Z)) (r q : list Z) :
  in_range 0 65536 addr = true ->
  valid_poll poll poll_mask poll_value = true ->
  in_range 0 256 i = true ->
  ScaffoldBus_write addr (DataInt i) poll poll_mask poll_value
                    (connected_bus t (1 :: r) q 0)
  = (Return tt,
     connected_bus (t ++ [spec_write_datagram addr poll poll_mask poll_value [i]])
                   r q 0).
Proof.
  intros Haddr Hpoll Hi. unfold ScaffoldBus_write.
  rewrite (bind_Return _ _ _ _ _ (get_state_run _)).
  cbn [connected_bus ser data_bytes]. rewrite Hi.
  rewrite (bind_Return _ _ _ _ _ (lift_pure_run _ _)).
  exact (write_loop_acked addr [i] poll poll_mask poll_value Haddr Hpoll
           1 0 t r q (Z.le_refl 0) (le_n 1)).
Qed.

Lemma ScaffoldBus_read_all (addr : Z) (poll : poll_arg)
    (poll_mask poll_value : Z) (data : list Z)
    (t : list (list Z)) (r q : list Z) :
  in_range 0 65536 addr = true ->
  valid_poll poll poll_mask poll_value = true ->
  ScaffoldBus_read addr (len data) poll poll_mask poll_value
    (connected_bus t
       (concat (map (fun c => c ++ [len c]) (chunks data)) ++ r) q 0)
  = (Return data,
     connected_bus
       (t ++ map (fun c => spec_read_datagram addr poll poll_mask poll_value
                             (len c))
                 (chunks data))
       r q 0).
Proof.
  intros Haddr Hpoll. rewrite ScaffoldBus_read_connected.
  rewrite (read_loop_all addr poll poll_mask poll_value Haddr Hpoll).
  - reflexivity.
  - unfold len. lia.
Qed.

(** X27: the data path of the ISO7816 module, with the datagrams byte by
    byte. [transmit] is a polled write to the data register 0x0505: one
    write datagram per chunk of at most 255 bytes, each made of the command
    byte 5 (7 when the chunk has more than one byte), the address [05 05],
    the address [05 00] of the status register, the mask 1 and the expected
    value 1 (wait until ready), the size when it exceeds 1, and the chunk.
    [receive] is a polled read of that register: one read datagram per
    chunk, each made of the command byte 4 (6 for more than one byte), the
    address [05 05], the address [05 00] of the status register, the mask 4
    and the expected value 0 (wait until not empty), and the size when it
    exceeds 1; answered in full, it returns the bytes in order. [flush] is a
    raw write of the byte 1 to the control register 0x0501, without poll: it
    works whatever the cache of that write-only register holds and leaves it
    as it was. *)
Theorem X27_iso7816_data_path (data : list Z) (c : option Z)
    (t : list (list Z)) (rest q : list Z) :
  exists status control dreg : Register,
    ISO7816_reg_status = Return status
    /\ ISO7816_reg_control = Return control
    /\ ISO7816_reg_data = Return dreg
    /\ ISO7816_transmit status data
         (dreg, connected_bus t (map len (chunks data) ++ rest) q 0)
       = (Return tt,
          (dreg,
           connected_bus
             (t ++ map (fun k => [if 1 <? len k then 7 else 5;
                                  5; 5; 5; 0; 1; 1]
                                 ++ (if 1 <? len k then [len k] else [])
                                 ++ k)
                       (chunks data))
             rest q 0))
    /\ ISO7816_receive status (len data)
         (dreg,
          connected_bus t
            (concat (map (fun k => k ++ [len k]) (chunks data)) ++ rest) q 0)
       = (Return data,
          (dreg,
           connected_bus
             (t ++ map (fun k => [if 1 <? len k then 6 else 4;
                                  5; 5; 5; 0; 4; 0]
                                 ++ (if 1 <? len k then [len k] else []))
                       (chunks data))
             rest q 0))
    /\ ISO7816_flush
         (mkRegister 0x0501 true false false 1 0 255 c,
          connected_bus t (1 :: rest) q 0)
       = (Return tt,
          (mkRegister 0x0501 true false false 1 0 255 c,
           connected_bus (t ++ [[1; 5; 1; 1]]) rest q 0))
    /\ control = mkRegister 0x0501 true false false 1 0 255 None.
Proof.
  exists (mkRegister 0x0500 false true true 1 0 255 None),
         (mkRegister 0x0501 true false false 1 0 255 None),
         (mkRegister 0x0505 true true true 1 0 255 None).
  split; [reflexivity |]. split; [reflexivity |]. split; [reflexivity |].
  split; [| split; [| split; [| reflexivity]]].
  - unfold ISO7816_transmit. apply Register_write_run; [reflexivity |].
    cbn [reg_address].
    etransitivity;
      [exact (ScaffoldBus_write_acked 0x0505 data
                (PollReg (mkRegister 0x0500 false true true 1 0 255 None))
                1 1 t rest q eq_refl eq_refl) |].
    do 3 f_equal. apply map_ext. intros k.
    unfold spec_write_datagram, spec_header, spec_command.
    cbn [poll_address reg_address app].
    destruct (1 <? len k); reflexivity.
  - unfold ISO7816_receive. apply Register_read_run; [reflexivity |].
    cbn [reg_address].
    etransitivity;
      [exact (ScaffoldBus_read_all 0x0505
                (PollReg (mkRegister 0x0500 false true true 1 0 255 None))
                4 0 data t rest q eq_refl eq_refl) |].
    do 3 f_equal. apply map_ext. intros k.
    unfold spec_read_datagram, spec_header, spec_command.
    cbn [poll_address reg_address app].
    destruct (1 <? len k); reflexivity.
  - unfold ISO7816_flush. apply Register_write_run; [reflexivity |].
    cbn [reg_address].
    exact (ScaffoldBus_write_int 0x0501 1 t rest q eq_refl eq_refl).
Qed.

Lemma X27_iso7816_data_path_witness :
  exists status control dreg : Register,
    ISO7816_reg_status = Return status
    /\ ISO7816_reg_control = Return control
    /\ ISO7816_reg_data = Return dreg
    /\ ISO7816_transmit status [0x3b; 0x95]
         (dreg, connected_bus [] [2] [] 0)
       = (Return tt,
          (dreg,
           connected_bus [[7; 5; 5; 5; 0; 1; 1; 2; 0x3b; 0x95]] [] [] 0))
    /\ ISO7816_receive status 1 (dreg, connected_bus [] [0x3b; 1] [] 0)
       = (Return [0x3b],
          (dreg, connected_bus [[4; 5; 5; 5; 0; 4; 0]] [] [] 0)).
Proof.
  destruct (X27_iso7816_data_path [0x3b; 0x95] None [] [] [])
    as (status & control & dreg & Hs & Hc & Hd & Htx & _).
  destruct (X27_iso7816_data_path [0x3b] None [] [] [])
    as (status' & control' & dreg' & Hs' & Hc' & Hd' & _ & Hrx & _).
  exists status, control, dreg.
  split; [exact Hs |]. split; [exact Hc |]. split; [exact Hd |].
  split; [exact Htx |].
  rewrite Hs in Hs'. injection Hs' as <-.
  rewrite Hd in Hd'. injection Hd' as <-.
  exact Hrx.
Defined.

(** ** UART *)

Lemma on_reg_data_run {A} (c : M RegState A) (u : UART) (b b' : ScaffoldBus)
    (r' : Register) (o : outcome A) :
  c (uart_reg_data u, b) = (o, (r', b')) ->
  on_reg_data c (u, b)
  = (o, (mkUART (uart_reg_status u) (uart_reg_control u) (uart_reg_config u)
                (uart_reg_divisor u) r', b')).
Proof. intros H. unfold on_reg_data. cbn [fst snd]. rewrite H. reflexivity. Qed.

Lemma on_reg_config_run {A} (c : M RegState A) (u : UART)
    (b b' : ScaffoldBus) (r' : Register) (o : outcome A) :
  c (uart_reg_config u, b) = (o, (r', b')) ->
  on_reg_config c (u, b)
  = (o, (mkUART (uart_reg_status u) (uart_reg_control u) r'
                (uart_reg_divisor u) (uart_reg_data u), b')).
Proof. intros H. unfold on_reg_config. cbn [fst snd]. rewrite H. reflexivity. Qed.

Lemma lor_byte (x y : Z) : 0 <= x < 256 -> 0 <= y < 256 -> 0 <= Z.lor x y < 256.
Proof.
  intros Hx Hy.
  assert (Hnn : 0 <= Z.lor x y) by (apply Z.lor_nonneg; lia).
  split; [exact Hnn |]. apply byte_from_bits; [exact Hnn |].
  intros j Hj. rewrite Z.lor_spec.
  rewrite (byte_high_bits x j Hx Hj), (byte_high_bits y j Hy Hj). reflexivity.
Qed.

(** X28: [UART.transmit] on the UART of index [index] (registers at
    [0x0400 + 0x10 * index]), outside lazy sections and with every datagram
    acknowledged. Without trigger, the data goes to the data register in
    polled write datagrams (status register, mask 1, value 1), one per
    chunk of at most 255 bytes. With trigger and the configuration byte [c]
    cached, all bytes but the last are sent that way, then the configuration
    register receives [c | 8] (polled), the last byte is sent without poll,
    and the configuration register receives [c] again (polled); these raw
    writes leave every cache, that of the configuration included, as it
    was. With trigger on a module whose configuration register was never
    set, the bytes before the last are sent and the call then fails with
    the [RuntimeError] "Register cannot be read": that register is
    write-only, so its value can only come from the cache. *)
Theorem X28_uart_transmit (index : Z) (data body : list Z) (last c : Z)
    (t : list (list Z)) (rest q : list Z) :
  0 <= index < 16 -> 0 <= last < 256 -> 0 <= c < 256 ->
  exists u : UART,
    UART_init index = Return u
    /\ reg_address (uart_reg_status u) = 0x0400 + 0x0010 * index
    /\ reg_address (uart_reg_config u) = 0x0400 + 0x0010 * index + 2
    /\ reg_address (uart_reg_data u) = 0x0400 + 0x0010 * index + 4
    /\ UART_transmit data false
         (u, connected_bus t (map len (chunks data) ++ rest) q 0)
       = (Return tt,
          (u,
           connected_bus
             (t ++ map (spec_write_datagram
                          (0x0400 + 0x0010 * index + 4)
                          (PollAddr (0x0400 + 0x0010 * index)) 1 1)
                       (chunks data))
             rest q 0))
    /\ UART_transmit (body ++ [last]) true
         (mkUART (uart_reg_status u) (uart_reg_control u)
                 (set_cache (uart_reg_config u) (Some c))
                 (uart_reg_divisor u) (uart_reg_data u),
          connected_bus t (map len (chunks body) ++ 1 :: 1 :: 1 :: rest) q 0)
       = (Return tt,
          (mkUART (uart_reg_status u) (uart_reg_control u)
                  (set_cache (uart_reg_config u) (Some c))
                  (uart_reg_divisor u) (uart_reg_data u),
           connected_bus
             (t ++ map (spec_write_datagram
                          (0x0400 + 0x0010 * index + 4)
                          (PollAddr (0x0400 + 0x0010 * index)) 1 1)
                       (chunks body)
                ++ [spec_write_datagram
                      (0x0400 + 0x0010 * index + 2)
                      (PollAddr (0x0400 + 0x0010 * index)) 1 1
                      [Z.lor c 8];
                    spec_write_datagram
                      (0x0400 + 0x0010 * index + 4) PollNone 255 0 [last];
                    spec_write_datagram
                      (0x0400 + 0x0010 * index + 2)
                      (PollAddr (0x0400 + 0x0010 * index)) 1 1 [c]])
             rest q 0))
    /\ UART_transmit (body ++ [last]) true
         (u, connected_bus t (map len (chunks body) ++ rest) q 0)
       = (Raise (RuntimeError "Register cannot be read"),
          (u,
           connected_bus
             (t ++ map (spec_write_datagram
                          (0x0400 + 0x0010 * index + 4)
                          (PollAddr (0x0400 + 0x0010 * index)) 1 1)
                       (chunks body))
             rest q 0)).
Proof.
  intros Hidx Hlast Hc.
  set (base := 0x0400 + 0x0010 * index).
  assert (Ha0 : in_range 0 65536 base = true)
    by (apply in_range_true; unfold base; lia).
  assert (Ha1 : in_range 0 65536 (base + 1) = true)
    by (apply in_range_true; unfold base; lia).
  assert (Ha2 : in_range 0 65536 (base + 2) = true)
    by (apply in_range_true; unfold base; lia).
  assert (Ha3 : in_range 0 65536 (base + 3) = true)
    by (apply in_range_true; unfold base; lia).
  assert (Ha4 : in_range 0 65536 (base + 4) = true)
    by (apply in_range_true; unfold base; lia).
  assert (Hdiv : Register_init "w" (base + 3) 2 (Some 1) None
                 = Return (mkRegister (base + 3) true false false 2 1 65535 None)).
  { unfold Register_init. rewrite Ha3. reflexivity. }
  set (status := mkRegister base false true true 1 0 255 None).
  set (control := mkRegister (base + 1) true false false 1 0 255 None).
  set (config := mkRegister (base + 2) true false false 1 0 255 None).
  set (divisor := mkRegister (base + 3) true false false 2 1 65535 None).
  set (dreg := mkRegister (base + 4) true true true 1 0 255 None).
  assert (Hpoll : valid_poll (PollReg status) 1 1 = true).
  { unfold valid_poll. cbn [poll_address status reg_address].
    rewrite Ha0. reflexivity. }
  assert (Hlast' : in_range 0 256 last = true) by (apply in_range_true; lia).
  assert (Hc' : in_range 0 256 c = true) by (apply in_range_true; lia).
  exists (mkUART status control config divisor dreg).
  split.
  { unfold UART_init. fold base.
    rewrite (Register_init_byte "rv" _ Ha0). cbn [obind].
    rewrite (Register_init_byte "w" _ Ha1). cbn [obind].
    rewrite (Register_init_byte "w" _ Ha2). cbn [obind].
    rewrite Hdiv. cbn [obind].
    rewrite (Register_init_byte "rwv" _ Ha4). reflexivity. }
  cbn [uart_reg_status uart_reg_control uart_reg_config uart_reg_divisor
       uart_reg_data].
  split; [reflexivity |]. split; [reflexivity |]. split; [reflexivity |].
  assert (Hbody : forall (l : list Z) (u : UART) (r : list Z),
            uart_reg_data u = dreg ->
            on_reg_data
              (Register_write (DataBytes l) (PollReg status) 1 1)
              (u, connected_bus t (map len (chunks l) ++ r) q 0)
            = (Return tt,
               (mkUART (uart_reg_status u) (uart_reg_control u)
                       (uart_reg_config u) (uart_reg_divisor u) dreg,
                connected_bus
                  (t ++ map (spec_write_datagram (base + 4) (PollAddr base) 1 1)
                            (chunks l))
                  r q 0))).
  { intros l u r Hu. apply on_reg_data_run. rewrite Hu.
    apply Register_write_run; [reflexivity |].
    exact (ScaffoldBus_write_acked (base + 4) l (PollReg status) 1 1 t r q
             Ha4 Hpoll). }
  split; [| split].
  - unfold UART_transmit.
    rewrite (bind_Return _ _ _ _ _ (get_state_run _)).
    cbv beta iota. cbn [fst uart_reg_status].
    rewrite (bind_Return _ _ _ _ _
               (Hbody data (mkUART status control config divisor dreg) rest
                      eq_refl)).
    reflexivity.
  - unfold UART_transmit.
    rewrite (bind_Return _ _ _ _ _ (get_state_run _)).
    cbv beta iota. cbn [fst uart_reg_status].
    rewrite slice_to_minus1.
    rewrite (bind_Return _ _ _ _ _
               (Hbody body
                  (mkUART status control (set_cache config (Some c)) divisor
                          dreg)
                  (1 :: 1 :: 1 :: rest) eq_refl)).
    cbn [uart_reg_status uart_reg_control uart_reg_config uart_reg_divisor].
    set (tb := t ++ map (spec_write_datagram (base + 4) (PollAddr base) 1 1)
                        (chunks body)).
    set (cfg := set_cache config (Some c)).
    assert (Hget :
      on_reg_config Register_get
        (mkUART status control cfg divisor dreg,
         connected_bus tb (1 :: 1 :: 1 :: rest) q 0)
      = (Return c,
         (mkUART status control cfg divisor dreg,
          connected_bus tb (1 :: 1 :: 1 :: rest) q 0))).
    { apply (on_reg_config_run Register_get
               (mkUART status control cfg divisor dreg)).
      apply Register_get_cached; reflexivity. }
    rewrite (bind_Return _ _ _ _ _ Hget).
    assert (Hlor : in_range 0 256 (Z.lor c (Z.shiftl 1 UART_REG_CONFIG_BIT_TRIGGER))
                   = true).
    { apply in_range_true.
      change (Z.shiftl 1 UART_REG_CONFIG_BIT_TRIGGER) with 8.
      apply lor_byte; lia. }
    assert (Hw1 :
      on_reg_config
        (Register_write
           (DataInt (Z.lor c (Z.shiftl 1 UART_REG_CONFIG_BIT_TRIGGER)))
           (PollReg status) 1 1)
        (mkUART status control cfg divisor dreg,
         connected_bus tb (1 :: 1 :: 1 :: rest) q 0)
      = (Return tt,
         (mkUART status control cfg divisor dreg,
          connected_bus
            (tb ++ [spec_write_datagram (base + 2) (PollAddr base) 1 1
                      [Z.lor c 8]])
            (1 :: 1 :: rest) q 0))).
    { apply (on_reg_config_run _ (mkUART status control cfg divisor dreg)).
      apply Register_write_run; [reflexivity |].
      exact (ScaffoldBus_write_int_polled (base + 2) _ (PollReg status) 1 1
               tb (1 :: 1 :: rest) q Ha2 Hpoll Hlor). }
    rewrite (bind_Return _ _ _ _ _ Hw1).
    rewrite last_byte_snoc.
    rewrite (bind_Return _ _ _ _ _ (lift_pure_run _ _)).
    assert (Hw2 :
      on_reg_data (Register_write (DataInt last) PollNone 255 0)
        (mkUART status control cfg divisor dreg,
         connected_bus
           (tb ++ [spec_write_datagram (base + 2) (PollAddr base) 1 1
                     [Z.lor c 8]])
           (1 :: 1 :: rest) q 0)
      = (Return tt,
         (mkUART status control cfg divisor dreg,
          connected_bus
            ((tb ++ [spec_write_datagram (base + 2) (PollAddr base) 1 1
                       [Z.lor c 8]])
             ++ [spec_write_datagram (base + 4) PollNone 255 0 [last]])
            (1 :: rest) q 0))).
    { apply (on_reg_data_run _ (mkUART status control cfg divisor dreg)).
      apply Register_write_run; [reflexivity |].
      exact (ScaffoldBus_write_int_polled (base + 4) last PollNone 255 0
               _ (1 :: rest) q Ha4 eq_refl
               Hlast'). }
    rewrite (bind_Return _ _ _ _ _ Hw2).
    assert (Hw3 :
      on_reg_config (Register_write (DataInt c) (PollReg status) 1 1)
        (mkUART status control cfg divisor dreg,
         connected_bus
           ((tb ++ [spec_write_datagram (base + 2) (PollAddr base) 1 1
                      [Z.lor c 8]])
            ++ [spec_write_datagram (base + 4) PollNone 255 0 [last]])
           (1 :: rest) q 0)
      = (Return tt,
         (mkUART status control cfg divisor dreg,
          connected_bus
            (((tb ++ [spec_write_datagram (base + 2) (PollAddr base) 1 1
                        [Z.lor c 8]])
              ++ [spec_write_datagram (base + 4) PollNone 255 0 [last]])
             ++ [spec_write_datagram (base + 2) (PollAddr base) 1 1 [c]])
            rest q 0))).
    { apply (on_reg_config_run _ (mkUART status control cfg divisor dreg)).
      apply Register_write_run; [reflexivity |].
      exact (ScaffoldBus_write_int_polled (base + 2) c (PollReg status) 1 1
               _ rest q Ha2 Hpoll Hc'). }
    rewrite Hw3. unfold tb. rewrite <- !app_assoc. reflexivity.
  - unfold UART_transmit.
    rewrite (bind_Return _ _ _ _ _ (get_state_run _)).
    cbv beta iota. cbn [fst uart_reg_status].
    rewrite slice_to_minus1.
    rewrite (bind_Return _ _ _ _ _
               (Hbody body (mkUART status control config divisor dreg) rest
                      eq_refl)).
    cbn [uart_reg_status uart_reg_control uart_reg_config uart_reg_divisor].
    apply bind_Raise.
    apply (on_reg_config_run Register_get
             (mkUART status control config divisor dreg)).
    rewrite Register_get_run. reflexivity.
Qed.

Lemma X28_uart_transmit_witness :
  exists u : UART,
    UART_init 1 = Return u
    /\ UART_transmit ([0x41] ++ [0x42]) true
         (mkUART (uart_reg_status u) (uart_reg_control u)
                 (set_cache (uart_reg_config u) (Some 0))
                 (uart_reg_divisor u) (uart_reg_data u),
          connected_bus [] [1; 1; 1; 1] [] 0)
       = (Return tt,
          (mkUART (uart_reg_status u) (uart_reg_control u)
                  (set_cache (uart_reg_config u) (Some 0))
                  (uart_reg_divisor u) (uart_reg_data u),
           connected_bus
             [[5; 4; 0x14; 4; 0x10; 1; 1; 0x41];
              [5; 4; 0x12; 4; 0x10; 1; 1; 8];
              [1; 4; 0x14; 0x42];
              [5; 4; 0x12; 4; 0x10; 1; 1; 0]]
             [] [] 0)).
Proof.
  destruct (X28_uart_transmit 1 [] [0x41] 0x42 0 [] [] []
              ltac:(lia) ltac:(lia) ltac:(lia))
    as (u & Hu & _ & _ & _ & _ & Htrig & _).
  exists u. split; [exact Hu | exact Htrig].
Defined.

Lemma be_bytes_one (y : Z) : 0 <= y < 256 -> be_bytes 1 y = [y].
Proof.
  intros Hy. cbn [be_bytes app]. rewrite land255_mod.
  rewrite (Z.mod_small y 256) by lia. reflexivity.
Qed.

(** X29: [UART.receive] and [UART.flush] on the UART of index [index].
    [receive] is a polled read of the data register
    ([0x0400 + 0x10 * index + 4]): one read datagram per chunk of at most 255
    bytes, each naming the status register with mask 4 and expected value 0;
    answered in full, it returns the bytes in order. [flush] sets bit 0 of
    the write-only control register through [set_bit], which needs the
    current value: while that register has no cached value, [flush] fails
    with the [RuntimeError] "Register cannot be read" and sends nothing;
    with [cur] cached it sends one write datagram with the byte [y] whose
    bit 0 is set and whose other bits are those of [cur], and caches [y]. *)
Theorem X29_uart_receive_and_flush (index : Z) (data : list Z) (cur : Z)
    (t : list (list Z)) (rest q : list Z) :
  0 <= index < 16 -> 0 <= cur < 256 ->
  exists u : UART,
    UART_init index = Return u
    /\ UART_receive (uart_reg_status u) (len data)
         (uart_reg_data u,
          connected_bus t
            (concat (map (fun k => k ++ [len k]) (chunks data)) ++ rest) q 0)
       = (Return data,
          (uart_reg_data u,
           connected_bus
             (t ++ map (fun k => spec_read_datagram
                                   (0x0400 + 0x0010 * index + 4)
                                   (PollAddr (0x0400 + 0x0010 * index))
                                   4 0 (len k))
                       (chunks data))
             rest q 0))
    /\ (forall b : ScaffoldBus,
          UART_flush (uart_reg_control u, b)
          = (Raise (RuntimeError "Register cannot be read"),
             (uart_reg_control u, b)))
    /\ exists y : Z,
         0 <= y < 256
         /\ (forall j, 0 <= j ->
               Z.testbit y j = if j =? 0 then true else Z.testbit cur j)
         /\ UART_flush
              (set_cache (uart_reg_control u) (Some cur),
               connected_bus t (1 :: rest) q 0)
            = (Return tt,
               (set_cache (uart_reg_control u) (Some y),
                connected_bus
                  (t ++ [spec_write_datagram (0x0400 + 0x0010 * index + 1)
                           PollNone 255 0 [y]])
                  rest q 0)).
Proof.
  intros Hidx Hcur.
  set (base := 0x0400 + 0x0010 * index).
  assert (Ha0 : in_range 0 65536 base = true)
    by (apply in_range_true; unfold base; lia).
  assert (Ha1 : in_range 0 65536 (base + 1) = true)
    by (apply in_range_true; unfold base; lia).
  assert (Ha2 : in_range 0 65536 (base + 2) = true)
    by (apply in_range_true; unfold base; lia).
  assert (Ha3 : in_range 0 65536 (base + 3) = true)
    by (apply in_range_true; unfold base; lia).
  assert (Ha4 : in_range 0 65536 (base + 4) = true)
    by (apply in_range_true; unfold base; lia).
  assert (Hdiv : Register_init "w" (base + 3) 2 (Some 1) None
                 = Return (mkRegister (base + 3) true false false 2 1 65535 None)).
  { unfold Register_init. rewrite Ha3. reflexivity. }
  set (status := mkRegister base false true true 1 0 255 None).
  set (control := mkRegister (base + 1) true false false 1 0 255 None).
  set (config := mkRegister (base + 2) true false false 1 0 255 None).
  set (divisor := mkRegister (base + 3) true false false 2 1 65535 None).
  set (dreg := mkRegister (base + 4) true true true 1 0 255 None).
  assert (Hpoll : valid_poll (PollReg status) 4 0 = true).
  { unfold valid_poll. cbn [poll_address status reg_address].
    rewrite Ha0. reflexivity. }
  exists (mkUART status control config divisor dreg).
  split.
  { unfold UART_init. fold base.
    rewrite (Register_init_byte "rv" _ Ha0). cbn [obind].
    rewrite (Register_init_byte "w" _ Ha1). cbn [obind].
    rewrite (Register_init_byte "w" _ Ha2). cbn [obind].
    rewrite Hdiv. cbn [obind].
    rewrite (Register_init_byte "rwv" _ Ha4). reflexivity. }
  cbn [uart_reg_status uart_reg_control uart_reg_data].
  split; [| split].
  - unfold UART_receive. apply Register_read_run; [reflexivity |].
    exact (ScaffoldBus_read_all (base + 4) (PollReg status) 4 0 data t rest q
             Ha4 Hpoll).
  - intros b. unfold UART_flush, Register_set_bit. apply bind_Raise.
    rewrite Register_get_run. reflexivity.
  - set (y := Z.lor (Z.land cur
                            (Z.lnot (Z.shiftl 1 UART_REG_CONTROL_BIT_FLUSH)))
                    (Z.shiftl 1 UART_REG_CONTROL_BIT_FLUSH)).
    assert (H0 : 0 <= 0 < 8) by lia.
    assert (Hy : 0 <= y < 256) by exact (set_bit_byte cur true 0 Hcur H0).
    exists y. split; [exact Hy |]. split.
    + intros j Hj. exact (set_bit_bits cur true 0 j (Z.le_refl 0) Hj).
    + unfold UART_flush, Register_set_bit.
      rewrite (bind_Return _ _ _ _ _
                 (Register_get_cached (set_cache control (Some cur)) cur _
                    eq_refl eq_refl)).
      unfold py_shl. change (UART_REG_CONTROL_BIT_FLUSH <? 0) with false.
      cbv iota. unfold bind at 1, ret at 1. unfold bind at 1, ret at 1.
      fold y.
      pose proof (Register_set_acked (set_cache control (Some cur)) y
                    t rest q) as Hacked.
      change (reg_wideness (set_cache control (Some cur))) with 1 in Hacked.
      change (reg_min_value (set_cache control (Some cur))) with 0 in Hacked.
      change (reg_max_value (set_cache control (Some cur))) with 255 in Hacked.
      change (reg_w (set_cache control (Some cur))) with true in Hacked.
      change (reg_address (set_cache control (Some cur))) with (base + 1)
        in Hacked.
      change (Z.to_nat 1) with 1%nat in Hacked.
      rewrite be_bytes_one in Hacked by exact Hy.
      apply Hacked; [| reflexivity | lia | lia].
      unfold Register_ok.
      cbn [set_cache control reg_address reg_wideness reg_min_value
           reg_max_value reg_r].
      rewrite Ha1. reflexivity.
Qed.

Lemma X29_uart_receive_and_flush_witness :
  exists u : UART,
    UART_init 0 = Return u
    /\ UART_receive (uart_reg_status u) (len [7; 9])
         (uart_reg_data u, connected_bus [] [7; 9; 2] [] 0)
       = (Return [7; 9],
          (uart_reg_data u, connected_bus [[6; 4; 4; 4; 0; 4; 0; 2]] [] [] 0)).
Proof.
  destruct (X29_uart_receive_and_flush 0 [7; 9] 0 [] [] []
              ltac:(lia) ltac:(lia))
    as (u & Hu & Hrecv & _).
  exists u. split; [exact Hu | exact Hrecv].
Defined.
